(** * RAG chatbot service: a shallow embedding of the pipelines

    The service (FastAPI, [main.py]) exposes [/train] and [/predict].
    [/train] runs [TrainRouter.train] (extract text, persist, chunk,
    attach metadata, embed and index), [/predict] runs
    [PredictRouter.predict_flow] (retrieve, fetch history, assemble the
    prompt, generate, persist the turn).

    Embedded here: the two routers, [RetrieverService], [MongoUtils],
    [EmbeddingClient], [RAGClient], [MetadataHandler], the prompt template
    and the transport layer of [main.py].  The remote collaborators (the
    embedding and generation endpoints, the MongoDB server, the text
    splitter, the PDF reader, the byte decoders) are fields of a [Backend]
    record: what they answer is a parameter of every definition, what the
    repository's code does with the answer is translated line by line.

    Conventions.
    - A Python [str] is a [string] holding its UTF-8 bytes (a [str] with
      a lone surrogate has no such form and is left out).  [repr] and
      [strip] read it character by character; which characters are
      printable is the interpreter's Unicode database, a field of the
      backend.  [lower] changes the ASCII letters only, which is all the
      test of a file extension depends on.
    - [time.time()] readings are integers in milliseconds: every duration
      of the code is only ever printed with three decimals.
    - Similarity scores (floats in Qdrant) are integers: only their order
      is used.
    - Logging calls are not modelled. *)

From Stdlib Require Import ZArith List String Ascii Bool Lia.
From Stdlib Require Import Sorting.Permutation Sorting.Sorted.
From Stdlib Require Import DecimalString DecimalPos DecimalN.
From stdpp Require Import base option list sorting strings gmap.

Local Open Scope Z_scope.

(** ** Python-level data *)

Inductive ExcClass :=
| Exception | RuntimeError | IndexError | KeyError | ValueError | TypeError
| RAGError | RAGAPIError
| ImportError
| ExternalError (name : string).

(** [isinstance(e, ImportError)]: [ImportError] stands for the class and
    for [ModuleNotFoundError] below it. *)
Definition is_import_error (c : ExcClass) : bool :=
  match c with
  | ImportError => true
  | _ => false
  end.

(** An exception value: its class and what [str(e)] prints. *)
Record PyExc := mkExc { exc_class : ExcClass; exc_str : string }.

(** The outcome of a call: an exception or a value. *)
Definition Exc (A : Type) : Type := PyExc + A.

Definition exc_map {A C} (f : A -> C) (r : Exc A) : Exc C :=
  match r with
  | inr a => inr (f a)
  | inl e => inl e
  end.

(** JSON values of the response bodies (dicts keep insertion order). *)
#[warnings="-register-all"]
Inductive Json :=
| JStr (s : string)
| JInt (n : Z)
| JBool (b : bool)
| JObj (fields : list (string * Json)).

Definition json_keys (j : Json) : list string :=
  match j with
  | JObj fields => map fst fields
  | _ => []
  end.

Fixpoint assoc {A} (k : string) (l : list (string * A)) : option A :=
  match l with
  | [] => None
  | (k', v) :: l' => if String.eqb k k' then Some v else assoc k l'
  end.

Definition json_get (k : string) (j : Json) : option Json :=
  match j with
  | JObj fields => assoc k fields
  | _ => None
  end.

(** ** Strings *)

Definition nl : string := String "010"%char EmptyString.
Definition dquote : ascii := "034"%char.
Definition squote : ascii := "'"%char.
Definition backslash : ascii := "\"%char.

(** [sep.join(l)] *)
Fixpoint join (sep : string) (l : list string) : string :=
  match l with
  | [] => EmptyString
  | [s] => s
  | s :: l' => s +:+ sep +:+ join sep l'
  end.

Fixpoint contains_char (c : ascii) (s : string) : bool :=
  match s with
  | EmptyString => false
  | String d s' => Ascii.eqb c d || contains_char c s'
  end.

(** [needle in s] *)
Fixpoint is_substring (needle s : string) : bool :=
  String.prefix needle s ||
  match s with
  | EmptyString => false
  | String _ s' => is_substring needle s'
  end.

Definition N_to_string (n : N) : string :=
  NilZero.string_of_uint (N.to_uint n).

(** [str(z)] for an [int] *)
Definition Z_to_string (z : Z) : string :=
  if z <? 0 then String "-" (N_to_string (Z.abs_N z))
  else N_to_string (Z.abs_N z).

Definition hex_digit (n : nat) : ascii :=
  nth n (list_ascii_of_string "0123456789abcdef") "0"%char.

(** *** The characters of a [str]

    [utf8_head s] reads the character that starts [s] when it takes more
    than one byte: its code point and the number of its bytes.  It is
    [None] on an ASCII character, and on bytes that are not the UTF-8 form
    of a character (too short, not the shortest form, a surrogate, or
    beyond U+10FFFF). *)
Definition continuation (c : ascii) : option N :=
  let n := N_of_ascii c in
  if ((128 <=? n) && (n <? 192))%N then Some (n - 128)%N else None.

Definition utf8_head (s : string) : option (N * nat) :=
  match s with
  | EmptyString => None
  | String b0 s1 =>
      let n0 := N_of_ascii b0 in
      if ((194 <=? n0) && (n0 <? 224))%N then
        match s1 with
        | String b1 _ =>
            match continuation b1 with
            | Some c1 => Some (((n0 - 192) * 64 + c1)%N, 2%nat)
            | None => None
            end
        | _ => None
        end
      else if ((224 <=? n0) && (n0 <? 240))%N then
        match s1 with
        | String b1 (String b2 _) =>
            match continuation b1, continuation b2 with
            | Some c1, Some c2 =>
                let cp := ((n0 - 224) * 4096 + c1 * 64 + c2)%N in
                if ((2048 <=? cp) && negb ((55296 <=? cp) && (cp <? 57344)))%N
                then Some (cp, 3%nat) else None
            | _, _ => None
            end
        | _ => None
        end
      else if ((240 <=? n0) && (n0 <? 245))%N then
        match s1 with
        | String b1 (String b2 (String b3 _)) =>
            match continuation b1, continuation b2, continuation b3 with
            | Some c1, Some c2, Some c3 =>
                let cp := ((n0 - 240) * 262144 + c1 * 4096 + c2 * 64 + c3)%N in
                if ((65536 <=? cp) && (cp <? 1114112))%N
                then Some (cp, 4%nat) else None
            | _, _, _ => None
            end
        | _ => None
        end
      else None
  end.

(** [n] in hexadecimal, lower case, on [width] digits *)
Fixpoint hex_digits (width : nat) (n : N) : string :=
  match width with
  | O => EmptyString
  | S w =>
      hex_digits w (n / 16)%N
      +:+ String (hex_digit (N.to_nat (n mod 16)%N)) EmptyString
  end.

(** *** [repr] of a [str] and [str] of a list of [str]

    CPython picks single quotes unless the text has a single quote and no
    double quote; it escapes the backslash, the chosen quote, tab, newline,
    carriage return, and prints the other ASCII control characters as
    [\xhh].  A character beyond ASCII is left as it is when it is printable
    ([str.isprintable], given by [printable] on its code point); otherwise
    it is printed as [\xhh], [\uhhhh] or [\Uhhhhhhhh], the shortest that
    holds its code point. *)
Definition repr_quote (s : string) : ascii :=
  if contains_char squote s && negb (contains_char dquote s)
  then dquote else squote.

Definition repr_char (q c : ascii) : string :=
  let n := nat_of_ascii c in
  if Ascii.eqb c q || Ascii.eqb c backslash then String backslash (String c EmptyString)
  else if Ascii.eqb c "009"%char then String backslash "t"
  else if Ascii.eqb c "010"%char then String backslash "n"
  else if Ascii.eqb c "013"%char then String backslash "r"
  else if (n <? 32)%nat || (n =? 127)%nat
       then String backslash
              (String "x" (String (hex_digit (n / 16)) (String (hex_digit (n mod 16)) EmptyString)))
  else String c EmptyString.

Definition repr_escape (cp : N) : string :=
  if (cp <? 256)%N then String backslash (String "x" (hex_digits 2 cp))
  else if (cp <? 65536)%N then String backslash (String "u" (hex_digits 4 cp))
  else String backslash (String "U" (hex_digits 8 cp)).

(** [skip] counts the bytes still to pass of a character already
    printed. *)
Fixpoint repr_body (printable : N -> bool) (q : ascii) (skip : nat) (s : string)
    : string :=
  match s with
  | EmptyString => EmptyString
  | String c s' =>
      match skip with
      | S k => repr_body printable q k s'
      | O =>
          match utf8_head s with
          | Some (cp, len) =>
              (if printable cp then substring 0 len s else repr_escape cp)
              +:+ repr_body printable q (len - 1) s'
          | None => repr_char q c +:+ repr_body printable q 0 s'
          end
      end
  end.

Definition py_repr (printable : N -> bool) (s : string) : string :=
  let q := repr_quote s in
  String q (repr_body printable q 0 s +:+ String q EmptyString).

(** [str(l)] for a list of strings: [['a', 'b']]. *)
Definition py_str_list (printable : N -> bool) (l : list string) : string :=
  "[" +:+ join ", " (map (py_repr printable) l) +:+ "]".

(** *** [str.format] with named fields

    [kw] holds the keyword arguments already converted with [str].  Doubled
    braces are literal braces; a field is a plain name between braces (the
    only form the template of this repository uses). *)
Fixpoint py_format_go (printable : N -> bool) (kw : list (string * string))
    (field : option string) (t : string) : Exc string :=
  match t with
  | EmptyString =>
      match field with
      | None => inr EmptyString
      | Some _ => inl (mkExc ValueError "expected '}' before end of string")
      end
  | String c rest =>
      match field with
      | None =>
          if Ascii.eqb c "{"%char then
            match rest with
            | String "{"%char rest' =>
                match py_format_go printable kw None rest' with
                | inr r => inr (String "{" r)
                | inl e => inl e
                end
            | _ => py_format_go printable kw (Some EmptyString) rest
            end
          else if Ascii.eqb c "}"%char then
            match rest with
            | String "}"%char rest' =>
                match py_format_go printable kw None rest' with
                | inr r => inr (String "}" r)
                | inl e => inl e
                end
            | _ => inl (mkExc ValueError "Single '}' encountered in format string")
            end
          else
            match py_format_go printable kw None rest with
            | inr r => inr (String c r)
            | inl e => inl e
            end
      | Some name =>
          if Ascii.eqb c "}"%char then
            match assoc name kw with
            | Some v =>
                match py_format_go printable kw None rest with
                | inr r => inr (v +:+ r)
                | inl e => inl e
                end
            | None => inl (mkExc KeyError (py_repr printable name))
            end
          else py_format_go printable kw (Some (name +:+ String c EmptyString)) rest
      end
  end.

Definition py_format (printable : N -> bool) (t : string)
    (kw : list (string * string)) : Exc string :=
  py_format_go printable kw None t.

(** *** [f"{x:.3f}"] for a duration in milliseconds *)
Definition pad3 (n : N) : string :=
  (if (n <? 10)%N then "00" else if (n <? 100)%N then "0" else EmptyString)
  +:+ N_to_string n.

Definition format_3f (ms : Z) : string :=
  let a := Z.abs_N ms in
  (if ms <? 0 then "-" else EmptyString) +:+
  N_to_string (a / 1000)%N +:+ "." +:+ pad3 (a mod 1000)%N.

(** A ["<seconds>s"] string: an optional sign, the digits of the whole
    seconds, a dot, three digits, and the letter s. *)
Definition is_digit (c : ascii) : bool :=
  let n := nat_of_ascii c in (48 <=? n)%nat && (n <=? 57)%nat.

Fixpoint all_digits (s : string) : bool :=
  match s with
  | EmptyString => true
  | String c s' => is_digit c && all_digits s'
  end.

Definition fraction_then_s (s : string) : bool :=
  match s with
  | String p (String a (String b (String c (String u EmptyString)))) =>
      Ascii.eqb p "."%char && is_digit a && is_digit b && is_digit c
      && Ascii.eqb u "s"%char
  | _ => false
  end.

Fixpoint digits_then_fraction (s : string) : bool :=
  match s with
  | EmptyString => false
  | String c s' => is_digit c && (fraction_then_s s' || digits_then_fraction s')
  end.

Definition is_seconds_string (s : string) : bool :=
  match s with
  | String c s' =>
      if Ascii.eqb c "-"%char then digits_then_fraction s'
      else digits_then_fraction s
  | EmptyString => false
  end.

(** The shape of the fraction printed for [r] thousandths. *)
Definition pad3_shape (r : N) : bool :=
  fraction_then_s ("." +:+ pad3 r +:+ "s").

(** ** [prompt.py] *)

Definition PROMPT_TEMPLATE : string :=
  join nl
    [ EmptyString;
      "You are a helpful customer support assistant.";
      EmptyString;
      "Please respond to the user's query based on the context provided and refer chat history.";
      "Use engaging, friendly, and helpful tone.";
      "Highlight key points in bold.";
      "Use bullet points for lists and start each bullet point with an asterisk (*) and ensure each appears on a new line.";
      "Use engaging, friendly, and helpful tone.";
      "Highlight key points in bold.";
      "Use bullet points for lists and start each bullet point with an asterisk (*) and ensure each appears on a new line.";
      "If the user's query is related to the context, please respond with the most relevant information from the context.";
      "If the user's query is not related to the context, please respond with "
        +:+ String dquote ("I'm sorry, I can't help with that." +:+ String dquote EmptyString);
      "Use consistent markdown formatting for all tables, links/deeplinks, and code blocks.";
      EmptyString;
      "Here is the chat history:";
      "{chat_history}";
      EmptyString;
      "Here is the context:";
      "{context}";
      EmptyString;
      "Here is the user's query:";
      "{query}";
      EmptyString ]%string.

(** [CONTEXT_PROMPT.format(chat_history=..., context=..., query=...)]: the
    router passes the two Python lists themselves, so the template receives
    their [str]. *)
Definition CONTEXT_PROMPT_format (printable : N -> bool)
    (chat_history context : list string) (query : string) : Exc string :=
  py_format printable PROMPT_TEMPLATE
    [ ("chat_history", py_str_list printable chat_history);
      ("context", py_str_list printable context);
      ("query", query) ]%string.

(** The fixed text of the template up to the chat history heading. *)
Definition INSTRUCTIONS : string :=
  join nl
    [ EmptyString;
      "You are a helpful customer support assistant.";
      EmptyString;
      "Please respond to the user's query based on the context provided and refer chat history.";
      "Use engaging, friendly, and helpful tone.";
      "Highlight key points in bold.";
      "Use bullet points for lists and start each bullet point with an asterisk (*) and ensure each appears on a new line.";
      "Use engaging, friendly, and helpful tone.";
      "Highlight key points in bold.";
      "Use bullet points for lists and start each bullet point with an asterisk (*) and ensure each appears on a new line.";
      "If the user's query is related to the context, please respond with the most relevant information from the context.";
      "If the user's query is not related to the context, please respond with "
        +:+ String dquote ("I'm sorry, I can't help with that." +:+ String dquote EmptyString);
      "Use consistent markdown formatting for all tables, links/deeplinks, and code blocks.";
      EmptyString;
      EmptyString ]%string.

(** ** Stored documents *)

(** [uploaded_documents] collection *)
Record UploadedDoc := mkUploadedDoc {
  doc_user_id : string;
  doc_filename : string;
  doc_file_content : string;
  doc_upload_time : Z
}.

(** [chat_sessions] collection.  A stored turn may lack [query] or
    [response] ([get_chat_history] reads them with [.get(key, '')]). *)
Record ChatDoc := mkChatDoc {
  chat_user_id : string;
  chat_session_id : string;
  chat_query : option string;
  chat_response : option string;
  chat_timestamp : Z
}.

(** ** Replies of the remote services *)

(** OpenAI-style chat completion body, as far as [get_response] reads it. *)
Record LlmMessage := mkLlmMessage { message_content : option string }.
Record LlmChoice := mkLlmChoice { choice_message : option LlmMessage }.
Record LlmUsage := mkLlmUsage {
  prompt_tokens : option Z;
  completion_tokens : option Z
}.
Record LlmJson := mkLlmJson {
  lj_model : option string;
  lj_choices : option (list LlmChoice);
  lj_usage : option LlmUsage
}.

(** What [requests.post] followed by [raise_for_status] does in
    [RAGClient.chat]. *)
Inductive LlmOutcome :=
| LlmOk (body : LlmJson)
| LlmHttpError (status : Z) (text : string)
| LlmNetworkError (msg : string).

(** The JSON body posted to the embedding endpoint carries one text
    ([embed_text]) or a list of texts ([embed_texts]). *)
Inductive EmbedInput :=
| InputText (text : string)
| InputTexts (texts : list string).

Inductive MongoOp :=
| OpInsertDoc (d : UploadedDoc)
| OpInsertChat (c : ChatDoc)
| OpFind (session_id : string).

Inductive QdrantOp := OpOpen | OpUpsert | OpSearch | OpGetCollection | OpScroll.

(** Everything outside the repository.  [None] from a fault field means
    the call goes through. *)
Record Backend := mkBackend {
  Vector : Type;
  similarity : Vector -> Vector -> Z;
  clock : nat -> Z;
  isoformat : Z -> string;
  uuid4 : nat -> string;
  CLIENT_SECRET_KEY : string;
  (* [chr(cp).isprintable()] for a code point beyond ASCII *)
  isprintable : N -> bool;
  split_text : string -> list string;
  pdf_pages : string -> Exc (list string);
  decode_utf8 : string -> option string;
  decode_latin1 : string -> string;
  (* status code, response text, and the embeddings under "data" *)
  embedding_post : EmbedInput -> Exc (Z * string * list Vector);
  llm_post : string -> LlmOutcome;
  mongo_fault : MongoOp -> option PyExc;
  qdrant_fault : QdrantOp -> option PyExc
}.

(** ** The service over a backend *)

Section Service.

Variable B : Backend.

(** An indexed point: [PointStruct(id, vector, payload)]. *)
Record Point := mkPoint {
  point_id : string;
  point_vector : Vector B;
  point_payload : gmap string string
}.

(** Calls that leave the process, in the order they are issued. *)
Inductive Event :=
| EvEmbed (input : EmbedInput)
| EvGenerate (prompt : string)
| EvMongo (op : MongoOp)
| EvQdrant (op : QdrantOp).

Record World := mkWorld {
  docs_collection : list UploadedDoc;
  chat_collection : list ChatDoc;
  qdrant_points : list Point;
  ticks : nat;          (* clock readings taken so far *)
  uuid_next : nat;      (* identifiers drawn so far *)
  trace : list Event
}.

(** Python code that may raise and that changes the world as it goes: an
    exception keeps the changes made before it. *)
Definition M (A : Type) : Type := World -> Exc A * World.

#[global] Instance M_ret : MRet M := fun A (a : A) w => (inr a, w).

#[global] Instance M_bind : MBind M := fun A C (k : A -> M C) (c : M A) w =>
  match c w with
  | (inr a, w') => k a w'
  | (inl e, w') => (inl e, w')
  end.

Definition raise {A} (e : PyExc) : M A := fun w => (inl e, w).

Definition get_world : M World := fun w => (inr w, w).

Definition lift_exc {A} (r : Exc A) : M A := fun w => (r, w).

Definition emit (ev : Event) : M unit := fun w =>
  (inr tt, mkWorld (docs_collection w) (chat_collection w) (qdrant_points w)
                   (ticks w) (uuid_next w) (trace w ++ [ev])).

(** [time.time()] and [datetime.now(timezone.utc)] *)
Definition time_time : M Z := fun w =>
  (inr (clock B (ticks w)),
   mkWorld (docs_collection w) (chat_collection w) (qdrant_points w)
           (S (ticks w)) (uuid_next w) (trace w)).

(** [str(uuid.uuid4())] *)
Definition new_uuid : M string := fun w =>
  (inr (uuid4 B (uuid_next w)),
   mkWorld (docs_collection w) (chat_collection w) (qdrant_points w)
           (ticks w) (S (uuid_next w)) (trace w)).

(** [try: c  except Exception as e: h(e)] *)
Definition try_except {A} (c : M A) (h : PyExc -> M A) : M A := fun w =>
  match c w with
  | (inr a, w') => (inr a, w')
  | (inl e, w') => h e w'
  end.

(** The handler of the service and client classes: read the clock for the
    log line, then [raise] the same exception. *)
Definition reraise_timed {A} (c : M A) : M A :=
  try_except c (fun e => _ ← time_time; raise e).

(** *** MongoDB *)

Definition mongo_call (op : MongoOp) : M unit :=
  _ ← emit (EvMongo op);
  match mongo_fault B op with
  | Some e => raise e
  | None => mret tt
  end.

Definition insert_doc (d : UploadedDoc) : M unit := fun w =>
  match mongo_call (OpInsertDoc d) w with
  | (inr _, w') =>
      (inr tt, mkWorld (docs_collection w' ++ [d]) (chat_collection w')
                       (qdrant_points w') (ticks w') (uuid_next w') (trace w'))
  | (inl e, w') => (inl e, w')
  end.

Definition insert_chat (c : ChatDoc) : M unit := fun w =>
  match mongo_call (OpInsertChat c) w with
  | (inr _, w') =>
      (inr tt, mkWorld (docs_collection w') (chat_collection w' ++ [c])
                       (qdrant_points w') (ticks w') (uuid_next w') (trace w'))
  | (inl e, w') => (inl e, w')
  end.

(** Stable insertion sort, largest key first. *)
Fixpoint insert_desc {A} (key : A -> Z) (x : A) (l : list A) : list A :=
  match l with
  | [] => [x]
  | y :: l' => if key y <=? key x then x :: l else y :: insert_desc key x l'
  end.

Definition sort_desc {A} (key : A -> Z) (l : list A) : list A :=
  foldr (insert_desc key) [] l.

(** What [find({"session_id": sid}).sort("timestamp", -1).limit(3)]
    selects from the collection: the matching turns, latest first, cut at
    three. *)
Definition last_chats (collection : list ChatDoc) (session_id : string)
    : list ChatDoc :=
  firstn 3 (sort_desc chat_timestamp
              (filter (fun c => chat_session_id c = session_id) collection)).

Definition find_last_chats (session_id : string) : M (list ChatDoc) :=
  _ ← mongo_call (OpFind session_id);
  w ← get_world;
  mret (last_chats (chat_collection w) session_id).

(** [MongoUtils.save_uploaded_document] *)
Definition save_uploaded_document (user_id filename file_content : string)
    : M unit :=
  start_time ← time_time;
  reraise_timed (
    upload_time ← time_time;
    let doc := mkUploadedDoc user_id filename file_content upload_time in
    _ ← insert_doc doc;
    save_time ← time_time;
    mret tt).

(** [MongoUtils.save_chat_session] *)
Definition save_chat_session (user_id session_id query response : string)
    : M string :=
  start_time ← time_time;
  reraise_timed (
    timestamp ← time_time;
    let doc := mkChatDoc user_id session_id (Some query) (Some response) timestamp in
    _ ← insert_chat doc;
    save_time ← time_time;
    mret user_id).

(** The two lines a stored turn contributes. *)
Definition format_chat (chat : ChatDoc) : list string :=
  [ "QUERY: " +:+ default EmptyString (chat_query chat);
    "RESPONSE: " +:+ default EmptyString (chat_response chat) ]%string.

Definition format_history (chats : list ChatDoc) : list string :=
  concat (map format_chat chats).

(** [MongoUtils.get_chat_history] *)
Definition get_chat_history (session_id : string) : M (list string) :=
  start_time ← time_time;
  reraise_timed (
    chats ← find_last_chats session_id;
    let chats := rev chats in
    let formatted_history := format_history chats in
    retrieve_time ← time_time;
    mret formatted_history).

(** *** Qdrant *)

Definition qdrant_call (op : QdrantOp) : M unit :=
  _ ← emit (EvQdrant op);
  match qdrant_fault B op with
  | Some e => raise e
  | None => mret tt
  end.

(** A point whose id is already stored replaces it, another one is added. *)
Fixpoint upsert_point (p : Point) (l : list Point) : list Point :=
  match l with
  | [] => [p]
  | q :: l' =>
      if String.eqb (point_id q) (point_id p) then p :: l'
      else q :: upsert_point p l'
  end.

Definition upsert_points (ps : list Point) (l : list Point) : list Point :=
  foldl (fun acc p => upsert_point p acc) l ps.

(** [qdrant.upsert(collection_name, points)] *)
Definition qdrant_upsert (points : list Point) : M unit := fun w =>
  match qdrant_call OpUpsert w with
  | (inr _, w') =>
      (inr tt, mkWorld (docs_collection w') (chat_collection w')
                       (upsert_points points (qdrant_points w'))
                       (ticks w') (uuid_next w') (trace w'))
  | (inl e, w') => (inl e, w')
  end.

(** What [search(query_vector, limit=k)] selects: the [k] stored points
    closest to the query, best first. *)
Definition nearest (points : list Point) (query_vector : Vector B) (k : nat)
    : list Point :=
  firstn k (sort_desc (fun p => similarity B query_vector (point_vector p)) points).

(** [qdrant.search(collection_name, query_vector, limit=k)] *)
Definition qdrant_search (query_vector : Vector B) (k : nat) : M (list Point) :=
  _ ← qdrant_call OpSearch;
  w ← get_world;
  mret (nearest (qdrant_points w) query_vector k).

(** *** [EmbeddingClient] *)

Definition embed_text (text : string) : M (Vector B) :=
  start_time ← time_time;
  reraise_timed (
    _ ← emit (EvEmbed (InputText text));
    response ← lift_exc (embedding_post B (InputText text));
    api_time ← time_time;
    let '(status_code, response_text, data) := response in
    if negb (status_code =? 200) then
      raise (mkExc RuntimeError ("Embedding failed: " +:+ response_text))
    else
      match data with
      | embedding :: _ => mret embedding
      | [] => raise (mkExc IndexError "list index out of range")
      end).

Definition embed_texts (texts : list string) : M (list (Vector B)) :=
  start_time ← time_time;
  reraise_timed (
    match texts with
    | [] => mret []
    | _ =>
        _ ← emit (EvEmbed (InputTexts texts));
        response ← lift_exc (embedding_post B (InputTexts texts));
        api_time ← time_time;
        let '(status_code, response_text, data) := response in
        if negb (status_code =? 200) then
          raise (mkExc RuntimeError ("Embedding failed: " +:+ response_text))
        else mret data
    end).

(** *** [RetrieverService] *)

(** The loop of [store_chunks] over [enumerate(embeddings)], from index [i]. *)
Fixpoint build_points (texts : list string) (metadatas : list (gmap string string))
    (i : nat) (embeddings : list (Vector B)) : M (list Point) :=
  match embeddings with
  | [] => mret []
  | embedding :: rest =>
      match texts !! i with
      | None => raise (mkExc IndexError "list index out of range")
      | Some text =>
          let base_payload : gmap string string := {[ "text"%string := text ]} in
          let extra := default ∅ (metadatas !! i) in
          (* {**base_payload, **extra}: on a shared key [extra] wins *)
          let payload := extra ∪ base_payload in
          point_id ← new_uuid;
          points ← build_points texts metadatas (S i) rest;
          mret (mkPoint point_id embedding payload :: points)
      end
  end.

Definition store_chunks (texts : list string) (metadatas : list (gmap string string))
    : M unit :=
  start_time ← time_time;
  reraise_timed (
    embedding_start ← time_time;
    embeddings ← embed_texts texts;
    embedding_time ← time_time;
    point_creation_start ← time_time;
    points ← build_points texts metadatas 0 embeddings;
    point_creation_time ← time_time;
    storage_start ← time_time;
    _ ← qdrant_upsert points;
    _ ← qdrant_call OpGetCollection;
    storage_time ← time_time;
    total_time ← time_time;
    mret tt).

(** [hit.payload.get("text", '')]: the empty string when the key is absent *)
Definition hit_text (hit : Point) : string :=
  default EmptyString (point_payload hit !! "text"%string).

Definition retrieve_similar_chunks (query : string) (k : nat) : M (list string) :=
  start_time ← time_time;
  reraise_timed (
    query_embedding_start ← time_time;
    query_vector ← embed_text query;
    query_embedding_time ← time_time;
    search_start ← time_time;
    search_results ← qdrant_search query_vector k;
    _ ← qdrant_call OpGetCollection;
    _ ← qdrant_call OpScroll;
    search_time ← time_time;
    total_time ← time_time;
    let result_texts := map hit_text search_results in
    mret result_texts).

(** *** [RAGClient] *)

Definition chat (prompt : string) : M LlmJson :=
  _ ← emit (EvGenerate prompt);
  match llm_post B prompt with
  | LlmOk body => mret body
  | LlmHttpError status_code text =>
      raise (mkExc RAGAPIError
               ("API Error " +:+ Z_to_string status_code +:+ ": Request failed"))
  | LlmNetworkError msg => raise (mkExc RAGError ("Network error: " +:+ msg))
  end.

Record LlmResponse := mkLlmResponse {
  r_model : string;
  r_response : string;
  r_input_tokens : Z;
  r_output_tokens : Z
}.

Definition invalid_format {A} (what : string) : Exc A :=
  inl (mkExc RAGError ("Invalid response format: " +:+ what)).

(** [RAGClient.get_response]: a missing key or an empty [choices] list is
    turned into a [RAGError]. *)
Definition get_response (response : LlmJson) : Exc LlmResponse :=
  match lj_choices response with
  | None => invalid_format "'choices'"
  | Some [] => invalid_format "list index out of range"
  | Some (choice :: _) =>
      match choice_message choice with
      | None => invalid_format "'message'"
      | Some message =>
          match message_content message with
          | None => invalid_format "'content'"
          | Some content =>
              let usage := default (mkLlmUsage None None) (lj_usage response) in
              inr (mkLlmResponse
                     (default EmptyString (lj_model response))
                     content
                     (default 0 (prompt_tokens usage))
                     (default 0 (completion_tokens usage)))
          end
      end
  end.

(** *** [PredictRouter] *)

(** [f"{t:.3f}s"] *)
Definition seconds (t : Z) : Json := JStr (format_3f t +:+ "s").

Definition predict_flow (query session_id user_id : string) : M Json :=
  start_time ← time_time;
  try_except (
    (* Step 1: retrieve similar chunks *)
    retrieval_start ← time_time;
    context_chunks ← retrieve_similar_chunks query 5;
    now ← time_time;
    let retrieval_time := now - retrieval_start in
    (* Step 2: chat history *)
    history_start ← time_time;
    chat_history ← get_chat_history session_id;
    now ← time_time;
    let history_time := now - history_start in
    (* Step 3: prompt *)
    prompt_start ← time_time;
    system_prompt ← lift_exc (CONTEXT_PROMPT_format (isprintable B) chat_history context_chunks query);
    now ← time_time;
    let prompt_time := now - prompt_start in
    (* Step 4: LLM *)
    llm_start ← time_time;
    json_response ← chat system_prompt;
    response ← lift_exc (exc_map r_response (get_response json_response));
    input_tokens ← lift_exc (exc_map r_input_tokens (get_response json_response));
    output_tokens ← lift_exc (exc_map r_output_tokens (get_response json_response));
    model ← lift_exc (exc_map r_model (get_response json_response));
    now ← time_time;
    let llm_time := now - llm_start in
    (* Step 5: save the turn *)
    save_start ← time_time;
    _ ← save_chat_session user_id session_id query response;
    now ← time_time;
    let save_time := now - save_start in
    (* Step 6: response *)
    now ← time_time;
    let total_time := now - start_time in
    mret (JObj
      [ ("response", JStr response);
        ("model", JStr model);
        ("input_tokens", JInt input_tokens);
        ("output_tokens", JInt output_tokens);
        ("chunks_retrieved", JInt (Z.of_nat (length context_chunks)));
        ("chat_history_length", JInt (Z.of_nat (length chat_history)));
        ("timing_breakdown", JObj
           [ ("retrieval", seconds retrieval_time);
             ("history", seconds history_time);
             ("prompt", seconds prompt_time);
             ("llm", seconds llm_time);
             ("save", seconds save_time);
             ("total", seconds total_time) ]) ]%string))
  (fun e =>
     total_time ← time_time;
     raise (mkExc RAGError ("Error in predict_flow: " +:+ exc_str e))).

(** *** [MetadataHandler] *)

Definition get_metadata (text source user_id : string) : gmap string string :=
  {[ "source"%string := source; "user_id"%string := user_id ]}.

Definition get_metadata_list (texts : list string) (source user_id : string)
    : list (gmap string string) :=
  map (fun text => get_metadata text source user_id) texts.

(** *** [Chunker]: the configured [RecursiveCharacterTextSplitter] *)
Definition chunk_text (text : string) : list string := split_text B text.

(** *** [TrainRouter] *)

Definition lower_char (c : ascii) : ascii :=
  let n := nat_of_ascii c in
  if (65 <=? n)%nat && (n <=? 90)%nat then ascii_of_nat (n + 32) else c.

Fixpoint lower (s : string) : string :=
  match s with
  | EmptyString => EmptyString
  | String c s' => String (lower_char c) (lower s')
  end.

(** [s.split('.')[-1]], with [acc] the piece read since the last dot *)
Fixpoint last_piece (acc : string) (s : string) : string :=
  match s with
  | EmptyString => acc
  | String c s' =>
      if Ascii.eqb c "."%char then last_piece EmptyString s'
      else last_piece (acc +:+ String c EmptyString) s'
  end.

Definition file_extension (filename : string) : string :=
  if contains_char "."%char filename
  then last_piece EmptyString (lower filename)
  else EmptyString.

(** [s.strip()]: the white space of [str.isspace] is removed from both
    ends.  [WHITESPACE] lists these characters by their UTF-8 bytes: the
    ASCII separators, U+0085, U+00A0, U+1680, U+2000 to U+200A, U+2028,
    U+2029, U+202F, U+205F and U+3000. *)
Definition bytes (l : list nat) : string :=
  string_of_list_ascii (map ascii_of_nat l).

Definition WHITESPACE : list string :=
  map bytes
    [ [9]; [10]; [11]; [12]; [13]; [28]; [29]; [30]; [31]; [32];
      [194; 133]; [194; 160]; [225; 154; 128];
      [226; 128; 128]; [226; 128; 129]; [226; 128; 130]; [226; 128; 131];
      [226; 128; 132]; [226; 128; 133]; [226; 128; 134]; [226; 128; 135];
      [226; 128; 136]; [226; 128; 137]; [226; 128; 138];
      [226; 128; 168]; [226; 128; 169]; [226; 128; 175];
      [226; 129; 159]; [227; 128; 128] ]%nat.

(** The number of bytes of the entry of [table] that starts [s], 0 when
    none does. *)
Fixpoint space_len (table : list string) (s : string) : nat :=
  match table with
  | [] => 0%nat
  | w :: table' =>
      if String.prefix w s then String.length w else space_len table' s
  end.

(** [skip] counts the bytes still to drop of a character being removed. *)
Fixpoint lstrip_from (table : list string) (skip : nat) (s : string) : string :=
  match s with
  | EmptyString => EmptyString
  | String _ s' =>
      match skip with
      | S k => lstrip_from table k s'
      | O =>
          match space_len table s with
          | O => s
          | S k => lstrip_from table k s'
          end
      end
  end.

Definition rev_string (s : string) : string :=
  string_of_list_ascii (rev (list_ascii_of_string s)).

Definition lstrip (s : string) : string := lstrip_from WHITESPACE 0 s.

Definition rstrip (s : string) : string :=
  rev_string (lstrip_from (map rev_string WHITESPACE) 0 (rev_string s)).

Definition strip (s : string) : string := rstrip (lstrip s).

(** [extract_text_from_pdf].  [pdf_pages] stands for the import of PyPDF2,
    the reader and [extract_text] on every page.  An [ImportError] gets the
    message about the missing package, any other exception the prefixed
    message. *)
Definition extract_text_from_pdf (file_content : string) : Exc string :=
  match pdf_pages B file_content with
  | inr pages =>
      inr (strip (foldl (fun text page => text +:+ page +:+ nl) EmptyString pages))
  | inl e =>
      if is_import_error (exc_class e) then
        inl (mkExc Exception
               "PDF processing requires PyPDF2. Please install it with: pip install PyPDF2")
      else
        inl (mkExc Exception ("Failed to extract text from PDF: " +:+ exc_str e))
  end.

Definition extract_text_from_file (file_content filename : string) : Exc string :=
  let file_extension := file_extension filename in
  if String.eqb file_extension "pdf" then extract_text_from_pdf file_content
  else if existsb (String.eqb file_extension) ["txt"; "md"; "json"; "csv"]%string then
    match decode_utf8 B file_content with
    | Some text => inr text
    | None => inr (decode_latin1 B file_content)
    end
  else
    match decode_utf8 B file_content with
    | Some text => inr text
    | None =>
        inl (mkExc Exception ("Unsupported file type or encoding: " +:+ filename))
    end.

(** [UploadFile]: the name the client gave and the bytes it sent. *)
Record UploadFile := mkUploadFile { filename : string; content : string }.

Definition failed (message user_id filename : string) : Json :=
  JObj [ ("error", JStr "Processing Error");
         ("message", JStr message);
         ("user_id", JStr user_id);
         ("filename", JStr filename);
         ("status", JStr "failed") ]%string.

Definition train (user_id : string) (file : UploadFile) : M Json :=
  start_time ← time_time;
  try_except (
    (* Step 1: read the file *)
    file_read_start ← time_time;
    let file_content := content file in
    let generated := (user_id +:+ "_" +:+ filename file)%string in
    now ← time_time;
    let file_read_time := now - file_read_start in
    (* Step 2: extract the text *)
    text_extraction_start ← time_time;
    file_text ← lift_exc (extract_text_from_file file_content (filename file));
    now ← time_time;
    let text_extraction_time := now - text_extraction_start in
    (* Step 3: save the document to MongoDB *)
    mongo_start ← time_time;
    _ ← save_uploaded_document user_id generated file_text;
    now ← time_time;
    let mongo_time := now - mongo_start in
    (* Step 4: chunk *)
    chunk_start ← time_time;
    let text_chunks := chunk_text file_text in
    now ← time_time;
    let chunk_time := now - chunk_start in
    match text_chunks with
    | [] => mret (failed "No chunks generated from document" user_id (filename file))
    | _ =>
        (* Step 5: metadata *)
        metadata_start ← time_time;
        let chunk_metadata := get_metadata_list text_chunks generated user_id in
        now ← time_time;
        let metadata_time := now - metadata_start in
        (* Step 6: embed and store *)
        vector_start ← time_time;
        _ ← store_chunks text_chunks chunk_metadata;
        now ← time_time;
        let vector_time := now - vector_start in
        (* Step 7: response *)
        now ← time_time;
        let total_time := now - start_time in
        processing_time ← time_time;
        mret (JObj
          [ ("user_id", JStr user_id);
            ("filename", JStr (filename file));
            ("processing_summary", JObj
               [ ("total_chunks", JInt (Z.of_nat (length text_chunks)));
                 ("file_size", JInt (Z.of_nat (String.length file_content)));
                 ("text_length", JInt (Z.of_nat (String.length file_text)));
                 ("processing_time", JStr (isoformat B processing_time));
                 ("timing_breakdown", JObj
                    [ ("file_read", seconds file_read_time);
                      ("text_extraction", seconds text_extraction_time);
                      ("mongo_save", seconds mongo_time);
                      ("chunking", seconds chunk_time);
                      ("metadata", seconds metadata_time);
                      ("vector_storage", seconds vector_time);
                      ("total", seconds total_time) ]) ]);
            ("storage_info", JObj
               [ ("vector_db", JStr "Qdrant");
                 ("document_db", JStr "MongoDB");
                 ("chunks_stored", JInt (Z.of_nat (length text_chunks)));
                 ("file_stored", JBool true) ]);
            ("status", JStr "success");
            ("message", JStr ("Document '" +:+ filename file
                              +:+ "' processed and stored successfully")) ]%string)
    end)
  (fun e =>
     total_time ← time_time;
     mret (failed (exc_str e) user_id (filename file))).

(** *** [main.py] *)

(** What the transport layer sends back: the handler's return value (200),
    an [HTTPException], or FastAPI's own answer to a request that lacks a
    required parameter (422). *)
Inductive Response :=
| Success (body : Json)
| HTTPException (status_code : Z) (detail : string)
| RequestValidationError (loc : list string).

Definition response_status (r : Response) : Z :=
  match r with
  | Success _ => 200
  | HTTPException status_code _ => status_code
  | RequestValidationError _ => 422
  end.

Definition verify_client_secret (client_secret : string) : Response + string :=
  if negb (String.eqb client_secret (CLIENT_SECRET_KEY B)) then
    inl (HTTPException 401 "Invalid client secret key")
  else inr client_secret.

(** [client_secret: str = Header(..., alias="X-Client-Secret")]: the header
    is required; without it FastAPI never calls the dependency. *)
Definition Depends_verify_client_secret (x_client_secret : option string)
    : Response + string :=
  match x_client_secret with
  | None => inl (RequestValidationError ["header"; "X-Client-Secret"]%string)
  | Some client_secret => verify_client_secret client_secret
  end.

Record PredictRequest := mkPredictRequest {
  query : string;
  session_id : string;
  user_id : string;
  caching_flag : option bool
}.

(** [PredictRouter()] and [TrainRouter()] open the clients; the Qdrant one
    reads the collection list (and creates the collection when absent). *)
Definition new_router : M unit := qdrant_call OpOpen.

Definition endpoint (prefix : string) (handler : M Json) : World -> Response * World :=
  fun w =>
    match (start_time ← time_time;
           try_except
             (result ← handler; response_time ← time_time; mret (Success result))
             (fun e =>
                response_time ← time_time;
                mret (HTTPException 500 (prefix +:+ exc_str e)))) w with
    | (inr r, w') => (r, w')
    | (inl e, w') => (HTTPException 500 (exc_str e), w')
    end.

(** [POST /predict] *)
Definition predict (x_client_secret : option string) (req : PredictRequest)
    : World -> Response * World :=
  match Depends_verify_client_secret x_client_secret with
  | inl rejected => fun w => (rejected, w)
  | inr _ =>
      endpoint "Prediction failed: "
        (_ ← new_router; predict_flow (query req) (session_id req) (user_id req))
  end.

(** [POST /train] *)
Definition train_endpoint (x_client_secret : option string) (user_id : string)
    (file : UploadFile) : World -> Response * World :=
  match Depends_verify_client_secret x_client_secret with
  | inl rejected => fun w => (rejected, w)
  | inr _ => endpoint "Training failed: " (_ ← new_router; train user_id file)
  end.

End Service.

Arguments mkPoint {B}.
Arguments mkWorld {B}.
Arguments point_id {B}.
Arguments point_vector {B}.
Arguments point_payload {B}.
Arguments docs_collection {B}.
Arguments chat_collection {B}.
Arguments qdrant_points {B}.
Arguments ticks {B}.
Arguments uuid_next {B}.
Arguments trace {B}.

Arguments nearest {B}.
Arguments hit_text {B}.
Arguments raise {B A}.
Arguments lift_exc {B A}.
Arguments try_except {B A}.
Arguments reraise_timed {B A}.

(** ** A small backend to run the service on

    Vectors are integers and closeness is distance on the line; the
    splitter yields the whole text as one chunk and nothing for the empty
    text; the generation endpoint always answers; PyPDF2 is not
    installed. *)
Module Demo.

(** The code points from 128 up that [str.isprintable] rejects, as closed
    ranges: Unicode 14.0, the database of CPython 3.11. *)
Definition NOT_PRINTABLE : list (N * N) :=
  [ (128, 160); (173, 173); (888, 889); (896, 899); (907, 907); (909, 909);
    (930, 930); (1328, 1328); (1367, 1368); (1419, 1420); (1424, 1424); (1480,
    1487); (1515, 1518); (1525, 1541); (1564, 1564); (1757, 1757); (1806,
    1807); (1867, 1868); (1970, 1983); (2043, 2044); (2094, 2095); (2111,
    2111); (2140, 2141); (2143, 2143); (2155, 2159); (2191, 2199); (2274,
    2274); (2436, 2436); (2445, 2446); (2449, 2450); (2473, 2473); (2481,
    2481); (2483, 2485); (2490, 2491); (2501, 2502); (2505, 2506); (2511,
    2518); (2520, 2523); (2526, 2526); (2532, 2533); (2559, 2560); (2564,
    2564); (2571, 2574); (2577, 2578); (2601, 2601); (2609, 2609); (2612,
    2612); (2615, 2615); (2618, 2619); (2621, 2621); (2627, 2630); (2633,
    2634); (2638, 2640); (2642, 2648); (2653, 2653); (2655, 2661); (2679,
    2688); (2692, 2692); (2702, 2702); (2706, 2706); (2729, 2729); (2737,
    2737); (2740, 2740); (2746, 2747); (2758, 2758); (2762, 2762); (2766,
    2767); (2769, 2783); (2788, 2789); (2802, 2808); (2816, 2816); (2820,
    2820); (2829, 2830); (2833, 2834); (2857, 2857); (2865, 2865); (2868,
    2868); (2874, 2875); (2885, 2886); (2889, 2890); (2894, 2900); (2904,
    2907); (2910, 2910); (2916, 2917); (2936, 2945); (2948, 2948); (2955,
    2957); (2961, 2961); (2966, 2968); (2971, 2971); (2973, 2973); (2976,
    2978); (2981, 2983); (2987, 2989); (3002, 3005); (3011, 3013); (3017,
    3017); (3022, 3023); (3025, 3030); (3032, 3045); (3067, 3071); (3085,
    3085); (3089, 3089); (3113, 3113); (3130, 3131); (3141, 3141); (3145,
    3145); (3150, 3156); (3159, 3159); (3163, 3164); (3166, 3167); (3172,
    3173); (3184, 3190); (3213, 3213); (3217, 3217); (3241, 3241); (3252,
    3252); (3258, 3259); (3269, 3269); (3273, 3273); (3278, 3284); (3287,
    3292); (3295, 3295); (3300, 3301); (3312, 3312); (3315, 3327); (3341,
    3341); (3345, 3345); (3397, 3397); (3401, 3401); (3408, 3411); (3428,
    3429); (3456, 3456); (3460, 3460); (3479, 3481); (3506, 3506); (3516,
    3516); (3518, 3519); (3527, 3529); (3531, 3534); (3541, 3541); (3543,
    3543); (3552, 3557); (3568, 3569); (3573, 3584); (3643, 3646); (3676,
    3712); (3715, 3715); (3717, 3717); (3723, 3723); (3748, 3748); (3750,
    3750); (3774, 3775); (3781, 3781); (3783, 3783); (3790, 3791); (3802,
    3803); (3808, 3839); (3912, 3912); (3949, 3952); (3992, 3992); (4029,
    4029); (4045, 4045); (4059, 4095); (4294, 4294); (4296, 4300); (4302,
    4303); (4681, 4681); (4686, 4687); (4695, 4695); (4697, 4697); (4702,
    4703); (4745, 4745); (4750, 4751); (4785, 4785); (4790, 4791); (4799,
    4799); (4801, 4801); (4806, 4807); (4823, 4823); (4881, 4881); (4886,
    4887); (4955, 4956); (4989, 4991); (5018, 5023); (5110, 5111); (5118,
    5119); (5760, 5760); (5789, 5791); (5881, 5887); (5910, 5918); (5943,
    5951); (5972, 5983); (5997, 5997); (6001, 6001); (6004, 6015); (6110,
    6111); (6122, 6127); (6138, 6143); (6158, 6158); (6170, 6175); (6265,
    6271); (6315, 6319); (6390, 6399); (6431, 6431); (6444, 6447); (6460,
    6463); (6465, 6467); (6510, 6511); (6517, 6527); (6572, 6575); (6602,
    6607); (6619, 6621); (6684, 6685); (6751, 6751); (6781, 6782); (6794,
    6799); (6810, 6815); (6830, 6831); (6863, 6911); (6989, 6991); (7039,
    7039); (7156, 7163); (7224, 7226); (7242, 7244); (7305, 7311); (7355,
    7356); (7368, 7375); (7419, 7423); (7958, 7959); (7966, 7967); (8006,
    8007); (8014, 8015); (8024, 8024); (8026, 8026); (8028, 8028); (8030,
    8030); (8062, 8063); (8117, 8117); (8133, 8133); (8148, 8149); (8156,
    8156); (8176, 8177); (8181, 8181); (8191, 8207); (8232, 8239); (8287,
    8303); (8306, 8307); (8335, 8335); (8349, 8351); (8385, 8399); (8433,
    8447); (8588, 8591); (9255, 9279); (9291, 9311); (11124, 11125); (11158,
    11158); (11508, 11512); (11558, 11558); (11560, 11564); (11566, 11567);
    (11624, 11630); (11633, 11646); (11671, 11679); (11687, 11687); (11695,
    11695); (11703, 11703); (11711, 11711); (11719, 11719); (11727, 11727);
    (11735, 11735); (11743, 11743); (11870, 11903); (11930, 11930); (12020,
    12031); (12246, 12271); (12284, 12288); (12352, 12352); (12439, 12440);
    (12544, 12548); (12592, 12592); (12687, 12687); (12772, 12783); (12831,
    12831); (42125, 42127); (42183, 42191); (42540, 42559); (42744, 42751);
    (42955, 42959); (42962, 42962); (42964, 42964); (42970, 42993); (43053,
    43055); (43066, 43071); (43128, 43135); (43206, 43213); (43226, 43231);
    (43348, 43358); (43389, 43391); (43470, 43470); (43482, 43485); (43519,
    43519); (43575, 43583); (43598, 43599); (43610, 43611); (43715, 43738);
    (43767, 43776); (43783, 43784); (43791, 43792); (43799, 43807); (43815,
    43815); (43823, 43823); (43884, 43887); (44014, 44015); (44026, 44031);
    (55204, 55215); (55239, 55242); (55292, 63743); (64110, 64111); (64218,
    64255); (64263, 64274); (64280, 64284); (64311, 64311); (64317, 64317);
    (64319, 64319); (64322, 64322); (64325, 64325); (64451, 64466); (64912,
    64913); (64968, 64974); (64976, 65007); (65050, 65055); (65107, 65107);
    (65127, 65127); (65132, 65135); (65141, 65141); (65277, 65280); (65471,
    65473); (65480, 65481); (65488, 65489); (65496, 65497); (65501, 65503);
    (65511, 65511); (65519, 65531); (65534, 65535); (65548, 65548); (65575,
    65575); (65595, 65595); (65598, 65598); (65614, 65615); (65630, 65663);
    (65787, 65791); (65795, 65798); (65844, 65846); (65935, 65935); (65949,
    65951); (65953, 65999); (66046, 66175); (66205, 66207); (66257, 66271);
    (66300, 66303); (66340, 66348); (66379, 66383); (66427, 66431); (66462,
    66462); (66500, 66503); (66518, 66559); (66718, 66719); (66730, 66735);
    (66772, 66775); (66812, 66815); (66856, 66863); (66916, 66926); (66939,
    66939); (66955, 66955); (66963, 66963); (66966, 66966); (66978, 66978);
    (66994, 66994); (67002, 67002); (67005, 67071); (67383, 67391); (67414,
    67423); (67432, 67455); (67462, 67462); (67505, 67505); (67515, 67583);
    (67590, 67591); (67593, 67593); (67638, 67638); (67641, 67643); (67645,
    67646); (67670, 67670); (67743, 67750); (67760, 67807); (67827, 67827);
    (67830, 67834); (67868, 67870); (67898, 67902); (67904, 67967); (68024,
    68027); (68048, 68049); (68100, 68100); (68103, 68107); (68116, 68116);
    (68120, 68120); (68150, 68151); (68155, 68158); (68169, 68175); (68185,
    68191); (68256, 68287); (68327, 68330); (68343, 68351); (68406, 68408);
    (68438, 68439); (68467, 68471); (68498, 68504); (68509, 68520); (68528,
    68607); (68681, 68735); (68787, 68799); (68851, 68857); (68904, 68911);
    (68922, 69215); (69247, 69247); (69290, 69290); (69294, 69295); (69298,
    69375); (69416, 69423); (69466, 69487); (69514, 69551); (69580, 69599);
    (69623, 69631); (69710, 69713); (69750, 69758); (69821, 69821); (69827,
    69839); (69865, 69871); (69882, 69887); (69941, 69941); (69960, 69967);
    (70007, 70015); (70112, 70112); (70133, 70143); (70162, 70162); (70207,
    70271); (70279, 70279); (70281, 70281); (70286, 70286); (70302, 70302);
    (70314, 70319); (70379, 70383); (70394, 70399); (70404, 70404); (70413,
    70414); (70417, 70418); (70441, 70441); (70449, 70449); (70452, 70452);
    (70458, 70458); (70469, 70470); (70473, 70474); (70478, 70479); (70481,
    70486); (70488, 70492); (70500, 70501); (70509, 70511); (70517, 70655);
    (70748, 70748); (70754, 70783); (70856, 70863); (70874, 71039); (71094,
    71095); (71134, 71167); (71237, 71247); (71258, 71263); (71277, 71295);
    (71354, 71359); (71370, 71423); (71451, 71452); (71468, 71471); (71495,
    71679); (71740, 71839); (71923, 71934); (71943, 71944); (71946, 71947);
    (71956, 71956); (71959, 71959); (71990, 71990); (71993, 71994); (72007,
    72015); (72026, 72095); (72104, 72105); (72152, 72153); (72165, 72191);
    (72264, 72271); (72355, 72367); (72441, 72703); (72713, 72713); (72759,
    72759); (72774, 72783); (72813, 72815); (72848, 72849); (72872, 72872);
    (72887, 72959); (72967, 72967); (72970, 72970); (73015, 73017); (73019,
    73019); (73022, 73022); (73032, 73039); (73050, 73055); (73062, 73062);
    (73065, 73065); (73103, 73103); (73106, 73106); (73113, 73119); (73130,
    73439); (73465, 73647); (73649, 73663); (73714, 73726); (74650, 74751);
    (74863, 74863); (74869, 74879); (75076, 77711); (77811, 77823); (78895,
    82943); (83527, 92159); (92729, 92735); (92767, 92767); (92778, 92781);
    (92863, 92863); (92874, 92879); (92910, 92911); (92918, 92927); (92998,
    93007); (93018, 93018); (93026, 93026); (93048, 93052); (93072, 93759);
    (93851, 93951); (94027, 94030); (94088, 94094); (94112, 94175); (94181,
    94191); (94194, 94207); (100344, 100351); (101590, 101631); (101641,
    110575); (110580, 110580); (110588, 110588); (110591, 110591); (110883,
    110927); (110931, 110947); (110952, 110959); (111356, 113663); (113771,
    113775); (113789, 113791); (113801, 113807); (113818, 113819); (113824,
    118527); (118574, 118575); (118599, 118607); (118724, 118783); (119030,
    119039); (119079, 119080); (119155, 119162); (119275, 119295); (119366,
    119519); (119540, 119551); (119639, 119647); (119673, 119807); (119893,
    119893); (119965, 119965); (119968, 119969); (119971, 119972); (119975,
    119976); (119981, 119981); (119994, 119994); (119996, 119996); (120004,
    120004); (120070, 120070); (120075, 120076); (120085, 120085); (120093,
    120093); (120122, 120122); (120127, 120127); (120133, 120133); (120135,
    120137); (120145, 120145); (120486, 120487); (120780, 120781); (121484,
    121498); (121504, 121504); (121520, 122623); (122655, 122879); (122887,
    122887); (122905, 122906); (122914, 122914); (122917, 122917); (122923,
    123135); (123181, 123183); (123198, 123199); (123210, 123213); (123216,
    123535); (123567, 123583); (123642, 123646); (123648, 124895); (124903,
    124903); (124908, 124908); (124911, 124911); (124927, 124927); (125125,
    125126); (125143, 125183); (125260, 125263); (125274, 125277); (125280,
    126064); (126133, 126208); (126270, 126463); (126468, 126468); (126496,
    126496); (126499, 126499); (126501, 126502); (126504, 126504); (126515,
    126515); (126520, 126520); (126522, 126522); (126524, 126529); (126531,
    126534); (126536, 126536); (126538, 126538); (126540, 126540); (126544,
    126544); (126547, 126547); (126549, 126550); (126552, 126552); (126554,
    126554); (126556, 126556); (126558, 126558); (126560, 126560); (126563,
    126563); (126565, 126566); (126571, 126571); (126579, 126579); (126584,
    126584); (126589, 126589); (126591, 126591); (126602, 126602); (126620,
    126624); (126628, 126628); (126634, 126634); (126652, 126703); (126706,
    126975); (127020, 127023); (127124, 127135); (127151, 127152); (127168,
    127168); (127184, 127184); (127222, 127231); (127406, 127461); (127491,
    127503); (127548, 127551); (127561, 127567); (127570, 127583); (127590,
    127743); (128728, 128732); (128749, 128751); (128765, 128767); (128884,
    128895); (128985, 128991); (129004, 129007); (129009, 129023); (129036,
    129039); (129096, 129103); (129114, 129119); (129160, 129167); (129198,
    129199); (129202, 129279); (129620, 129631); (129646, 129647); (129653,
    129655); (129661, 129663); (129671, 129679); (129709, 129711); (129723,
    129727); (129734, 129743); (129754, 129759); (129768, 129775); (129783,
    129791); (129939, 129939); (129995, 130031); (130042, 131071); (173792,
    173823); (177977, 177983); (178206, 178207); (183970, 183983); (191457,
    194559); (195102, 196607); (201547, 917759); (918000, 1114111) ]%N.

(** The search is driven by a count that depends on [cp], so that the
    table stays folded until a code point is given. *)
Fixpoint in_ranges (fuel : nat) (table : list (N * N)) (cp : N) : bool :=
  match fuel, table with
  | S fuel', (lo, hi) :: table' =>
      (negb (cp <? lo) && (cp <=? hi))%N || in_ranges fuel' table' cp
  | _, _ => false
  end.

Definition printable (cp : N) : bool :=
  negb (in_ranges (N.size_nat cp + length NOT_PRINTABLE) NOT_PRINTABLE cp).

Definition reply : LlmJson :=
  mkLlmJson (Some "gpt-3.5-turbo"%string)
            (Some [mkLlmChoice (Some (mkLlmMessage (Some "Hello!"%string)))])
            (Some (mkLlmUsage (Some 42) (Some 7))).

Definition embed (s : string) : Z := Z.of_nat (String.length s).

Definition make (llm : string -> LlmOutcome) (mongo : MongoOp -> option PyExc)
    (qdrant : QdrantOp -> option PyExc) : Backend :=
  {| Vector := Z;
     similarity := fun q v => - Z.abs (q - v);
     clock := fun n => 1000 + 250 * Z.of_nat n;
     isoformat := Z_to_string;
     uuid4 := fun n => ("uuid-" +:+ N_to_string (N.of_nat n))%string;
     CLIENT_SECRET_KEY := "s3cret"%string;
     isprintable := printable;
     split_text := fun s => match s with EmptyString => [] | _ => [s] end;
     pdf_pages := fun _ => inl (mkExc ImportError "No module named 'PyPDF2'");
     decode_utf8 := Some;
     decode_latin1 := fun s => s;
     embedding_post := fun input =>
       match input with
       | InputText s => inr (200, EmptyString, [embed s])
       | InputTexts l => inr (200, EmptyString, map embed l)
       end;
     llm_post := llm;
     mongo_fault := mongo;
     qdrant_fault := qdrant |}.

Definition up {A} (op : A) : option PyExc := None.

Definition backend : Backend := make (fun _ => LlmOk reply) up up.

(** The generation endpoint cannot be reached. *)
Definition backend_llm_down : Backend :=
  make (fun _ => LlmNetworkError "connection refused") up up.

Definition empty_world (B : Backend) : World B := mkWorld [] [] [] 0 0 [].

(** Five turns of session s1, stored with a turn of another session in
    between; the second turn of s1 lacks its response. *)
Definition turn (n : Z) (q r : string) : ChatDoc :=
  mkChatDoc "u1" "s1" (Some q) (Some r) n.

Definition t1 : ChatDoc := turn 10 "q1" "r1".
Definition t2 : ChatDoc := mkChatDoc "u1" "s1" (Some "q2"%string) None 20.
Definition t3 : ChatDoc := turn 30 "q3" "r3".
Definition t4 : ChatDoc := turn 40 "q4" "r4".
Definition t5 : ChatDoc := turn 50 "q5" "r5".
Definition other : ChatDoc := mkChatDoc "u2" "s2" (Some "hello"%string) (Some "hi"%string) 35.

Definition history_world (B : Backend) : World B :=
  mkWorld [] [t1; t2; t3; other; t4; t5] [] 0 0 [].

Definition gap_world (B : Backend) : World B :=
  mkWorld [] [t1; t2] [] 0 0 [].

(** Three indexed points, the second without a text payload. *)
Definition index_world : World backend :=
  mkWorld [] []
    [ @mkPoint backend "p1" 30 {[ "text"%string := "far away from the query"%string ]};
      @mkPoint backend "p2" 5 {[ "source"%string := "u1_a.txt"%string ]};
      @mkPoint backend "p3" 4 {[ "text"%string := "near"%string ]} ]
    0 0 [].

Definition two_chunks : list string := ["Refunds take 30 days."; "Support is open 24/7."].

Definition one_metadata : list (gmap string string) :=
  [ {[ "source"%string := "u1_faq.txt"%string; "user_id"%string := "u1"%string ]} ].

Definition empty_file : UploadFile := mkUploadFile "empty.txt" EmptyString.

(** A chunk of two lines. *)
Definition two_line_chunk : string := "Refunds:" +:+ nl +:+ "30 days".

(** PyPDF2 is installed and is handed bytes that are no PDF; bytes with 255
    are not UTF-8; the two endpoints turn every request down. *)
Definition backend_strict : Backend :=
  {| Vector := Z;
     similarity := fun q v => - Z.abs (q - v);
     clock := fun n => 1000 + 250 * Z.of_nat n;
     isoformat := Z_to_string;
     uuid4 := fun n => ("uuid-" +:+ N_to_string (N.of_nat n))%string;
     CLIENT_SECRET_KEY := "s3cret"%string;
     isprintable := printable;
     split_text := fun s => match s with EmptyString => [] | _ => [s] end;
     pdf_pages := fun _ =>
       inl (mkExc (ExternalError "PdfReadError") "EOF marker not found");
     decode_utf8 := fun s => if contains_char "255"%char s then None else Some s;
     decode_latin1 := fun s => s;
     embedding_post := fun _ => inr (503, "upstream unavailable"%string, []);
     llm_post := fun _ => LlmHttpError 429 "rate limited";
     mongo_fault := up;
     qdrant_fault := up |}.

(** The embedding endpoint answers with two vectors whatever it is sent. *)
Definition backend_surplus : Backend :=
  {| Vector := Z;
     similarity := fun q v => - Z.abs (q - v);
     clock := fun n => 1000 + 250 * Z.of_nat n;
     isoformat := Z_to_string;
     uuid4 := fun n => ("uuid-" +:+ N_to_string (N.of_nat n))%string;
     CLIENT_SECRET_KEY := "s3cret"%string;
     isprintable := printable;
     split_text := fun s => match s with EmptyString => [] | _ => [s] end;
     pdf_pages := fun _ => inl (mkExc ImportError "No module named 'PyPDF2'");
     decode_utf8 := Some;
     decode_latin1 := fun s => s;
     embedding_post := fun _ => inr (200, EmptyString, [1; 2]);
     llm_post := fun _ => LlmOk reply;
     mongo_fault := up;
     qdrant_fault := up |}.

(** Embedding and stores answer, the generation endpoint is rate limited. *)
Definition backend_rate_limited : Backend :=
  {| Vector := Z;
     similarity := fun q v => - Z.abs (q - v);
     clock := fun n => 1000 + 250 * Z.of_nat n;
     isoformat := Z_to_string;
     uuid4 := fun n => ("uuid-" +:+ N_to_string (N.of_nat n))%string;
     CLIENT_SECRET_KEY := "s3cret"%string;
     isprintable := printable;
     split_text := fun s => match s with EmptyString => [] | _ => [s] end;
     pdf_pages := fun _ => inl (mkExc ImportError "No module named 'PyPDF2'");
     decode_utf8 := Some;
     decode_latin1 := fun s => s;
     embedding_post := fun input =>
       match input with
       | InputText s => inr (200, EmptyString, [embed s])
       | InputTexts l => inr (200, EmptyString, map embed l)
       end;
     llm_post := fun _ => LlmHttpError 429 "rate limited";
     mongo_fault := up;
     qdrant_fault := up |}.

Definition binary_file : UploadFile :=
  mkUploadFile "blob.bin" (String "255"%char (String "254"%char EmptyString)).

Definition faq_file : UploadFile :=
  mkUploadFile "FAQ.Txt" "Customer support is available 24/7.".

Definition request : PredictRequest :=
  mkPredictRequest "When is support available?" "s1" "u1" None.

End Demo.
(** ** Worlds along a run *)

Section RunDefs.

Variable B : Backend.

Definition tick (w : World B) : World B :=
  mkWorld (docs_collection w) (chat_collection w) (qdrant_points w)
          (S (ticks w)) (uuid_next w) (trace w).

Definition traced (ev : Event) (w : World B) : World B :=
  mkWorld (docs_collection w) (chat_collection w) (qdrant_points w)
          (ticks w) (uuid_next w) (trace w ++ [ev]).

(** *** Stages that write nothing

    An event is a write when it asks a store to change. *)
Definition is_write (ev : Event) : bool :=
  match ev with
  | EvMongo (OpInsertDoc _) | EvMongo (OpInsertChat _) => true
  | EvQdrant OpUpsert | EvQdrant OpOpen => true
  | _ => false
  end.

(** [quiet w w']: from [w] to [w'] no store changed, no identifier was
    drawn, and every call issued in between was a read. *)
Record quiet (w w' : World B) : Prop := mkQuiet {
  quiet_docs : docs_collection w' = docs_collection w;
  quiet_chats : chat_collection w' = chat_collection w;
  quiet_points : qdrant_points w' = qdrant_points w;
  quiet_uuid : uuid_next w' = uuid_next w;
  quiet_trace : exists evs, trace w' = trace w ++ evs /\ existsb is_write evs = false
}.

(** A computation is quiet when it is so from every world, whether it
    returns or raises. *)
Definition Quiet {A} (c : M B A) : Prop := forall w, quiet w (snd (c w)).

Definition wrote_chat (c : ChatDoc) (w : World B) : World B :=
  mkWorld (docs_collection w) (chat_collection w ++ [c]) (qdrant_points w)
          (ticks w) (uuid_next w) (trace w).

(** [n] identifiers were drawn. *)
Definition drew (n : nat) (w : World B) : World B :=
  mkWorld (docs_collection w) (chat_collection w) (qdrant_points w)
          (ticks w) (uuid_next w + n) (trace w).

(** The batch [points] was upserted. *)
Definition indexed (points : list (Point B)) (w : World B) : World B :=
  mkWorld (docs_collection w) (chat_collection w)
          (upsert_points B points (qdrant_points w))
          (ticks w) (uuid_next w) (trace w).

Definition wrote_doc (d : UploadedDoc) (w : World B) : World B :=
  mkWorld (docs_collection w ++ [d]) (chat_collection w) (qdrant_points w)
          (ticks w) (uuid_next w) (trace w).

(** Upsert requests among the events of a run. *)
Definition is_upsert (ev : Event) : bool :=
  match ev with
  | EvQdrant OpUpsert => true
  | _ => false
  end.

Definition upserts (evs : list Event) : nat := length (List.filter is_upsert evs).

(** Every stored point carries an identifier drawn earlier. *)
Definition ids_drawn (w : World B) : Prop :=
  forall p, p ∈ qdrant_points w ->
    exists m, (m < uuid_next w)%nat /\ point_id p = uuid4 B m.

(** Two draws never give the same identifier. *)
Definition uuid4_distinct : Prop :=
  forall m n, uuid4 B m = uuid4 B n -> m = n.

(** *** What a run of [predict_flow] can be *)

(** Steps 1 to 4 went through: the chunks and the history this run read
    (each at the world the run had reached), the prompt built from them
    and the parsed reply to that prompt.  It fails as soon as retrieval,
    the history fetch, the prompt assembly or the generation fails. *)
Definition generated (query session_id : string) (w : World B)
    (chunks hist : list string) (prompt : string) (resp : LlmResponse) : Prop :=
  exists w2 w4 body,
    retrieve_similar_chunks B query 5 (tick (tick w)) = (inr chunks, w2) /\
    get_chat_history B session_id (tick (tick w2)) = (inr hist, w4) /\
    CONTEXT_PROMPT_format (isprintable B) hist chunks query = inr prompt /\
    llm_post B prompt = LlmOk body /\
    get_response body = inr resp.

(** Requests to insert a chat turn among the events of a run. *)
Definition is_chat_insert (ev : Event) : bool :=
  match ev with
  | EvMongo (OpInsertChat _) => true
  | _ => false
  end.

Definition chat_inserts (evs : list Event) : nat :=
  length (List.filter is_chat_insert evs).

(** The world in which an endpoint of [main.py] starts its router: the
    clock was read once and the clients were opened. *)
Definition started (w : World B) : World B := traced (EvQdrant OpOpen) (tick w).

(** The pipeline-level error that wraps [e]. *)
Definition flow_error (e : PyExc) : PyExc :=
  mkExc RAGError ("Error in predict_flow: " +:+ exc_str e).

(** The request for the insertion of [doc] came last, right after the
    generation call; everything before was a read. *)
Definition save_requested (w w' : World B) (prompt : string) (doc : ChatDoc) : Prop :=
  exists evs, trace w' = trace w ++ evs ++ [EvGenerate prompt; EvMongo (OpInsertChat doc)]
              /\ existsb is_write evs = false.

Inductive flow_outcome (query session_id user_id : string) (w : World B)
    : Exc Json * World B -> Prop :=
| flow_aborted e w' :
    quiet w w' ->
    flow_outcome query session_id user_id w (inl (flow_error e), w')
| flow_save_failed e w' chunks hist prompt resp timestamp :
    let doc := mkChatDoc user_id session_id (Some query) (Some (r_response resp))
                         timestamp in
    generated query session_id w chunks hist prompt resp ->
    mongo_fault B (OpInsertChat doc) = Some e ->
    docs_collection w' = docs_collection w ->
    chat_collection w' = chat_collection w ->
    qdrant_points w' = qdrant_points w ->
    save_requested w w' prompt doc ->
    flow_outcome query session_id user_id w (inl (flow_error e), w')
| flow_answered w' chunks hist prompt resp timestamp
    retrieval_time history_time prompt_time llm_time save_time total_time :
    let doc := mkChatDoc user_id session_id (Some query) (Some (r_response resp))
                         timestamp in
    generated query session_id w chunks hist prompt resp ->
    mongo_fault B (OpInsertChat doc) = None ->
    docs_collection w' = docs_collection w ->
    chat_collection w' = chat_collection w ++ [doc] ->
    qdrant_points w' = qdrant_points w ->
    save_requested w w' prompt doc ->
    flow_outcome query session_id user_id w
      (inr (JObj
         [ ("response", JStr (r_response resp));
           ("model", JStr (r_model resp));
           ("input_tokens", JInt (r_input_tokens resp));
           ("output_tokens", JInt (r_output_tokens resp));
           ("chunks_retrieved", JInt (Z.of_nat (length chunks)));
           ("chat_history_length", JInt (Z.of_nat (length hist)));
           ("timing_breakdown", JObj
              [ ("retrieval", seconds retrieval_time);
                ("history", seconds history_time);
                ("prompt", seconds prompt_time);
                ("llm", seconds llm_time);
                ("save", seconds save_time);
                ("total", seconds total_time) ]) ]%string), w').

End RunDefs.

Arguments Quiet {B A}.

(** ** The rest of the service *)

(** *** [RerankerClient] (not wired into the query path) *)

(** What [item["index"]] finds in an entry of the reply: an [int] (a JSON
    boolean is the [int] 0 or 1), no such key, or a value of another type,
    given by the name of the type. *)
Inductive ItemIndex :=
| IndexInt (i : Z)
| IndexAbsent
| IndexOther (type_name : string).

(** An entry of [results] once the entries could be sorted: its index
    field and its relevance (scores are read on the integer scale used
    for similarities). *)
Record RerankItem := mkRerankItem { item_index : ItemIndex; relevance_score : Z }.

(** The body of a reply with status 200, as far as [rerank] reads it.
    [BodyRaises e]: [response.json()], [.get("results", [])] or
    [sorted(...)] raises [e] (the body is not JSON or not an object,
    [results] cannot be iterated, an entry has no [relevance_score] that
    can be read and compared).  [BodyResults r]: the entries under
    [results], [None] when the key is absent. *)
Inductive RerankBody :=
| BodyResults (results : option (list RerankItem))
| BodyRaises (e : PyExc).

(** [l[i]] for a Python list and an [int]: negative indices count from
    the end, anything else out of range raises [IndexError]. *)
Definition py_index {A} (l : list A) (i : Z) : Exc A :=
  let n := Z.of_nat (length l) in
  let j := if i <? 0 then n + i else i in
  match (if j <? 0 then None else l !! Z.to_nat j) with
  | Some x => inr x
  | None => inl (mkExc IndexError "list index out of range")
  end.

(** [texts[item["index"]]] *)
Definition item_text (texts : list string) (item : RerankItem) : Exc string :=
  match item_index item with
  | IndexInt i => py_index texts i
  | IndexAbsent => inl (mkExc KeyError "'index'")
  | IndexOther type_name =>
      inl (mkExc TypeError
             ("list indices must be integers or slices, not " +:+ type_name))
  end.

(** [[texts[item["index"]] for item in items]]: the first entry that fails
    ends the comprehension. *)
Fixpoint pick_texts (texts : list string) (items : list RerankItem)
    : Exc (list string) :=
  match items with
  | [] => inr []
  | item :: rest =>
      match item_text texts item with
      | inl e => inl e
      | inr text =>
          match pick_texts texts rest with
          | inl e => inl e
          | inr picked => inr (text :: picked)
          end
      end
  end.

(** [RerankerClient.rerank]; [post] is the endpoint: it raises, or answers
    with a status code, a response text and a body.  The body is read only
    when the status is 200.  [sorted(..., reverse=True)] keeps the reply's
    order among equal scores, as [sort_desc] does.  [top_k] is a count, so
    the slice [[:top_k]] is [firstn top_k]. *)
Definition rerank
    (post : string -> list string -> nat -> Exc (Z * string * RerankBody))
    (query : string) (texts : list string) (top_k : nat) : Exc (list string) :=
  match post query texts top_k with
  | inl e => inl e
  | inr (status_code, response_text, body) =>
      if negb (status_code =? 200) then
        inl (mkExc RuntimeError ("Rerank API failed: " +:+ response_text))
      else
        match body with
        | BodyRaises e => inl e
        | BodyResults results =>
            let results := default [] results in
            pick_texts texts (firstn top_k (sort_desc relevance_score results))
        end
  end.

(** [s.endswith(w)] *)
Definition ends_with (w s : string) : bool :=
  String.prefix (rev_string w) (rev_string s).

(** The body of a 200 response. *)
Definition response_body (r : Response) : option Json :=
  match r with
  | Success body => Some body
  | _ => None
  end.

(** An entry whose index is an [int] that a list of [n] items accepts. *)
Definition index_in_range (n : nat) (item : RerankItem) : Prop :=
  match item_index item with
  | IndexInt i => - Z.of_nat n <= i < Z.of_nat n
  | _ => False
  end.

(** The class of the exception an entry with a bad index raises. *)
Definition index_error (item : RerankItem) : ExcClass :=
  match item_index item with
  | IndexInt _ => IndexError
  | IndexAbsent => KeyError
  | IndexOther _ => TypeError
  end.

Section MoreService.

Variable B : Backend.

(** *** [MongoUtils], the two remaining methods

    [fault] is what the driver call does: [None] when it goes through. *)

(** [MongoUtils.get_documents_for_user] *)
Definition get_documents_for_user (fault : option PyExc) (user_id : string)
    : M B (list UploadedDoc) :=
  start_time ← time_time B;
  reraise_timed (
    _ ← lift_exc (match fault with Some e => inl e | None => inr tt end);
    w ← get_world B;
    let documents := filter (fun d => doc_user_id d = user_id) (docs_collection w) in
    retrieve_time ← time_time B;
    mret documents).

(** [MongoUtils.delete_chat_session]: [delete_many({"session_id": sid})],
    with no handler around it. *)
Definition delete_chat_session (fault : option PyExc) (session_id : string)
    : M B unit := fun w =>
  match fault with
  | Some e => (inl e, w)
  | None =>
      (inr tt,
       mkWorld (docs_collection w)
               (filter (fun c => chat_session_id c <> session_id) (chat_collection w))
               (qdrant_points w) (ticks w) (uuid_next w) (trace w))
  end.

(** *** [POST /create-session] *)
Definition create_session (x_client_secret : option string) (user_id : string)
    : World B -> Response * World B :=
  match Depends_verify_client_secret B x_client_secret with
  | inl rejected => fun w => (rejected, w)
  | inr _ =>
      endpoint B "Failed to create session: "
        (session_id ← new_uuid B;
         created_at ← time_time B;
         mret (JObj [ ("session_id", JStr session_id);
                      ("user_id", JStr user_id);
                      ("created_at", JStr (isoformat B created_at));
                      ("status", JStr "active") ]))
  end.

(** *** Worlds along a run of [train]

    The document [train] saves, and the world in which it hands the chunks
    to [store_chunks]: the document is stored, the clock was read fifteen
    times, one call was issued. *)
Definition saved_doc (user_id : string) (file : UploadFile) (text : string)
    (w : World B) : UploadedDoc :=
  mkUploadedDoc user_id (user_id +:+ "_" +:+ filename file) text
                (clock B (ticks w + 7)).

Definition storing_world (user_id : string) (file : UploadFile) (text : string)
    (w : World B) : World B :=
  let doc := saved_doc user_id file text w in
  mkWorld (docs_collection w ++ [doc]) (chat_collection w) (qdrant_points w)
          (15 + ticks w) (uuid_next w) (trace w ++ [EvMongo (OpInsertDoc doc)]).

End MoreService.
(** ** Sample replies for the remaining clients *)
Module Samples.

(** A reranker reply that puts the third document first, then the first;
    its last entry, the least relevant, carries a string where the index
    should be. *)
Definition rerank_results : list RerankItem :=
  [ mkRerankItem (IndexInt 0) 70;
    mkRerankItem (IndexInt 2) 95;
    mkRerankItem (IndexOther "str") 10 ].

Definition rerank_post (query : string) (texts : list string) (top_n : nat)
    : Exc (Z * string * RerankBody) :=
  inr (200, EmptyString, BodyResults (Some rerank_results)).

End Samples.
(** * Facts about the embedding *)

(** ** Printing *)

Example format_3f_1234 : format_3f 1234 = "1.234"%string.
Proof. reflexivity. Qed.
Example format_3f_neg : format_3f (-7) = "-0.007"%string.
Proof. reflexivity. Qed.
Example py_str_list_ex :
  py_str_list Demo.printable ["a"; "it's"]%string
  = ("['a', " +:+ String dquote ("it's" +:+ String dquote "]"))%string.
Proof. vm_compute. reflexivity. Qed.

(** [repr] beyond ASCII: a no-break space, a zero width space, a byte order
    mark and a tag character are escaped, an accented letter is not. *)
Example py_repr_nbsp :
  py_repr Demo.printable (bytes [97; 194; 160; 98]%nat)
  = ("'a" +:+ String backslash "xa0b'")%string.
Proof. vm_compute. reflexivity. Qed.
Example py_repr_zero_width :
  py_repr Demo.printable (bytes [226; 128; 139; 239; 187; 191]%nat)
  = ("'" +:+ String backslash "u200b" +:+ String backslash "ufeff'")%string.
Proof. vm_compute. reflexivity. Qed.
Example py_repr_tag :
  py_repr Demo.printable (bytes [243; 160; 128; 129]%nat)
  = ("'" +:+ String backslash "U000e0001'")%string.
Proof. vm_compute. reflexivity. Qed.
Example py_repr_accent :
  py_repr Demo.printable (bytes [99; 97; 102; 195; 169]%nat)
  = ("'caf" +:+ bytes [195; 169]%nat +:+ "'")%string.
Proof. vm_compute. reflexivity. Qed.

(** ** Printing durations *)

Lemma append_cons (x : ascii) (a b : string) :
  String x a +:+ b = String x (a +:+ b).
Proof. reflexivity. Qed.

Lemma append_nil (b : string) : EmptyString +:+ b = b.
Proof. reflexivity. Qed.

Lemma append_assoc' (a b c : string) : (a +:+ b) +:+ c = a +:+ (b +:+ c).
Proof.
  induction a as [|x a IH]; [reflexivity |].
  rewrite !append_cons. f_equal. exact IH.
Qed.

Lemma string_of_uint_digits (d : Decimal.uint) :
  all_digits (NilEmpty.string_of_uint d) = true.
Proof. induction d; simpl; auto. Qed.

Lemma N_to_string_digits (n : N) :
  all_digits (N_to_string n) = true /\ N_to_string n <> EmptyString.
Proof.
  unfold N_to_string, NilZero.string_of_uint.
  pose proof (string_of_uint_digits (N.to_uint n)) as Hd.
  destruct (N.to_uint n); split; try reflexivity; try discriminate; exact Hd.
Qed.

Lemma N_to_uint_nonnil (n : N) : N.to_uint n <> Decimal.Nil.
Proof.
  destruct n as [|p]; [discriminate |].
  exact (DecimalPos.Unsigned.to_uint_nonnil p).
Qed.

Lemma N_to_string_inj (m n : N) : N_to_string m = N_to_string n -> m = n.
Proof.
  unfold N_to_string. intros H.
  apply (f_equal NilZero.uint_of_string) in H.
  rewrite !NilZero.usu in H by apply N_to_uint_nonnil.
  injection H as H. apply DecimalN.Unsigned.to_uint_inj, H.
Qed.

Lemma pad3_shape_small (r : N) : (r < 1000)%N -> pad3_shape r = true.
Proof.
  intros Hr.
  assert (Hall : forallb pad3_shape (map N.of_nat (seq 0 1000)) = true)
    by (vm_compute; reflexivity).
  rewrite forallb_forall in Hall. apply Hall.
  apply in_map_iff. exists (N.to_nat r). split; [apply N2Nat.id |].
  apply in_seq. lia.
Qed.

Lemma digits_then_fraction_app (ds rest : string) :
  all_digits ds = true -> ds <> EmptyString -> fraction_then_s rest = true ->
  digits_then_fraction (ds +:+ rest) = true.
Proof.
  induction ds as [|c ds IH]; intros Hd Hne Hrest; [congruence |].
  rewrite append_cons. simpl in *.
  apply andb_true_iff in Hd as [Hc Hds]. rewrite Hc. simpl.
  destruct ds as [|c' ds'].
  - rewrite append_nil, Hrest. reflexivity.
  - rewrite IH; [apply orb_true_r | exact Hds | discriminate | exact Hrest].
Qed.

Lemma seconds_string_format (t : Z) :
  is_seconds_string (format_3f t +:+ "s") = true.
Proof.
  unfold format_3f. cbv zeta.
  set (a := Z.abs_N t).
  destruct (N_to_string_digits (a / 1000)%N) as [Hd Hne].
  assert (Hr : fraction_then_s ("." +:+ pad3 (a mod 1000)%N +:+ "s") = true).
  { apply pad3_shape_small. apply N.mod_lt. discriminate. }
  assert (Hbody : digits_then_fraction
                    (N_to_string (a / 1000)%N +:+ "." +:+ pad3 (a mod 1000)%N +:+ "s") = true)
    by (apply digits_then_fraction_app; assumption).
  rewrite !append_assoc'.
  destruct (t <? 0).
  - exact Hbody.
  - rewrite append_nil.
    destruct (N_to_string (a / 1000)%N) as [|c ds] eqn:E; [congruence |].
    rewrite append_cons in Hbody |- *.
    simpl in Hd. apply andb_true_iff in Hd as [Hc _].
    unfold is_seconds_string.
    destruct (Ascii.eqb c "-") eqn:Ec.
    + apply Ascii.eqb_eq in Ec. subst c. discriminate.
    + exact Hbody.
Qed.

(** ** Sorting by a key, largest first *)

Section Sorting.

Context {A : Type} (key : A -> Z).

Let ge_key (a b : A) : Prop := key b <= key a.
Let lt_key (a b : A) : Prop := key a < key b.

Lemma insert_desc_perm (x : A) (l : list A) : insert_desc key x l ≡ₚ x :: l.
Proof.
  induction l as [|y l IH]; simpl; [reflexivity |].
  destruct (key y <=? key x); [reflexivity |].
  rewrite IH. apply perm_swap.
Qed.

Lemma sort_desc_perm (l : list A) : sort_desc key l ≡ₚ l.
Proof.
  induction l as [|x l IH]; simpl; [reflexivity |].
  unfold sort_desc in *. simpl. rewrite insert_desc_perm, IH. reflexivity.
Qed.

Lemma insert_desc_sorted (x : A) (l : list A) :
  StronglySorted ge_key l -> StronglySorted ge_key (insert_desc key x l).
Proof.
  induction 1 as [|y l Hl IH Hy]; simpl.
  - repeat constructor.
  - destruct (key y <=? key x) eqn:E.
    + apply Z.leb_le in E. constructor; [constructor; assumption |].
      constructor; [exact E |].
      eapply Forall_impl; [exact Hy |]. unfold ge_key. intros; simpl in *; lia.
    + apply Z.leb_gt in E. constructor; [exact IH |].
      rewrite insert_desc_perm. constructor; [unfold ge_key; lia | exact Hy].
Qed.

Lemma sort_desc_sorted (l : list A) : StronglySorted ge_key (sort_desc key l).
Proof.
  induction l as [|x l IH]; [constructor |].
  apply insert_desc_sorted, IH.
Qed.

Lemma increasing_key_inj (l : list A) :
  StronglySorted lt_key l ->
  forall x y, x ∈ l -> y ∈ l -> key x = key y -> x = y.
Proof.
  induction 1 as [|a l Hl IH Ha]; intros x y Hx Hy Hk.
  - inversion Hx.
  - rewrite Forall_forall in Ha. unfold lt_key in Ha.
    apply elem_of_cons in Hx as [-> | Hx]; apply elem_of_cons in Hy as [-> | Hy].
    + reflexivity.
    + specialize (Ha _ Hy). lia.
    + specialize (Ha _ Hx). lia.
    + apply IH; assumption.
Qed.

Lemma elem_of_rev (x : A) (l : list A) : x ∈ rev l <-> x ∈ l.
Proof. rewrite !list_elem_of_In. symmetry. apply in_rev. Qed.

Lemma rev_increasing_sorted (l : list A) :
  StronglySorted lt_key l -> StronglySorted ge_key (rev l).
Proof.
  induction 1 as [|a l Hl IH Ha]; simpl; [constructor |].
  apply StronglySorted_app_2; [| exact IH | repeat constructor].
  intros x1 x2 Hx1 Hx2. apply list_elem_of_singleton in Hx2 as ->.
  rewrite Forall_forall in Ha. unfold ge_key, lt_key in *.
  assert (a_lt : key a < key x1) by (apply Ha; apply elem_of_rev; exact Hx1).
  lia.
Qed.

(** With pairwise different keys the order of the result is forced: it is
    the chronological listing read backwards. *)
Lemma sort_desc_of_increasing (l chron : list A) :
  chron ≡ₚ l -> StronglySorted lt_key chron -> sort_desc key l = rev chron.
Proof.
  intros Hperm Hsorted.
  apply (StronglySorted_unique_strong ge_key).
  - intros x1 x2 Hx1 Hx2 H12 H21. unfold ge_key in *.
    apply (increasing_key_inj chron Hsorted).
    + rewrite Hperm, <- (sort_desc_perm l). exact Hx1.
    + apply elem_of_rev. exact Hx2.
    + lia.
  - apply sort_desc_sorted.
  - apply rev_increasing_sorted, Hsorted.
  - rewrite sort_desc_perm, <- Hperm. apply Permutation_rev.
Qed.

End Sorting.

(** ** The lines of a history *)

Lemma format_history_length (chats : list ChatDoc) :
  length (format_history chats) = (2 * length chats)%nat.
Proof.
  induction chats as [|c chats IH]; [reflexivity |].
  change (format_history (c :: chats)) with (format_chat c ++ format_history chats).
  rewrite length_app, IH. simpl. lia.
Qed.

Lemma format_history_lookup (chats : list ChatDoc) (j : nat) (chat : ChatDoc) :
  chats !! j = Some chat ->
  format_history chats !! (2 * j)%nat
    = Some ("QUERY: " +:+ default EmptyString (chat_query chat)) /\
  format_history chats !! (2 * j + 1)%nat
    = Some ("RESPONSE: " +:+ default EmptyString (chat_response chat)).
Proof.
  revert j. induction chats as [|c chats IH]; intros j Hj; [discriminate |].
  destruct j as [|j].
  - injection Hj as ->. split; reflexivity.
  - replace (2 * S j)%nat with (S (S (2 * j))) by lia.
    replace (S (S (2 * j)) + 1)%nat with (S (S (2 * j + 1))) by lia.
    exact (IH j Hj).
Qed.

Lemma prefix_append (s x : string) : String.prefix s (s +:+ x) = true.
Proof.
  induction s as [|a s IH].
  - destruct x; reflexivity.
  - rewrite append_cons. simpl. destruct (ascii_dec a a); [exact IH | contradiction].
Qed.

Lemma format_history_parity (chats : list ChatDoc) (i : nat) (line : string) :
  format_history chats !! i = Some line ->
  if Nat.even i then String.prefix "QUERY: " line = true
  else String.prefix "RESPONSE: " line = true.
Proof.
  revert i line. induction chats as [|c chats IH]; intros i line Hi; [discriminate |].
  destruct i as [|[|i]].
  - injection Hi as <-. apply prefix_append.
  - injection Hi as <-. apply prefix_append.
  - change (Nat.even (S (S i))) with (Nat.even i). exact (IH i line Hi).
Qed.

(** ** Running the monad *)

Section Runs.

Variable B : Backend.

#[local] Abbreviation tick := (tick B).
#[local] Abbreviation traced := (traced B).
#[local] Abbreviation wrote_chat := (wrote_chat B).
#[local] Abbreviation quiet := (quiet B).
#[local] Abbreviation generated := (generated B).
#[local] Abbreviation save_requested := (save_requested B).
#[local] Abbreviation flow_outcome := (flow_outcome B).
#[local] Abbreviation Quiet := (@Quiet B _).

Lemma bind_run {A C} (c : M B A) (k : A -> M B C) (w : World B) :
  (c ≫= k) w = match c w with
               | (inr a, w1) => k a w1
               | (inl e, w1) => (inl e, w1)
               end.
Proof. reflexivity. Qed.

Lemma ret_run {A} (a : A) (w : World B) : (mret a : M B A) w = (inr a, w).
Proof. reflexivity. Qed.

Lemma time_time_run (w : World B) :
  time_time B w = (inr (clock B (ticks w)), tick w).
Proof. reflexivity. Qed.

Lemma emit_run (ev : Event) (w : World B) : emit B ev w = (inr tt, traced ev w).
Proof. reflexivity. Qed.

Lemma try_except_run {A} (c : M B A) (h : PyExc -> M B A) (w : World B) :
  try_except c h w = match c w with
                     | (inr a, w1) => (inr a, w1)
                     | (inl e, w1) => h e w1
                     end.
Proof. reflexivity. Qed.

Lemma reraise_timed_run {A} (c : M B A) (w : World B) :
  reraise_timed c w = match c w with
                      | (inr a, w1) => (inr a, w1)
                      | (inl e, w1) => (inl e, tick w1)
                      end.
Proof.
  unfold reraise_timed. rewrite try_except_run.
  destruct (c w) as [[e|a] w1]; reflexivity.
Qed.

Lemma quiet_refl (w : World B) : quiet w w.
Proof.
  split; try reflexivity.
  exists []. split; [symmetry; apply app_nil_r | reflexivity].
Qed.

Lemma quiet_trans (w1 w2 w3 : World B) : quiet w1 w2 -> quiet w2 w3 -> quiet w1 w3.
Proof.
  intros [d1 c1 p1 u1 [evs1 [t1 r1]]] [d2 c2 p2 u2 [evs2 [t2 r2]]].
  split; try congruence.
  exists (evs1 ++ evs2). split.
  - rewrite t2, t1. symmetry. apply app_assoc.
  - rewrite existsb_app, r1, r2. reflexivity.
Qed.

Lemma quiet_tick (w : World B) : quiet w (tick w).
Proof.
  split; try reflexivity.
  exists []. split; [symmetry; apply app_nil_r | reflexivity].
Qed.

Lemma quiet_traced (ev : Event) (w : World B) :
  is_write ev = false -> quiet w (traced ev w).
Proof.
  intros Hev. split; try reflexivity.
  exists [ev]. split; [reflexivity | simpl; rewrite Hev; reflexivity].
Qed.

Lemma Quiet_ret {A} (a : A) : Quiet (mret a).
Proof. intros w. apply quiet_refl. Qed.

Lemma Quiet_raise {A} (e : PyExc) : Quiet (raise e : M B A).
Proof. intros w. apply quiet_refl. Qed.

Lemma Quiet_lift_exc {A} (r : Exc A) : Quiet (lift_exc r : M B A).
Proof. intros w. apply quiet_refl. Qed.

Lemma Quiet_get_world : Quiet (get_world B).
Proof. intros w. apply quiet_refl. Qed.

Lemma Quiet_time_time : Quiet (time_time B).
Proof. intros w. apply quiet_tick. Qed.

Lemma Quiet_emit (ev : Event) : is_write ev = false -> Quiet (emit B ev).
Proof. intros Hev w. apply quiet_traced, Hev. Qed.

Lemma Quiet_bind {A C} (c : M B A) (k : A -> M B C) :
  Quiet c -> (forall a, Quiet (k a)) -> Quiet (c ≫= k).
Proof.
  intros Hc Hk w. rewrite bind_run.
  specialize (Hc w). destruct (c w) as [[e|a] w1]; simpl in *.
  - exact Hc.
  - eapply quiet_trans; [exact Hc | apply Hk].
Qed.

Lemma Quiet_try_except {A} (c : M B A) (h : PyExc -> M B A) :
  Quiet c -> (forall e, Quiet (h e)) -> Quiet (try_except c h).
Proof.
  intros Hc Hh w. rewrite try_except_run.
  specialize (Hc w). destruct (c w) as [[e|a] w1]; simpl in *.
  - eapply quiet_trans; [exact Hc | apply Hh].
  - exact Hc.
Qed.

Lemma Quiet_reraise_timed {A} (c : M B A) : Quiet c -> Quiet (reraise_timed c).
Proof.
  intros Hc. apply Quiet_try_except; [exact Hc |].
  intros e. apply Quiet_bind; [apply Quiet_time_time | intros; apply Quiet_raise].
Qed.

Create HintDb quiet.
#[local] Hint Resolve Quiet_ret Quiet_raise Quiet_lift_exc Quiet_get_world
  Quiet_time_time Quiet_reraise_timed : quiet.

Ltac quiet_step :=
  first
    [ apply Quiet_bind; [| intros ?]
    | apply Quiet_try_except; [| intros ?]
    | apply Quiet_emit; reflexivity
    | solve [auto with quiet]
    | match goal with
      | |- Quiet (match ?x with _ => _ end) => destruct x
      | |- Quiet (if ?x then _ else _) => destruct x
      end ].

Ltac quiet_tac := repeat quiet_step.

Lemma Quiet_find (session_id : string) : Quiet (mongo_call B (OpFind session_id)).
Proof. unfold mongo_call. quiet_tac. Qed.

Lemma Quiet_qdrant_read (op : QdrantOp) :
  is_write (EvQdrant op) = false -> Quiet (qdrant_call B op).
Proof.
  intros Hop. unfold qdrant_call.
  apply Quiet_bind; [apply Quiet_emit, Hop | intros; quiet_tac].
Qed.

Lemma Quiet_embed_text (text : string) : Quiet (embed_text B text).
Proof. unfold embed_text. quiet_tac. Qed.

Lemma Quiet_embed_texts (texts : list string) : Quiet (embed_texts B texts).
Proof. unfold embed_texts. quiet_tac. Qed.

Lemma Quiet_qdrant_search (v : Vector B) (k : nat) : Quiet (qdrant_search B v k).
Proof.
  unfold qdrant_search.
  apply Quiet_bind; [apply Quiet_qdrant_read; reflexivity | intros; quiet_tac].
Qed.

Lemma Quiet_retrieve (query : string) (k : nat) :
  Quiet (retrieve_similar_chunks B query k).
Proof.
  unfold retrieve_similar_chunks.
  pose proof Quiet_embed_text. pose proof Quiet_qdrant_search.
  pose proof (Quiet_qdrant_read OpGetCollection eq_refl).
  pose proof (Quiet_qdrant_read OpScroll eq_refl).
  quiet_tac.
Qed.

Lemma Quiet_get_chat_history (session_id : string) :
  Quiet (get_chat_history B session_id).
Proof.
  unfold get_chat_history, find_last_chats.
  pose proof Quiet_find. quiet_tac.
Qed.

Lemma Quiet_chat (prompt : string) : Quiet (chat B prompt).
Proof. unfold chat. quiet_tac. Qed.


Lemma lift_exc_run {A} (r : Exc A) (w : World B) : lift_exc r w = (r, w).
Proof. reflexivity. Qed.

Lemma chat_run (prompt : string) (w : World B) :
  chat B prompt w =
  (match llm_post B prompt with
   | LlmOk body => inr body
   | LlmHttpError status_code text =>
       inl (mkExc RAGAPIError
              ("API Error " +:+ Z_to_string status_code +:+ ": Request failed"))
   | LlmNetworkError msg => inl (mkExc RAGError ("Network error: " +:+ msg))
   end, traced (EvGenerate prompt) w).
Proof.
  unfold chat. rewrite bind_run, emit_run.
  destruct (llm_post B prompt); reflexivity.
Qed.

Lemma save_chat_session_run (user_id session_id query response : string) (w : World B) :
  let doc := mkChatDoc user_id session_id (Some query) (Some response)
                       (clock B (S (ticks w))) in
  let w1 := traced (EvMongo (OpInsertChat doc)) (tick (tick w)) in
  save_chat_session B user_id session_id query response w =
  match mongo_fault B (OpInsertChat doc) with
  | None => (inr user_id, tick (wrote_chat doc w1))
  | Some e => (inl e, tick w1)
  end.
Proof.
  intros doc w1. unfold save_chat_session.
  rewrite bind_run, time_time_run, reraise_timed_run.
  rewrite bind_run, time_time_run.
  change (clock B (ticks (tick w))) with (clock B (S (ticks w))).
  fold doc. rewrite bind_run. unfold insert_chat, mongo_call.
  rewrite bind_run, emit_run. fold w1.
  destruct (mongo_fault B (OpInsertChat doc)); reflexivity.
Qed.

Lemma quiet_tick_after (w w' : World B) : quiet w w' -> quiet w (tick w').
Proof. intros Q. eapply quiet_trans; [exact Q | apply quiet_tick]. Qed.

Lemma quiet_traced_after (ev : Event) (w w' : World B) :
  is_write ev = false -> quiet w w' -> quiet w (traced ev w').
Proof. intros Hev Q. eapply quiet_trans; [exact Q | apply quiet_traced, Hev]. Qed.

Lemma save_requested_intro (w w0 w' : World B) (prompt : string) (doc : ChatDoc) :
  quiet w w0 ->
  trace w' = (trace w0 ++ [EvGenerate prompt]) ++ [EvMongo (OpInsertChat doc)] ->
  save_requested w w' prompt doc.
Proof.
  intros [_ _ _ _ [evs [Ht Hr]]] Hw'. exists evs. split; [| exact Hr].
  rewrite Hw', Ht. rewrite <- !app_assoc. reflexivity.
Qed.

Ltac tick_step := rewrite bind_run, time_time_run; cbv beta iota.

Lemma predict_flow_outcome (query session_id user_id : string) (w : World B) :
  flow_outcome query session_id user_id w
    (predict_flow B query session_id user_id w).
Proof.
  unfold predict_flow.
  tick_step. rewrite try_except_run. tick_step.
  set (w1 := tick (tick w)).
  assert (Q1 : quiet w w1) by (do 2 apply quiet_tick_after; apply quiet_refl).
  (* Step 1 *)
  rewrite bind_run.
  pose proof (Quiet_retrieve query 5 w1) as Q2.
  destruct (retrieve_similar_chunks B query 5 w1) as [[e|chunks] w2] eqn:E2;
    simpl in Q2; cbv beta iota.
  { apply flow_aborted. apply quiet_tick_after. eapply quiet_trans; eassumption. }
  do 2 tick_step.
  set (w3 := tick (tick w2)).
  assert (Q3 : quiet w w3).
  { do 2 apply quiet_tick_after. eapply quiet_trans; eassumption. }
  (* Step 2 *)
  rewrite bind_run.
  pose proof (Quiet_get_chat_history session_id w3) as Q4.
  destruct (get_chat_history B session_id w3) as [[e|hist] w4] eqn:E4;
    simpl in Q4; cbv beta iota.
  { apply flow_aborted. apply quiet_tick_after. eapply quiet_trans; eassumption. }
  do 2 tick_step.
  (* Step 3 *)
  rewrite bind_run, lift_exc_run.
  destruct (CONTEXT_PROMPT_format (isprintable B) hist chunks query) as [e|prompt] eqn:E5;
    cbv beta iota.
  { apply flow_aborted. do 3 apply quiet_tick_after. eapply quiet_trans; eassumption. }
  do 2 tick_step.
  set (w5 := tick (tick (tick (tick w4)))).
  assert (Q5 : quiet w w5).
  { do 4 apply quiet_tick_after. eapply quiet_trans; eassumption. }
  (* Step 4 *)
  rewrite bind_run, chat_run.
  destruct (llm_post B prompt) as [body|status text|msg] eqn:E6; cbv beta iota;
    [| apply flow_aborted; apply quiet_tick_after;
       apply quiet_traced_after; [reflexivity | exact Q5] ..].
  destruct (get_response body) as [e|resp] eqn:E7.
  { rewrite bind_run, lift_exc_run. cbn [exc_map]. cbv beta iota.
    apply flow_aborted. apply quiet_tick_after.
    apply quiet_traced_after; [reflexivity | exact Q5]. }
  do 4 (rewrite bind_run, lift_exc_run; cbn [exc_map]; cbv beta iota).
  do 2 tick_step.
  (* Step 5 *)
  assert (G : generated query session_id w chunks hist prompt resp).
  { exists w2, w4, body. repeat split; assumption. }
  rewrite bind_run, save_chat_session_run. cbv zeta.
  match goal with
  | |- context [mongo_fault B (OpInsertChat ?d)] =>
      destruct (mongo_fault B (OpInsertChat d)) as [e|] eqn:E8
  end; cbv beta iota.
  - eapply flow_save_failed; try eassumption.
    + destruct Q5 as [H _ _ _ _]. exact H.
    + destruct Q5 as [_ H _ _ _]. exact H.
    + destruct Q5 as [_ _ H _ _]. exact H.
    + eapply save_requested_intro; [exact Q5 | reflexivity].
  - do 2 tick_step. rewrite ret_run.
    eapply flow_answered; try eassumption.
    + destruct Q5 as [H _ _ _ _]. exact H.
    + destruct Q5 as [_ H _ _ _]. cbn. rewrite <- H. reflexivity.
    + destruct Q5 as [_ _ H _ _]. exact H.
    + eapply save_requested_intro; [exact Q5 | reflexivity].
Qed.

(** *** Runs of the single services *)

Ltac run_step :=
  rewrite ?bind_run;
  first [ rewrite time_time_run | rewrite emit_run | rewrite lift_exc_run
        | rewrite ret_run ];
  cbv beta iota.

Lemma qdrant_call_ok (op : QdrantOp) (w : World B) :
  qdrant_fault B op = None ->
  qdrant_call B op w = (inr tt, traced (EvQdrant op) w).
Proof.
  intros Hop. unfold qdrant_call. run_step. rewrite Hop. reflexivity.
Qed.

Lemma embed_text_ok (text reply : string) (v : Vector B) (vs : list (Vector B))
    (w : World B) :
  embedding_post B (InputText text) = inr (200, reply, v :: vs) ->
  embed_text B text w = (inr v, tick (traced (EvEmbed (InputText text)) (tick w))).
Proof.
  intros Hpost. unfold embed_text.
  run_step. rewrite reraise_timed_run. run_step. rewrite Hpost. do 2 run_step.
  reflexivity.
Qed.

Lemma get_chat_history_run (session_id : string) (w : World B) :
  get_chat_history B session_id w =
  (match mongo_fault B (OpFind session_id) with
   | None => inr (format_history (rev (last_chats (chat_collection w) session_id)))
   | Some e => inl e
   end,
   tick (traced (EvMongo (OpFind session_id)) (tick w))).
Proof.
  unfold get_chat_history, find_last_chats, mongo_call.
  run_step. rewrite reraise_timed_run. run_step.
  destruct (mongo_fault B (OpFind session_id)); reflexivity.
Qed.

Lemma get_world_run (w : World B) : get_world B w = (inr w, w).
Proof. reflexivity. Qed.

Lemma qdrant_search_ok (v : Vector B) (k : nat) (w : World B) :
  qdrant_fault B OpSearch = None ->
  qdrant_search B v k w
  = (inr (nearest (qdrant_points w) v k), traced (EvQdrant OpSearch) w).
Proof.
  intros Hsearch. unfold qdrant_search.
  rewrite bind_run, (qdrant_call_ok _ _ Hsearch). cbv beta iota.
  rewrite bind_run, get_world_run. reflexivity.
Qed.

Lemma retrieve_ok (query reply : string) (v : Vector B) (vs : list (Vector B))
    (k : nat) (w : World B) :
  embedding_post B (InputText query) = inr (200, reply, v :: vs) ->
  qdrant_fault B OpSearch = None ->
  qdrant_fault B OpGetCollection = None ->
  qdrant_fault B OpScroll = None ->
  exists w',
    retrieve_similar_chunks B query k w
    = (inr (map hit_text (nearest (qdrant_points w) v k)), w')
    /\ quiet w w'.
Proof.
  intros Hpost Hsearch Hinfo Hscroll.
  assert (exists w', retrieve_similar_chunks B query k w
            = (inr (map hit_text (nearest (qdrant_points w) v k)), w'))
    as [w' E].
  { unfold retrieve_similar_chunks.
    run_step. rewrite reraise_timed_run. run_step.
    rewrite bind_run, (embed_text_ok _ _ _ _ _ Hpost). cbv beta iota.
    do 2 run_step.
    rewrite bind_run, (qdrant_search_ok _ _ _ Hsearch). cbv beta iota.
    rewrite bind_run, (qdrant_call_ok _ _ Hinfo). cbv beta iota.
    rewrite bind_run, (qdrant_call_ok _ _ Hscroll). cbv beta iota.
    do 2 run_step. rewrite ret_run.
    eexists. reflexivity. }
  exists w'. split; [exact E |].
  pose proof (Quiet_retrieve query k w) as Q. rewrite E in Q. exact Q.
Qed.

Lemma endpoint_run (prefix : string) (handler : M B Json) (w : World B) :
  endpoint B prefix handler w =
  match handler (tick w) with
  | (inr result, w1) => (Success result, tick w1)
  | (inl e, w1) => (HTTPException 500 (prefix +:+ exc_str e), tick w1)
  end.
Proof.
  unfold endpoint. run_step. rewrite try_except_run, bind_run.
  destruct (handler (tick w)) as [[e|result] w1]; reflexivity.
Qed.

Lemma chat_inserts_app (evs1 evs2 : list Event) :
  chat_inserts (evs1 ++ evs2) = (chat_inserts evs1 + chat_inserts evs2)%nat.
Proof. unfold chat_inserts. rewrite List.filter_app, length_app. reflexivity. Qed.

Lemma chat_inserts_reads (evs : list Event) :
  existsb is_write evs = false -> chat_inserts evs = 0%nat.
Proof.
  induction evs as [|ev evs IH]; [reflexivity |].
  simpl. intros H. apply orb_false_iff in H as [Hev Hevs].
  unfold chat_inserts in *. simpl.
  destruct ev as [| |[]|]; simpl in *; try discriminate; auto.
Qed.

Lemma predict_accepted (req : PredictRequest) (w : World B) :
  predict B (Some (CLIENT_SECRET_KEY B)) req w
  = match predict_flow B (query req) (session_id req) (user_id req) (started B w) with
    | (inr result, w1) =>
        match qdrant_fault B OpOpen with
        | None => (Success result, tick w1)
        | Some e =>
            (HTTPException 500 ("Prediction failed: " +:+ exc_str e),
             tick (started B w))
        end
    | (inl err, w1) =>
        match qdrant_fault B OpOpen with
        | None => (HTTPException 500 ("Prediction failed: " +:+ exc_str err), tick w1)
        | Some e =>
            (HTTPException 500 ("Prediction failed: " +:+ exc_str e),
             tick (started B w))
        end
    end.
Proof.
  unfold predict, Depends_verify_client_secret, verify_client_secret.
  rewrite String.eqb_refl. cbn [negb].
  rewrite endpoint_run. unfold new_router, qdrant_call.
  rewrite !bind_run, emit_run. fold (started B w).
  destruct (qdrant_fault B OpOpen) as [e|]; cbv beta iota.
  - destruct (predict_flow _ _ _ _ _) as [[?|?] ?]; reflexivity.
  - rewrite ret_run.
    destruct (predict_flow _ _ _ _ _) as [[?|?] ?]; reflexivity.
Qed.

(** *** Storing chunks *)

Lemma new_uuid_run (w : World B) :
  new_uuid B w = (inr (uuid4 B (uuid_next w)), drew B 1 w).
Proof.
  unfold new_uuid, drew. rewrite Nat.add_1_r. reflexivity.
Qed.

Lemma drew_drew (m n : nat) (w : World B) :
  drew B m (drew B n w) = drew B (n + m) w.
Proof. unfold drew. simpl. rewrite Nat.add_assoc. reflexivity. Qed.

Lemma drew_0 (w : World B) : drew B 0 w = w.
Proof. destruct w. unfold drew. simpl. rewrite Nat.add_0_r. reflexivity. Qed.

Lemma build_points_ok (texts : list string) (metadatas : list (gmap string string))
    (vs : list (Vector B)) :
  forall (i : nat) (w : World B),
    (i + length vs <= length texts)%nat ->
    exists points,
      build_points B texts metadatas i vs w = (inr points, drew B (length vs) w) /\
      length points = length vs /\
      forall j text, texts !! (i + j)%nat = Some text -> (j < length vs)%nat ->
        exists v, vs !! j = Some v /\
          points !! j
          = Some (mkPoint (uuid4 B (uuid_next w + j)) v
                    (default ∅ (metadatas !! (i + j)%nat) ∪ {[ "text" := text ]})).
Proof.
  induction vs as [|v vs IH]; intros i w Hlen.
  - exists []. simpl. rewrite drew_0. split; [reflexivity |].
    split; [reflexivity |]. intros j text _ Hj. simpl in Hj. lia.
  - simpl in Hlen.
    destruct (texts !! i) as [text0 |] eqn:Ht.
    2: { apply lookup_ge_None in Ht. lia. }
    destruct (IH (S i) (drew B 1 w)) as (points & Hrun & Hn & Hlook); [lia |].
    exists (mkPoint (uuid4 B (uuid_next w)) v
              (default ∅ (metadatas !! i) ∪ {[ "text" := text0 ]}) :: points).
    split; [| split].
    + cbn [build_points]. rewrite Ht.
      rewrite bind_run, new_uuid_run. cbv beta iota.
      rewrite bind_run, Hrun. cbv beta iota. rewrite ret_run.
      rewrite drew_drew. reflexivity.
    + simpl. rewrite Hn. reflexivity.
    + intros j text Hj Hlt. destruct j as [|j].
      * rewrite Nat.add_0_r in Hj. rewrite !Nat.add_0_r.
        rewrite Ht in Hj. injection Hj as <-.
        exists v. split; reflexivity.
      * simpl in Hlt.
        replace (i + S j)%nat with (S i + j)%nat in Hj |- * by lia.
        destruct (Hlook j text Hj) as (v' & Hv & Hp); [lia |].
        exists v'. split; [exact Hv |].
        simpl. rewrite Hp. cbn [uuid_next drew].
        replace (uuid_next w + 1 + j)%nat with (uuid_next w + S j)%nat by lia.
        reflexivity.
Qed.

Lemma embed_texts_ok (texts : list string) (reply : string) (vs : list (Vector B))
    (w : World B) :
  embedding_post B (InputTexts texts) = inr (200, reply, vs) ->
  length vs = length texts ->
  exists evs w',
    embed_texts B texts w = (inr vs, w') /\
    quiet w w' /\ trace w' = trace w ++ evs /\ upserts evs = 0%nat.
Proof.
  intros Hpost Hlen.
  assert (exists w', embed_texts B texts w = (inr vs, w')) as [w' E].
  { unfold embed_texts. run_step. rewrite reraise_timed_run.
    destruct texts as [|t texts].
    - destruct vs; [|discriminate]. eexists. reflexivity.
    - cbv beta iota. run_step. rewrite bind_run, lift_exc_run, Hpost.
      eexists. reflexivity. }
  pose proof (Quiet_embed_texts texts w) as Q. rewrite E in Q. simpl in Q.
  destruct (quiet_trace _ _ _ Q) as [evs [Ht Hr]].
  exists evs, w'. repeat split; try assumption; try apply Q.
  clear -Hr. induction evs as [|ev evs IH]; [reflexivity |].
  simpl in Hr. apply orb_false_iff in Hr as [Hev Hevs].
  unfold upserts in *. simpl.
  destruct ev as [| | |[]]; simpl in *; try discriminate; auto.
Qed.

Lemma qdrant_upsert_ok (points : list (Point B)) (w : World B) :
  qdrant_fault B OpUpsert = None ->
  qdrant_upsert B points w
  = (inr tt, indexed B points (traced (EvQdrant OpUpsert) w)).
Proof.
  intros Hop. unfold qdrant_upsert. rewrite (qdrant_call_ok _ _ Hop). reflexivity.
Qed.

Lemma upsert_point_fresh (p : Point B) (l : list (Point B)) :
  (forall q, q ∈ l -> point_id q <> point_id p) -> upsert_point B p l = l ++ [p].
Proof.
  induction l as [|q l IH]; intros Hfresh; [reflexivity |].
  simpl. destruct (String.eqb (point_id q) (point_id p)) eqn:E.
  - apply String.eqb_eq in E. exfalso. apply (Hfresh q); [left | exact E].
  - rewrite IH; [reflexivity |]. intros q' Hq'. apply Hfresh. right. exact Hq'.
Qed.

Lemma upsert_points_fresh (ps : list (Point B)) :
  forall l,
    NoDup (map point_id ps) ->
    (forall p q, p ∈ ps -> q ∈ l -> point_id q <> point_id p) ->
    upsert_points B ps l = l ++ ps.
Proof.
  induction ps as [|p ps IH]; intros l Hnd Hfresh.
  - simpl. symmetry. apply app_nil_r.
  - unfold upsert_points in *. simpl.
    apply NoDup_cons in Hnd as [Hp Hnd].
    rewrite upsert_point_fresh.
    2: { intros q Hq. apply (Hfresh p q); [left | exact Hq]. }
    rewrite IH; [rewrite <- app_assoc; reflexivity | exact Hnd |].
    intros p' q Hp' Hq. apply elem_of_app in Hq as [Hq | Hq].
    + apply (Hfresh p' q); [right; exact Hp' | exact Hq].
    + apply list_elem_of_singleton in Hq as ->.
      intros Heq. apply Hp. rewrite Heq.
      apply list_elem_of_fmap. exists p'. split; [reflexivity | exact Hp'].
Qed.

Lemma store_chunks_ok (texts : list string) (metadatas : list (gmap string string))
    (vs : list (Vector B)) (points : list (Point B)) (w w1 w2 : World B) :
  embed_texts B texts (tick (tick w)) = (inr vs, w1) ->
  build_points B texts metadatas 0 vs (tick (tick w1)) = (inr points, w2) ->
  qdrant_fault B OpUpsert = None ->
  qdrant_fault B OpGetCollection = None ->
  store_chunks B texts metadatas w
  = (inr tt,
     tick (tick (traced (EvQdrant OpGetCollection)
       (indexed B points (traced (EvQdrant OpUpsert) (tick (tick w2))))))).
Proof.
  intros E Hrun Hupsert Hinfo. unfold store_chunks.
  run_step. rewrite reraise_timed_run. run_step.
  rewrite bind_run, E. cbv beta iota.
  do 2 run_step.
  rewrite bind_run, Hrun. cbv beta iota.
  do 2 run_step.
  rewrite bind_run, (qdrant_upsert_ok _ _ Hupsert). cbv beta iota.
  rewrite bind_run, (qdrant_call_ok _ _ Hinfo). cbv beta iota.
  do 2 run_step. rewrite ret_run. reflexivity.
Qed.

(** *** Ingestion *)

Lemma save_uploaded_document_run (user_id filename file_content : string)
    (w : World B) :
  let doc := mkUploadedDoc user_id filename file_content (clock B (S (ticks w))) in
  let w1 := traced (EvMongo (OpInsertDoc doc)) (tick (tick w)) in
  save_uploaded_document B user_id filename file_content w =
  match mongo_fault B (OpInsertDoc doc) with
  | None => (inr tt, tick (wrote_doc B doc w1))
  | Some e => (inl e, tick w1)
  end.
Proof.
  intros doc w1. unfold save_uploaded_document.
  rewrite bind_run, time_time_run, reraise_timed_run.
  rewrite bind_run, time_time_run.
  change (clock B (ticks (tick w))) with (clock B (S (ticks w))).
  fold doc. rewrite bind_run. unfold insert_doc, mongo_call.
  rewrite bind_run, emit_run. fold w1.
  destruct (mongo_fault B (OpInsertDoc doc)); reflexivity.
Qed.

Lemma train_returns (user_id : string) (file : UploadFile) (w : World B) :
  exists result w', train B user_id file w = (inr result, w').
Proof.
  unfold train. run_step. rewrite try_except_run.
  match goal with |- context [match ?c with _ => _ end] => destruct c as [[e|result] w1] end.
  - rewrite bind_run, time_time_run. cbv beta iota. rewrite ret_run. eauto.
  - eauto.
Qed.

Lemma train_zero_chunks_run (user_id : string) (file : UploadFile) (text : string)
    (w : World B) :
  extract_text_from_file B (content file) (filename file) = inr text ->
  chunk_text B text = [] ->
  let doc := mkUploadedDoc user_id (user_id +:+ "_" +:+ filename file) text
                           (clock B (ticks w + 7)) in
  mongo_fault B (OpInsertDoc doc) = None ->
  train B user_id file w
  = (inr (failed "No chunks generated from document" user_id (filename file)),
     tick (tick (tick (tick (wrote_doc B doc
       (traced (EvMongo (OpInsertDoc doc))
          (tick (tick (tick (tick (tick (tick (tick (tick w)))))))))))))).
Proof.
  intros Hextract Hchunks doc Hfault. unfold train.
  run_step. rewrite try_except_run.
  do 3 run_step.
  rewrite bind_run, lift_exc_run, Hextract. cbv beta iota.
  do 2 run_step.
  rewrite bind_run, save_uploaded_document_run. cbv zeta.
  cbn [ticks tick].
  replace (S (S (S (S (S (S (S (ticks w)))))))) with (ticks w + 7)%nat by lia.
  fold doc. rewrite Hfault. cbv beta iota.
  do 3 run_step. rewrite Hchunks. rewrite ret_run. reflexivity.
Qed.

End Runs.

(** ** The demo backend draws distinct identifiers *)

Lemma demo_uuid4_distinct (B : Backend) :
  uuid4 B = uuid4 Demo.backend -> uuid4_distinct B.
Proof.
  intros HB m n Heq. rewrite HB in Heq. cbn in Heq.
  apply (inj (String.app "uuid-")) in Heq.
  apply N_to_string_inj in Heq. apply Nat2N.inj, Heq.
Qed.

(** * The claims *)

(** ** The result of a successful query *)

(** C1.  A successful [predict_flow] returns an object with exactly the
    keys response, model, input_tokens, output_tokens, chunks_retrieved,
    chat_history_length, timing_breakdown, in this order; the timing
    breakdown has exactly the keys retrieval, history, prompt, llm, save,
    total, each a seconds string (digits, a dot, three digits, the letter
    s); chunks_retrieved is the number of chunk texts the run retrieved and
    chat_history_length the number of history lines it fetched. *)
Theorem predict_flow_result_shape (B : Backend) (query session_id user_id : string)
    (w w' : World B) (result : Json) :
  predict_flow B query session_id user_id w = (inr result, w') ->
  json_keys result
  = [ "response"; "model"; "input_tokens"; "output_tokens";
      "chunks_retrieved"; "chat_history_length"; "timing_breakdown" ] /\
  (exists timing,
      json_get "timing_breakdown" result = Some timing /\
      json_keys timing = ["retrieval"; "history"; "prompt"; "llm"; "save"; "total"] /\
      forall key, In key (json_keys timing) ->
        exists s, json_get key timing = Some (JStr s) /\ is_seconds_string s = true) /\
  exists chunks hist prompt resp,
    generated B query session_id w chunks hist prompt resp /\
    json_get "response" result = Some (JStr (r_response resp)) /\
    json_get "model" result = Some (JStr (r_model resp)) /\
    json_get "input_tokens" result = Some (JInt (r_input_tokens resp)) /\
    json_get "output_tokens" result = Some (JInt (r_output_tokens resp)) /\
    json_get "chunks_retrieved" result = Some (JInt (Z.of_nat (length chunks))) /\
    json_get "chat_history_length" result = Some (JInt (Z.of_nat (length hist))).
Proof.
  intros Hrun.
  pose proof (predict_flow_outcome B query session_id user_id w) as H.
  rewrite Hrun in H. inversion H as [| |w0 chunks hist prompt resp ts
    t1 t2 t3 t4 t5 t6 doc G Hins Hd Hc Hp Hs]; subst.
  split; [reflexivity |]. split.
  - eexists. split; [reflexivity |]. split; [reflexivity |].
    intros key Hkey. simpl in Hkey.
    repeat (destruct Hkey as [<- | Hkey];
            [eexists; split; [reflexivity | apply seconds_string_format] |]).
    contradiction.
  - exists chunks, hist, prompt, resp. repeat split; try reflexivity. exact G.
Qed.

Lemma predict_flow_result_shape_witness :
  exists result w',
    predict_flow Demo.backend "When is support available?" "s1" "u1"
      (Demo.empty_world Demo.backend) = (inr result, w') /\
    json_keys result
    = [ "response"; "model"; "input_tokens"; "output_tokens";
        "chunks_retrieved"; "chat_history_length"; "timing_breakdown" ].
Proof.
  eexists _, _. split; [vm_compute; reflexivity |].
  eapply (predict_flow_result_shape Demo.backend
            "When is support available?" "s1" "u1" (Demo.empty_world Demo.backend)).
  vm_compute. reflexivity.
Defined.

(** ** Persistence of the turn *)

(** C3.  A run of [predict_flow] leaves the chat collection as it was or
    adds exactly one turn to it, the turn (user_id, session_id, query,
    response) of this run; the turn is added only when retrieval, history
    fetch, prompt assembly and generation have succeeded, and the insertion
    is then requested right after the generation call, as the last call of
    the run, and only once.  When one of these four steps fails the run
    changes no store and issues no write at all. *)
Theorem chat_turn_written_once (B : Backend) (query session_id user_id : string)
    (w : World B) :
  let w' := snd (predict_flow B query session_id user_id w) in
  (chat_collection w' = chat_collection w \/
   exists chunks hist prompt resp timestamp,
     let doc := mkChatDoc user_id session_id (Some query)
                          (Some (r_response resp)) timestamp in
     generated B query session_id w chunks hist prompt resp /\
     chat_collection w' = chat_collection w ++ [doc] /\
     save_requested B w w' prompt doc) /\
  (exists evs, trace w' = trace w ++ evs /\ (chat_inserts evs <= 1)%nat) /\
  ((~ exists chunks hist prompt resp,
        generated B query session_id w chunks hist prompt resp) ->
   quiet B w w').
Proof.
  intros w'. subst w'.
  pose proof (predict_flow_outcome B query session_id user_id w) as H.
  destruct (predict_flow B query session_id user_id w) as [r w'].
  cbn [snd].
  inversion H as
    [ e w0 Q
    | e w0 chunks hist prompt resp ts doc G Hf Hd Hc Hp Hs
    | w0 chunks hist prompt resp ts t1 t2 t3 t4 t5 t6 doc G Hins Hd Hc Hp Hs ];
    subst.
  - split; [left; apply Q |]. split; [| intros _; exact Q].
    destruct Q as [_ _ _ _ [evs [Ht Hr]]]. exists evs. split; [exact Ht |].
    rewrite (chat_inserts_reads evs Hr). lia.
  - split; [left; exact Hc |]. split.
    + destruct Hs as [evs [Ht Hr]]. eexists. split; [exact Ht |].
      rewrite chat_inserts_app, (chat_inserts_reads evs Hr). cbn. lia.
    + intros Hno. exfalso. apply Hno. eauto.
  - split; [right; exists chunks, hist, prompt, resp, ts; auto |]. split.
    + destruct Hs as [evs [Ht Hr]]. eexists. split; [exact Ht |].
      rewrite chat_inserts_app, (chat_inserts_reads evs Hr). cbn. lia.
    + intros Hno. exfalso. apply Hno. eauto.
Qed.

Lemma chat_turn_written_once_witness :
  quiet Demo.backend_llm_down (Demo.empty_world Demo.backend_llm_down)
    (snd (predict_flow Demo.backend_llm_down "When is support available?" "s1" "u1"
            (Demo.empty_world Demo.backend_llm_down))).
Proof.
  apply (chat_turn_written_once Demo.backend_llm_down
           "When is support available?" "s1" "u1").
  intros (chunks & hist & prompt & resp & w2 & w4 & body & _ & _ & _ & Hpost & _).
  discriminate Hpost.
Defined.

(** ** Failures of the query pipeline *)

(** C9.  [predict_flow] returns an answer only when every stage succeeded
    (retrieval, history fetch, prompt assembly, generation, and the
    insertion of the turn); otherwise it raises, and what it raises is
    always one [RAGError] whose message is "Error in predict_flow: "
    followed by the message of the failure.  [/predict] turns this error
    into an HTTP 500 response with detail "Prediction failed: " followed by
    the error's message, and returns no result body. *)
Theorem predict_failure_is_server_error (B : Backend) (req : PredictRequest)
    (w : World B) :
  let flow := predict_flow B (query req) (session_id req) (user_id req) in
  (forall w0 result w',
      flow w0 = (inr result, w') ->
      exists chunks hist prompt resp timestamp,
        generated B (query req) (session_id req) w0 chunks hist prompt resp /\
        mongo_fault B (OpInsertChat
          (mkChatDoc (user_id req) (session_id req) (Some (query req))
                     (Some (r_response resp)) timestamp)) = None /\
        json_get "response" result = Some (JStr (r_response resp))) /\
  (forall w0 err w',
      flow w0 = (inl err, w') ->
      exists e, err = mkExc RAGError ("Error in predict_flow: " +:+ exc_str e)) /\
  (qdrant_fault B OpOpen = None ->
   forall err w',
     flow (started B w) = (inl err, w') ->
     predict B (Some (CLIENT_SECRET_KEY B)) req w
     = (HTTPException 500 ("Prediction failed: " +:+ exc_str err), tick B w') /\
     response_status (fst (predict B (Some (CLIENT_SECRET_KEY B)) req w)) = 500).
Proof.
  intros flow. subst flow. split; [| split].
  - intros w0 result w' Hrun.
    pose proof (predict_flow_outcome B (query req) (session_id req) (user_id req) w0) as H.
    rewrite Hrun in H.
    inversion H as [| |w1 chunks hist prompt resp ts t1 t2 t3 t4 t5 t6 doc G Hins Hd Hc Hp Hs];
      subst.
    exists chunks, hist, prompt, resp, ts. repeat split; auto.
  - intros w0 err w' Hrun.
    pose proof (predict_flow_outcome B (query req) (session_id req) (user_id req) w0) as H.
    rewrite Hrun in H. inversion H; subst; eexists; reflexivity.
  - intros Hopen err w' Hrun.
    rewrite predict_accepted, Hrun, Hopen. split; reflexivity.
Qed.

Lemma predict_failure_is_server_error_witness :
  response_status
    (fst (predict Demo.backend_llm_down (Some "s3cret") Demo.request
            (Demo.empty_world Demo.backend_llm_down))) = 500.
Proof.
  eapply (predict_failure_is_server_error Demo.backend_llm_down Demo.request
            (Demo.empty_world Demo.backend_llm_down)).
  - reflexivity.
  - vm_compute. reflexivity.
Defined.

(** ** Chat history *)

(** C2.  Let [turns] be the stored turns of a session in chronological
    order (timestamps strictly increasing), [n] of them.  When the store
    answers, [get_chat_history] returns the lines of the last [min n 3]
    turns, oldest first, two lines per turn (the query line, then the
    response line), so [2 * min n 3] lines; with five stored turns these
    are the six lines of turns 3, 4 and 5. *)
Theorem history_window (B : Backend) (session_id : string) (w : World B)
    (turns : list ChatDoc) :
  mongo_fault B (OpFind session_id) = None ->
  turns ≡ₚ filter (fun c => chat_session_id c = session_id) (chat_collection w) ->
  StronglySorted (fun a b => chat_timestamp a < chat_timestamp b) turns ->
  let n := length turns in
  let recent := skipn (n - 3) turns in
  (exists w', get_chat_history B session_id w = (inr (format_history recent), w')) /\
  length recent = Nat.min n 3 /\
  length (format_history recent) = (2 * Nat.min n 3)%nat /\
  (forall j chat, recent !! j = Some chat ->
     format_history recent !! (2 * j)%nat
       = Some ("QUERY: " +:+ default EmptyString (chat_query chat)) /\
     format_history recent !! (2 * j + 1)%nat
       = Some ("RESPONSE: " +:+ default EmptyString (chat_response chat))) /\
  (forall t1 t2 t3 t4 t5, turns = [t1; t2; t3; t4; t5] ->
     format_history recent = format_chat t3 ++ format_chat t4 ++ format_chat t5).
Proof.
  intros Hfind Hperm Hsorted n recent.
  assert (Hlen : length recent = Nat.min n 3).
  { subst recent. rewrite length_skipn. fold n. lia. }
  split; [| split; [exact Hlen | split; [| split]]].
  - rewrite get_chat_history_run, Hfind. eexists. f_equal. f_equal. f_equal.
    unfold last_chats.
    rewrite (sort_desc_of_increasing chat_timestamp _ turns Hperm Hsorted).
    rewrite firstn_rev, rev_involutive. reflexivity.
  - rewrite format_history_length, Hlen. reflexivity.
  - intros j chat. apply format_history_lookup.
  - intros t1 t2 t3 t4 t5 ->. reflexivity.
Qed.

Lemma history_window_witness :
  exists w',
    get_chat_history Demo.backend "s1" (Demo.history_world Demo.backend)
    = (inr (format_chat Demo.t3 ++ format_chat Demo.t4 ++ format_chat Demo.t5), w').
Proof.
  assert (Hsorted : StronglySorted (fun a b => chat_timestamp a < chat_timestamp b)
                      [Demo.t1; Demo.t2; Demo.t3; Demo.t4; Demo.t5]).
  { repeat constructor; simpl; lia. }
  destruct (history_window Demo.backend "s1" (Demo.history_world Demo.backend)
              [Demo.t1; Demo.t2; Demo.t3; Demo.t4; Demo.t5]
              eq_refl (Permutation_refl _) Hsorted) as [Hrun _].
  exact Hrun.
Defined.

(** C10.  Whatever turns are stored, also turns that lack their query or
    their response, [get_chat_history] returns (when the store answers the
    query) a list of lines of even length; the lines at positions 1, 3, ...
    start with "QUERY: " and those at positions 2, 4, ... with
    "RESPONSE: "; the two lines of a turn carry its query and its response,
    the empty string standing for a missing one. *)
Theorem history_lines_alternate (B : Backend) (session_id : string) (w : World B) :
  mongo_fault B (OpFind session_id) = None ->
  exists chats w',
    get_chat_history B session_id w = (inr (format_history chats), w') /\
    chats = rev (last_chats (chat_collection w) session_id) /\
    length (format_history chats) = (2 * length chats)%nat /\
    Nat.even (length (format_history chats)) = true /\
    (forall i line, format_history chats !! i = Some line ->
       if Nat.even i then String.prefix "QUERY: " line = true
       else String.prefix "RESPONSE: " line = true) /\
    (forall j chat, chats !! j = Some chat ->
       format_history chats !! (2 * j)%nat
         = Some ("QUERY: " +:+ default EmptyString (chat_query chat)) /\
       format_history chats !! (2 * j + 1)%nat
         = Some ("RESPONSE: " +:+ default EmptyString (chat_response chat))) /\
    (forall j chat, chats !! j = Some chat ->
       (chat_query chat = None ->
        format_history chats !! (2 * j)%nat = Some "QUERY: ") /\
       (chat_response chat = None ->
        format_history chats !! (2 * j + 1)%nat = Some "RESPONSE: ")).
Proof.
  intros Hfind.
  exists (rev (last_chats (chat_collection w) session_id)).
  rewrite get_chat_history_run, Hfind. eexists.
  split; [reflexivity |]. split; [reflexivity |].
  split; [apply format_history_length |].
  split; [rewrite format_history_length, Nat.even_mul; reflexivity |].
  split; [apply format_history_parity |].
  split; [intros j chat; apply format_history_lookup |].
  intros j chat Hj.
  destruct (format_history_lookup _ _ _ Hj) as [Hq Hr].
  split; intros Hnone; [rewrite Hq, Hnone | rewrite Hr, Hnone]; reflexivity.
Qed.

Lemma history_lines_alternate_witness :
  exists w',
    get_chat_history Demo.backend "s1" (Demo.gap_world Demo.backend)
    = (inr ["QUERY: q1"; "RESPONSE: r1"; "QUERY: q2"; "RESPONSE: "], w').
Proof.
  destruct (history_lines_alternate Demo.backend "s1"
              (Demo.gap_world Demo.backend) eq_refl)
    as (chats & w' & Hrun & -> & _).
  exists w'. exact Hrun.
Defined.

(** ** Retrieval *)

(** C6.  When the embedding endpoint answers the query with a vector and
    the index answers, [retrieve_similar_chunks query k] returns the text
    payloads of the search hits, in the order of the hits (stored points,
    most similar first): [min k (number of stored points)] texts, so at
    most [k]; a hit without text payload gives the empty string at its
    rank; an empty index gives the empty list.  No store is changed. *)
Theorem retrieve_returns_hit_texts (B : Backend) (query reply : string)
    (v : Vector B) (vs : list (Vector B)) (k : nat) (w : World B) :
  embedding_post B (InputText query) = inr (200, reply, v :: vs) ->
  qdrant_fault B OpSearch = None ->
  qdrant_fault B OpGetCollection = None ->
  qdrant_fault B OpScroll = None ->
  let hits := nearest (qdrant_points w) v k in
  let texts := map hit_text hits in
  (exists w', retrieve_similar_chunks B query k w = (inr texts, w') /\ quiet B w w') /\
  length texts = Nat.min k (length (qdrant_points w)) /\
  (length texts <= k)%nat /\
  (forall hit, hit ∈ hits -> hit ∈ qdrant_points w) /\
  StronglySorted
    (fun a b => similarity B v (point_vector b) <= similarity B v (point_vector a))
    hits /\
  (forall i hit, hits !! i = Some hit ->
     texts !! i = Some (default EmptyString (point_payload hit !! "text"))) /\
  (forall i hit, hits !! i = Some hit -> point_payload hit !! "text" = None ->
     texts !! i = Some EmptyString) /\
  (qdrant_points w = [] -> texts = []).
Proof.
  intros Hpost Hsearch Hinfo Hscroll hits texts.
  set (score := fun p : Point B => similarity B v (point_vector p)).
  assert (Hlen : length texts = Nat.min k (length (qdrant_points w))).
  { subst texts hits. unfold nearest.
    rewrite length_map, length_firstn.
    rewrite (Permutation_length (sort_desc_perm _ (qdrant_points w))).
    reflexivity. }
  assert (Hlookup : forall i hit, hits !! i = Some hit ->
            texts !! i = Some (default EmptyString (point_payload hit !! "text"))).
  { intros i hit Hi. subst texts. rewrite list_lookup_fmap, Hi. reflexivity. }
  split; [exact (retrieve_ok B query reply v vs k w Hpost Hsearch Hinfo Hscroll) |].
  split; [exact Hlen |]. split; [lia |]. split; [| split; [| split; [| split]]].
  - intros hit Hhit. subst hits. unfold nearest in Hhit.
    rewrite <- (sort_desc_perm score (qdrant_points w)).
    rewrite <- (firstn_skipn k (sort_desc score (qdrant_points w))).
    apply elem_of_app. left. exact Hhit.
  - subst hits. unfold nearest.
    pose proof (sort_desc_sorted score (qdrant_points w)) as Hs.
    rewrite <- (firstn_skipn k (sort_desc score (qdrant_points w))) in Hs.
    exact (StronglySorted_app_1_l _ _ _ Hs).
  - exact Hlookup.
  - intros i hit Hi Hnone. rewrite (Hlookup i hit Hi), Hnone. reflexivity.
  - intros Hempty. subst texts hits. unfold nearest. rewrite Hempty.
    destruct k; reflexivity.
Qed.

Lemma retrieve_returns_hit_texts_witness :
  exists w',
    retrieve_similar_chunks Demo.backend "what" 2 Demo.index_world
    = (inr ["near"; EmptyString], w').
Proof.
  destruct (retrieve_returns_hit_texts Demo.backend "what" EmptyString
              4 [] 2 Demo.index_world eq_refl eq_refl eq_refl eq_refl)
    as [(w' & Hrun & _) _].
  exists w'. exact Hrun.
Defined.

(** ** Storing chunks *)

(** C7.  Let the embedding endpoint answer the batch with one vector per
    text, let the index accept the write, and let identifiers never repeat
    (those of the stored points having been drawn before).  Then
    [store_chunks texts metadatas] builds [length texts] points and upserts
    them in one call: point [i] has the identifier drawn for it, the
    [i]-th vector, and the payload [{text: texts[i]}] merged with
    [metadatas[i]] when there is one (its keys win) and left alone
    otherwise; the identifiers differ from one another and from every
    stored one, so the index grows by exactly these points.  This holds in
    particular when there are fewer metadata entries than texts. *)
Theorem store_chunks_inserts_batch (B : Backend) (texts : list string)
    (metadatas : list (gmap string string)) (reply : string)
    (vs : list (Vector B)) (w : World B) :
  (length metadatas <= length texts)%nat ->
  embedding_post B (InputTexts texts) = inr (200, reply, vs) ->
  length vs = length texts ->
  qdrant_fault B OpUpsert = None ->
  qdrant_fault B OpGetCollection = None ->
  uuid4_distinct B ->
  ids_drawn B w ->
  exists points w',
    store_chunks B texts metadatas w = (inr tt, w') /\
    length points = length texts /\
    (forall i text, texts !! i = Some text ->
       exists p v,
         points !! i = Some p /\ vs !! i = Some v /\
         point_id p = uuid4 B (uuid_next w + i) /\
         point_vector p = v /\
         point_payload p
         = match metadatas !! i with
           | Some extra => extra ∪ {[ "text" := text ]}
           | None => {[ "text" := text ]}
           end) /\
    NoDup (map point_id points) /\
    (forall p q, p ∈ points -> q ∈ qdrant_points w -> point_id q <> point_id p) /\
    qdrant_points w' = upsert_points B points (qdrant_points w) /\
    qdrant_points w' = qdrant_points w ++ points /\
    (exists evs, trace w' = trace w ++ evs /\ upserts evs = 1%nat).
Proof.
  intros _ Hpost Hlen Hupsert Hinfo Hinj Hdrawn.
  destruct (embed_texts_ok B texts reply vs (tick B (tick B w)) Hpost Hlen)
    as (evs & w1 & E & Q & Ht & Hu).
  destruct (build_points_ok B texts metadatas vs 0 (tick B (tick B w1)))
    as (points & Hrun & Hn & Hlook); [simpl; lia |].
  assert (Hnext : uuid_next (tick B (tick B w1)) = uuid_next w).
  { cbn [tick uuid_next]. rewrite (quiet_uuid _ _ _ Q). reflexivity. }
  assert (Hpts : qdrant_points w1 = qdrant_points w).
  { rewrite (quiet_points _ _ _ Q). reflexivity. }
  rewrite Hnext in Hlook.
  assert (Hat : forall i p, points !! i = Some p ->
            exists text v, texts !! i = Some text /\ vs !! i = Some v /\
              p = mkPoint (uuid4 B (uuid_next w + i)) v
                    (default ∅ (metadatas !! i) ∪ {[ "text" := text ]})).
  { intros i p Hp.
    assert (Hi : (i < length texts)%nat).
    { rewrite <- Hlen, <- Hn. eapply lookup_lt_Some, Hp. }
    destruct (lookup_lt_is_Some_2 texts i Hi) as [text Htext].
    destruct (Hlook i text Htext) as (v & Hv & Hp'); [lia |].
    exists text, v. simpl in Hp'. rewrite Hp in Hp'. injection Hp' as ->.
    auto. }
  assert (Hnd : NoDup (map point_id points)).
  { apply NoDup_alt. intros i j x Hi Hj.
    rewrite list_lookup_fmap in Hi, Hj.
    destruct (points !! i) as [p|] eqn:Ep; [|discriminate].
    destruct (points !! j) as [q|] eqn:Eq; [|discriminate].
    destruct (Hat i p Ep) as (? & ? & _ & _ & ->).
    destruct (Hat j q Eq) as (? & ? & _ & _ & ->).
    simpl in Hi, Hj. injection Hi as <-. injection Hj as Hj.
    apply Hinj in Hj. lia. }
  assert (Hfresh : forall p q, p ∈ points -> q ∈ qdrant_points w ->
            point_id q <> point_id p).
  { intros p q Hp Hq Heq.
    apply list_elem_of_lookup in Hp as [i Hp].
    destruct (Hat i p Hp) as (? & ? & _ & _ & ->).
    destruct (Hdrawn q Hq) as (m & Hm & Hid).
    simpl in Heq. rewrite Hid in Heq. apply Hinj in Heq. lia. }
  exists points. eexists. split; [| split; [| split; [| split; [| split; [| split; [| split]]]]]].
  - exact (store_chunks_ok B texts metadatas vs points w w1 _ E Hrun Hupsert Hinfo).
  - rewrite Hn. exact Hlen.
  - intros i text Htext.
    assert (Hi : (i < length vs)%nat).
    { rewrite Hlen. eapply lookup_lt_Some, Htext. }
    destruct (Hlook i text Htext Hi) as (v & Hv & Hp). simpl in Hp.
    eexists _, v. split; [exact Hp |]. split; [exact Hv |].
    split; [reflexivity |]. split; [reflexivity |].
    simpl. destruct (metadatas !! i); simpl; [reflexivity |].
    apply (left_id_L ∅ (∪)).
  - exact Hnd.
  - exact Hfresh.
  - cbn. rewrite Hpts. reflexivity.
  - cbn. rewrite Hpts. apply upsert_points_fresh; [exact Hnd | exact Hfresh].
  - exists (evs ++ [EvQdrant OpUpsert; EvQdrant OpGetCollection]).
    split.
    + cbn. rewrite Ht. cbn. rewrite <- !app_assoc. reflexivity.
    + unfold upserts in *. rewrite List.filter_app, length_app, Hu. reflexivity.
Qed.

Lemma store_chunks_inserts_batch_witness :
  exists points w',
    store_chunks Demo.backend Demo.two_chunks Demo.one_metadata
      (Demo.empty_world Demo.backend) = (inr tt, w') /\
    length points = 2%nat /\
    qdrant_points w' = points.
Proof.
  destruct (store_chunks_inserts_batch Demo.backend Demo.two_chunks
              Demo.one_metadata EmptyString [21; 21]
              (Demo.empty_world Demo.backend))
    as (points & w' & Hrun & Hn & _ & _ & _ & _ & Hgrow & _).
  - simpl. lia.
  - reflexivity.
  - reflexivity.
  - reflexivity.
  - reflexivity.
  - apply demo_uuid4_distinct. reflexivity.
  - intros p Hp. inversion Hp.
  - exists points, w'. split; [exact Hrun |]. split; [exact Hn | exact Hgrow].
Defined.

(** ** Ingestion of a document without chunks *)

(** C4, as the code has it.  [train] never raises.  When the text of the
    upload yields no chunk (and the document store accepted the document),
    it returns the failure object with the keys error, message, user_id,
    filename, status, the status being "failed" and the message
    "No chunks generated from document"; no vector, no identifier and no
    point is produced and the index is not touched, the only call issued
    being the insertion of the raw document, which by then is in the
    document store. *)
Theorem zero_chunks_fail_after_saving (B : Backend) (user_id : string)
    (file : UploadFile) (text : string) (w : World B) :
  extract_text_from_file B (content file) (filename file) = inr text ->
  chunk_text B text = [] ->
  (forall d, mongo_fault B (OpInsertDoc d) = None) ->
  (exists result w0, train B user_id file w = (inr result, w0)) /\
  exists doc w',
    train B user_id file w
    = (inr (JObj [ ("error", JStr "Processing Error");
                   ("message", JStr "No chunks generated from document");
                   ("user_id", JStr user_id);
                   ("filename", JStr (filename file));
                   ("status", JStr "failed") ]), w') /\
    doc_user_id doc = user_id /\
    doc_filename doc = user_id +:+ "_" +:+ filename file /\
    doc_file_content doc = text /\
    docs_collection w' = docs_collection w ++ [doc] /\
    chat_collection w' = chat_collection w /\
    qdrant_points w' = qdrant_points w /\
    uuid_next w' = uuid_next w /\
    trace w' = trace w ++ [EvMongo (OpInsertDoc doc)].
Proof.
  intros Hextract Hchunks Hmongo.
  split; [apply train_returns |].
  eexists. eexists. split.
  - apply (train_zero_chunks_run B user_id file text w Hextract Hchunks).
    apply Hmongo.
  - repeat split; reflexivity.
Qed.

Lemma zero_chunks_fail_after_saving_witness :
  exists doc w',
    train Demo.backend "u1" Demo.empty_file (Demo.empty_world Demo.backend)
    = (inr (failed "No chunks generated from document" "u1" "empty.txt"), w') /\
    docs_collection w' = [doc].
Proof.
  destruct (zero_chunks_fail_after_saving Demo.backend "u1" Demo.empty_file
              EmptyString (Demo.empty_world Demo.backend)
              eq_refl eq_refl (fun d => eq_refl))
    as (_ & doc & w' & Hrun & _ & _ & _ & Hdocs & _).
  exists doc, w'. split; [exact Hrun | exact Hdocs].
Defined.

(** C4 as the spec words it does not hold: the empty document produces no
    chunk and the failure object, yet the document store has been written
    to, and the run did not stop before that stage. *)
Lemma zero_chunks_document_is_stored :
  let out := train Demo.backend "u1" Demo.empty_file (Demo.empty_world Demo.backend) in
  chunk_text Demo.backend EmptyString = [] /\
  fst out = inr (failed "No chunks generated from document" "u1" "empty.txt") /\
  docs_collection (snd out) <> docs_collection (Demo.empty_world Demo.backend) /\
  existsb is_write (trace (snd out)) = true /\
  qdrant_points (snd out) = [].
Proof.
  vm_compute. repeat split; try reflexivity; discriminate.
Qed.

(** ** The prompt *)

(** C5, as the code has it.  The prompt is the fixed instructions followed
    by three blocks under fixed headings: the chat history, the retrieved
    context and the user's query.  The query is inserted as it is; the
    history and the context are inserted as Python prints a list of
    strings: in brackets, the items separated by a comma and a space, each
    item quoted and escaped as [repr] does (whatever the characters the
    interpreter holds printable), with nothing else added (no citation
    markers).  The instructions ask for a friendly tone, bold key
    points, bullet lists with an asterisk, a fixed refusal sentence for
    unrelated queries, and consistent markdown. *)
Theorem prompt_is_template_of_three_blocks (printable : N -> bool)
    (chat_history context : list string) (query : string) :
  CONTEXT_PROMPT_format printable chat_history context query
  = inr (INSTRUCTIONS
         +:+ "Here is the chat history:" +:+ nl
         +:+ py_str_list printable chat_history +:+ nl +:+ nl
         +:+ "Here is the context:" +:+ nl
         +:+ py_str_list printable context +:+ nl +:+ nl
         +:+ "Here is the user's query:" +:+ nl
         +:+ query +:+ nl) /\
  py_str_list printable context
  = "[" +:+ join ", " (map (py_repr printable) context) +:+ "]" /\
  is_substring "Use engaging, friendly, and helpful tone." INSTRUCTIONS = true /\
  is_substring "Highlight key points in bold." INSTRUCTIONS = true /\
  is_substring
    "Use bullet points for lists and start each bullet point with an asterisk (*)"
    INSTRUCTIONS = true /\
  is_substring
    ("If the user's query is not related to the context, please respond with "
     +:+ String dquote ("I'm sorry, I can't help with that." +:+ String dquote EmptyString))
    INSTRUCTIONS = true /\
  is_substring "Use consistent markdown formatting" INSTRUCTIONS = true.
Proof.
  split; [| repeat split; vm_compute; reflexivity].
  unfold CONTEXT_PROMPT_format.
  generalize (py_str_list printable chat_history) (py_str_list printable context).
  intros h c. vm_compute. reflexivity.
Qed.

(** C5 as the spec words it does not hold: a retrieved chunk of two lines
    does not occur as it is anywhere in the prompt; the context block is
    the printed list, where the line break has become a backslash and the
    letter n, between quotes and brackets. *)
Lemma context_block_is_printed_list :
  exists prompt,
    CONTEXT_PROMPT_format Demo.printable [] [Demo.two_line_chunk]
      "What is the refund window?"
      = inr prompt /\
    is_substring Demo.two_line_chunk prompt = false /\
    is_substring ("Here is the context:" +:+ nl +:+ "['Refunds:\n30 days']" +:+ nl) prompt
      = true.
Proof.
  eexists. split; [vm_compute; reflexivity |]. split; vm_compute; reflexivity.
Qed.

(** ** The authentication gate *)

(** C8, what the code does.  A request to [/predict] or [/train] without
    the X-Client-Secret header is turned down before the handler runs and
    the world is left as it was, but by FastAPI's validation of the
    required header: the status is 422, not 401. *)
Theorem missing_secret_is_validation_error (B : Backend) (req : PredictRequest)
    (user_id : string) (file : UploadFile) (w : World B) :
  predict B None req w = (RequestValidationError ["header"; "X-Client-Secret"], w) /\
  train_endpoint B None user_id file w
    = (RequestValidationError ["header"; "X-Client-Secret"], w) /\
  response_status (fst (predict B None req w)) = 422 /\
  response_status (fst (train_endpoint B None user_id file w)) = 422 /\
  response_status (fst (predict B None req w)) <> 401.
Proof.
  unfold predict, train_endpoint, Depends_verify_client_secret.
  repeat split; try reflexivity. cbn. discriminate.
Qed.

(** A header that differs from the configured secret is answered with 401
    by [verify_client_secret], again before anything runs. *)
Lemma wrong_secret_is_unauthorized (B : Backend) (secret : string)
    (req : PredictRequest) (user_id : string) (file : UploadFile) (w : World B) :
  secret <> CLIENT_SECRET_KEY B ->
  predict B (Some secret) req w = (HTTPException 401 "Invalid client secret key", w) /\
  train_endpoint B (Some secret) user_id file w
    = (HTTPException 401 "Invalid client secret key", w).
Proof.
  intros Hne. apply String.eqb_neq in Hne.
  unfold predict, train_endpoint, Depends_verify_client_secret, verify_client_secret.
  rewrite Hne. split; reflexivity.
Qed.

(** * Further properties of the service *)

Ltac run_step :=
  rewrite ?bind_run;
  first [ rewrite time_time_run | rewrite emit_run | rewrite lift_exc_run
        | rewrite ret_run ];
  cbv beta iota.

(** ** File names and text extraction *)

Lemma lower_char_dot (c : ascii) :
  Ascii.eqb "."%char (lower_char c) = Ascii.eqb "."%char c.
Proof. destruct c as [[] [] [] [] [] [] [] []]; reflexivity. Qed.

Lemma contains_dot_lower (s : string) :
  contains_char "."%char (lower s) = contains_char "."%char s.
Proof.
  induction s as [|c s IH]; [reflexivity |].
  cbn [lower contains_char]. rewrite lower_char_dot, IH. reflexivity.
Qed.

Lemma lower_append (a b : string) : lower (a +:+ b) = lower a +:+ lower b.
Proof.
  induction a as [|c a IH]; [reflexivity |].
  rewrite append_cons. cbn [lower]. rewrite IH. reflexivity.
Qed.

Lemma contains_char_append (c : ascii) (a b : string) :
  contains_char c (a +:+ b) = contains_char c a || contains_char c b.
Proof.
  induction a as [|x a IH]; [reflexivity |].
  rewrite append_cons. cbn [contains_char]. rewrite IH. apply orb_assoc.
Qed.

Lemma last_piece_no_dot (s acc : string) :
  contains_char "."%char s = false -> last_piece acc s = acc +:+ s.
Proof.
  revert acc. induction s as [|c s IH]; intros acc Hs.
  - simpl. induction acc as [|x acc IHacc]; [reflexivity |].
    rewrite append_cons. f_equal. exact IHacc.
  - cbn [contains_char] in Hs. apply orb_false_iff in Hs as [Hc Hs].
    cbn [last_piece]. rewrite Ascii.eqb_sym, Hc. rewrite (IH _ Hs).
    rewrite append_assoc'. reflexivity.
Qed.

Lemma last_piece_after_dot (base ext acc : string) :
  contains_char "."%char ext = false ->
  last_piece acc (base +:+ "." +:+ ext) = ext.
Proof.
  intros Hext. revert acc. induction base as [|c base IH]; intros acc.
  - rewrite append_nil. change ("." +:+ ext) with (String "."%char ext).
    cbn [last_piece]. rewrite Ascii.eqb_refl.
    apply (last_piece_no_dot ext EmptyString Hext).
  - rewrite append_cons. cbn [last_piece]. destruct (Ascii.eqb c "."); apply IH.
Qed.

Lemma file_extension_dotted (base ext : string) :
  contains_char "."%char ext = false ->
  file_extension (base +:+ "." +:+ ext) = lower ext.
Proof.
  intros Hext. unfold file_extension.
  rewrite !contains_char_append.
  change (contains_char "." ".") with true. rewrite orb_true_r.
  rewrite !lower_append. apply last_piece_after_dot.
  rewrite contains_dot_lower. exact Hext.
Qed.



(** X2.  A file whose name ends in .txt, .md, .json or .csv, in any
    letter case, always yields a text: the UTF-8 reading of its bytes, or
    their Latin-1 reading when they are not UTF-8. *)
Theorem text_files_always_extract (B : Backend) (file_content base ext : string) :
  contains_char "."%char ext = false ->
  In (lower ext) ["txt"; "md"; "json"; "csv"] ->
  extract_text_from_file B file_content (base +:+ "." +:+ ext)
  = inr (default (decode_latin1 B file_content) (decode_utf8 B file_content)).
Proof.
  intros Hext Hin. unfold extract_text_from_file.
  rewrite (file_extension_dotted base ext Hext).
  simpl in Hin.
  destruct Hin as [<- | [<- | [<- | [<- | []]]]]; cbn;
    destruct (decode_utf8 B file_content); reflexivity.
Qed.

Lemma text_files_always_extract_witness :
  extract_text_from_file Demo.backend_strict (content Demo.binary_file) "notes.v2.MD"
  = inr (content Demo.binary_file).
Proof.
  apply (text_files_always_extract Demo.backend_strict
           (content Demo.binary_file) "notes.v2" "MD"); [reflexivity |].
  right. left. reflexivity.
Defined.

Lemma list_ascii_append (a b : string) :
  list_ascii_of_string (a +:+ b) = list_ascii_of_string a ++ list_ascii_of_string b.
Proof.
  induction a as [|c a IH]; [reflexivity |].
  rewrite append_cons. cbn [list_ascii_of_string]. rewrite IH. reflexivity.
Qed.

Lemma string_of_list_app (l1 l2 : list ascii) :
  string_of_list_ascii (l1 ++ l2) = string_of_list_ascii l1 +:+ string_of_list_ascii l2.
Proof.
  induction l1 as [|c l1 IH]; [reflexivity |].
  cbn [app string_of_list_ascii]. rewrite append_cons, IH. reflexivity.
Qed.

Lemma rev_string_involutive (s : string) : rev_string (rev_string s) = s.
Proof.
  unfold rev_string.
  rewrite list_ascii_of_string_of_list_ascii, rev_involutive.
  apply string_of_list_ascii_of_string.
Qed.

Lemma rev_string_append (a b : string) :
  rev_string (a +:+ b) = rev_string b +:+ rev_string a.
Proof.
  unfold rev_string. rewrite list_ascii_append, rev_app_distr.
  apply string_of_list_app.
Qed.

Lemma prefix_of_empty (w : string) :
  w <> EmptyString -> String.prefix w EmptyString = false.
Proof. destruct w; [contradiction | reflexivity]. Qed.

Lemma prefix_extends (w a b : string) :
  String.prefix w a = true -> String.prefix w (a +:+ b) = true.
Proof.
  revert a. induction w as [|c w IH]; intros a H.
  - destruct (a +:+ b); reflexivity.
  - destruct a as [|x a]; [discriminate H |].
    rewrite append_cons. simpl in *.
    destruct (ascii_dec c x); [apply IH; exact H | discriminate H].
Qed.

Lemma space_len_none (table : list string) (s : string) :
  Forall (fun w => w <> EmptyString) table ->
  space_len table s = 0%nat ->
  forall w, w ∈ table -> String.prefix w s = false.
Proof.
  induction 1 as [|w0 table Hw0 Htable IH]; intros Hlen w Hin.
  - inversion Hin.
  - cbn [space_len] in Hlen.
    destruct (String.prefix w0 s) eqn:E.
    + destruct w0; [contradiction | discriminate Hlen].
    + apply elem_of_cons in Hin as [-> | Hin]; [exact E | exact (IH Hlen w Hin)].
Qed.

Lemma space_len_empty (table : list string) :
  Forall (fun w => w <> EmptyString) table ->
  space_len table EmptyString = 0%nat.
Proof.
  induction 1 as [|w0 table Hw0 Htable IH]; [reflexivity |].
  cbn [space_len]. rewrite (prefix_of_empty w0 Hw0). exact IH.
Qed.

Lemma lstrip_from_clean (table : list string) (s : string) (skip : nat) :
  Forall (fun w => w <> EmptyString) table ->
  space_len table (lstrip_from table skip s) = 0%nat.
Proof.
  intros Htable. revert skip.
  induction s as [|x s IH]; intros skip.
  - apply space_len_empty. exact Htable.
  - cbn [lstrip_from]. destruct skip as [|k]; [| apply IH].
    destruct (space_len table (String x s)) as [|k] eqn:E; [exact E | apply IH].
Qed.

Lemma lstrip_from_suffix (table : list string) (s : string) (skip : nat) :
  exists pre, s = pre +:+ lstrip_from table skip s.
Proof.
  revert skip. induction s as [|x s IH]; intros skip.
  - exists EmptyString. reflexivity.
  - cbn [lstrip_from].
    assert (Hdrop : forall k, exists pre, String x s = pre +:+ lstrip_from table k s).
    { intros k. destruct (IH k) as [pre Hpre].
      exists (String x pre). rewrite append_cons, <- Hpre. reflexivity. }
    destruct skip as [|k]; [| apply Hdrop].
    destruct (space_len table (String x s)) as [|k]; [| apply Hdrop].
    exists EmptyString. reflexivity.
Qed.

Lemma whitespace_nonempty : Forall (fun w => w <> EmptyString) WHITESPACE.
Proof.
  vm_compute.
  repeat (constructor; [intros Hnil; discriminate Hnil |]). constructor.
Qed.

Lemma whitespace_rev_nonempty :
  Forall (fun w => w <> EmptyString) (map rev_string WHITESPACE).
Proof.
  vm_compute.
  repeat (constructor; [intros Hnil; discriminate Hnil |]). constructor.
Qed.

(** What [strip] returns neither starts nor ends with a white space
    character. *)
Lemma strip_clean (s : string) (w : string) :
  w ∈ WHITESPACE ->
  String.prefix w (strip s) = false /\ ends_with w (strip s) = false.
Proof.
  intros Hw. unfold strip, rstrip, ends_with. split.
  - destruct (lstrip_from_suffix (map rev_string WHITESPACE) (rev_string (lstrip s)) 0)
      as [pre Hpre].
    apply (f_equal rev_string) in Hpre.
    rewrite rev_string_involutive, rev_string_append in Hpre.
    destruct (String.prefix w _) eqn:E; [| reflexivity].
    apply (prefix_extends _ _ (rev_string pre)) in E.
    rewrite <- Hpre in E.
    rewrite (space_len_none WHITESPACE (lstrip s) whitespace_nonempty
               (lstrip_from_clean WHITESPACE s 0 whitespace_nonempty) w Hw) in E.
    discriminate E.
  - rewrite rev_string_involutive.
    apply (space_len_none (map rev_string WHITESPACE) _ whitespace_rev_nonempty).
    + apply lstrip_from_clean, whitespace_rev_nonempty.
    + exact (list_elem_of_fmap_2 rev_string WHITESPACE w Hw).
Qed.

(** X3.  A file whose name ends in .pdf (any letter case) is read through
    the PDF reader.  When that raises, the error is an [Exception] whose
    message is "PDF processing requires PyPDF2. Please install it with:
    pip install PyPDF2" for an [ImportError], and "Failed to extract text
    from PDF: " followed by the message of the exception for any other;
    otherwise the text returned is the pages, each followed by a line
    break, with the white space at both ends removed, so it neither starts
    nor ends with a white space character of [str.isspace]. *)
Theorem pdf_text_is_stripped (B : Backend) (file_content base ext : string) :
  contains_char "."%char ext = false ->
  lower ext = "pdf" ->
  match extract_text_from_file B file_content (base +:+ "." +:+ ext) with
  | inr text =>
      (exists pages,
          pdf_pages B file_content = inr pages /\
          text = strip (foldl (fun acc page => acc +:+ page +:+ nl) EmptyString pages)) /\
      (forall w, w ∈ WHITESPACE ->
         String.prefix w text = false /\ ends_with w text = false)
  | inl e =>
      exists e0,
        pdf_pages B file_content = inl e0 /\
        exc_class e = Exception /\
        exc_str e
        = if is_import_error (exc_class e0)
          then "PDF processing requires PyPDF2. Please install it with: pip install PyPDF2"
          else "Failed to extract text from PDF: " +:+ exc_str e0
  end.
Proof.
  intros Hext Hpdf. unfold extract_text_from_file.
  rewrite (file_extension_dotted base ext Hext).
  rewrite Hpdf. cbn [String.eqb]. change (String.eqb "pdf" "pdf") with true.
  cbv iota. unfold extract_text_from_pdf.
  destruct (pdf_pages B file_content) as [e0 | pages].
  - destruct (is_import_error (exc_class e0)) eqn:Himport;
      exists e0; rewrite ?Himport; repeat split.
  - split; [exists pages; split; reflexivity |].
    intros w Hw. apply strip_clean. exact Hw.
Qed.

Lemma pdf_text_is_stripped_witness :
  (exists e,
      extract_text_from_file Demo.backend "not a pdf" "scan.PDF" = inl e /\
      exc_str e
      = "PDF processing requires PyPDF2. Please install it with: pip install PyPDF2") /\
  (exists e,
      extract_text_from_file Demo.backend_strict "not a pdf" "scan.PDF" = inl e /\
      exc_str e = "Failed to extract text from PDF: EOF marker not found").
Proof.
  split.
  - pose proof (pdf_text_is_stripped Demo.backend "not a pdf" "scan" "PDF"
                  eq_refl eq_refl) as H.
    destruct (extract_text_from_file Demo.backend "not a pdf" ("scan" +:+ "." +:+ "PDF"))
      as [e | text] eqn:E.
    + destruct H as (e0 & H0 & _ & Hs). injection H0 as <-.
      exists e. split; [exact E | exact Hs].
    + destruct H as [(pages & Hp & _) _]. discriminate Hp.
  - pose proof (pdf_text_is_stripped Demo.backend_strict "not a pdf" "scan" "PDF"
                  eq_refl eq_refl) as H.
    destruct (extract_text_from_file Demo.backend_strict "not a pdf"
                ("scan" +:+ "." +:+ "PDF")) as [e | text] eqn:E.
    + destruct H as (e0 & H0 & _ & Hs). injection H0 as <-.
      exists e. split; [exact E | exact Hs].
    + destruct H as [(pages & Hp & _) _]. discriminate Hp.
Defined.

(** ** Ingestion *)

Lemma train_extract_fails (B : Backend) (user_id : string) (file : UploadFile)
    (e : PyExc) (w : World B) :
  extract_text_from_file B (content file) (filename file) = inl e ->
  train B user_id file w
  = (inr (failed (exc_str e) user_id (filename file)),
     tick B (tick B (tick B (tick B (tick B w))))).
Proof.
  intros Hextract. unfold train.
  run_step. rewrite try_except_run.
  do 3 run_step.
  rewrite bind_run, lift_exc_run, Hextract. cbv beta iota.
  run_step. rewrite ret_run. reflexivity.
Qed.

(** X4.  When the text of the upload cannot be extracted, [train] returns
    the failure object whose message is that of the extraction error, and
    nothing has happened: no store changed, no identifier was drawn, no
    call was issued. *)
Theorem train_reports_extraction_failure (B : Backend) (user_id : string)
    (file : UploadFile) (e : PyExc) (w : World B) :
  extract_text_from_file B (content file) (filename file) = inl e ->
  exists w',
    train B user_id file w
    = (inr (JObj [ ("error", JStr "Processing Error");
                   ("message", JStr (exc_str e));
                   ("user_id", JStr user_id);
                   ("filename", JStr (filename file));
                   ("status", JStr "failed") ]), w') /\
    docs_collection w' = docs_collection w /\
    chat_collection w' = chat_collection w /\
    qdrant_points w' = qdrant_points w /\
    uuid_next w' = uuid_next w /\
    trace w' = trace w.
Proof.
  intros Hextract. eexists. split.
  - exact (train_extract_fails B user_id file e w Hextract).
  - repeat split; reflexivity.
Qed.

Lemma train_reports_extraction_failure_witness :
  fst (train Demo.backend_strict "u1" Demo.binary_file
         (Demo.empty_world Demo.backend_strict))
  = inr (failed "Unsupported file type or encoding: blob.bin" "u1" "blob.bin").
Proof.
  destruct (train_reports_extraction_failure Demo.backend_strict "u1"
              Demo.binary_file
              (mkExc Exception "Unsupported file type or encoding: blob.bin")
              (Demo.empty_world Demo.backend_strict) eq_refl)
    as (w' & Hrun & _).
  rewrite Hrun. reflexivity.
Defined.

Lemma train_reaches_store (B : Backend) (user_id : string) (file : UploadFile)
    (text : string) (w : World B) :
  extract_text_from_file B (content file) (filename file) = inr text ->
  chunk_text B text <> [] ->
  mongo_fault B (OpInsertDoc (saved_doc B user_id file text w)) = None ->
  let chunks := chunk_text B text in
  let stored := store_chunks B chunks
                  (get_metadata_list chunks (user_id +:+ "_" +:+ filename file) user_id)
                  (storing_world B user_id file text w) in
  (forall e w2, stored = (inl e, w2) ->
     train B user_id file w
     = (inr (failed (exc_str e) user_id (filename file)), tick B w2)) /\
  (forall w2, stored = (inr tt, w2) ->
     exists result,
       train B user_id file w = (inr result, tick B (tick B (tick B w2))) /\
       json_keys result
       = ["user_id"; "filename"; "processing_summary"; "storage_info"; "status"; "message"] /\
       json_get "status" result = Some (JStr "success") /\
       (json_get "processing_summary" result ≫= json_get "total_chunks")
       = Some (JInt (Z.of_nat (length chunks))) /\
       (json_get "storage_info" result ≫= json_get "chunks_stored")
       = Some (JInt (Z.of_nat (length chunks)))).
Proof.
  intros Hextract Hchunks Hfault chunks stored.
  assert (Hworld :
    tick B (tick B (tick B (tick B (tick B (tick B (tick B
      (wrote_doc B (saved_doc B user_id file text w)
         (traced B (EvMongo (OpInsertDoc (saved_doc B user_id file text w)))
            (tick B (tick B (tick B (tick B (tick B (tick B (tick B (tick B w))))))))))))))))
    = storing_world B user_id file text w).
  { reflexivity. }
  split.
  - intros e w2 Hstored. unfold train.
    run_step. rewrite try_except_run.
    do 3 run_step.
    rewrite bind_run, lift_exc_run, Hextract. cbv beta iota.
    do 2 run_step.
    rewrite bind_run, save_uploaded_document_run. cbv zeta.
    cbn [ticks tick].
    replace (S (S (S (S (S (S (S (ticks w)))))))) with (ticks w + 7)%nat by lia.
    fold (saved_doc B user_id file text w). rewrite Hfault. cbv beta iota.
    do 3 run_step.
    fold chunks. destruct chunks as [|c cs] eqn:Ec; [contradiction |].
    do 3 run_step.
    rewrite bind_run, Hworld.
    fold stored. rewrite Hstored. cbv beta iota.
    run_step. rewrite ret_run. reflexivity.
  - intros w2 Hstored. unfold train.
    run_step. rewrite try_except_run.
    do 3 run_step.
    rewrite bind_run, lift_exc_run, Hextract. cbv beta iota.
    do 2 run_step.
    rewrite bind_run, save_uploaded_document_run. cbv zeta.
    cbn [ticks tick].
    replace (S (S (S (S (S (S (S (ticks w)))))))) with (ticks w + 7)%nat by lia.
    fold (saved_doc B user_id file text w). rewrite Hfault. cbv beta iota.
    do 3 run_step.
    fold chunks. destruct chunks as [|c cs] eqn:Ec; [contradiction |].
    do 3 run_step.
    rewrite bind_run, Hworld.
    fold stored. rewrite Hstored. cbv beta iota.
    do 3 run_step. rewrite ret_run.
    eexists. split; [reflexivity |]. repeat split; reflexivity.
Qed.

(** ** Storing chunks, beyond the expected reply *)

Lemma embed_texts_posts (B : Backend) (texts : list string) (w : World B) :
  texts <> [] ->
  embed_texts B texts w
  = match embedding_post B (InputTexts texts) with
    | inl e => (inl e, tick B (traced B (EvEmbed (InputTexts texts)) (tick B w)))
    | inr (status_code, response_text, data) =>
        if status_code =? 200
        then (inr data, tick B (traced B (EvEmbed (InputTexts texts)) (tick B w)))
        else (inl (mkExc RuntimeError ("Embedding failed: " +:+ response_text)),
              tick B (tick B (traced B (EvEmbed (InputTexts texts)) (tick B w))))
    end.
Proof.
  intros Hne. unfold embed_texts. run_step. rewrite reraise_timed_run.
  destruct texts as [|t texts]; [contradiction |]. cbv beta iota.
  run_step. rewrite bind_run, lift_exc_run.
  destruct (embedding_post B (InputTexts (t :: texts))) as [e | [[status body] data]];
    [reflexivity |].
  cbv beta iota. run_step.
  destruct (status =? 200); reflexivity.
Qed.

Lemma build_points_overrun (B : Backend) (texts : list string)
    (metadatas : list (gmap string string)) (vs : list (Vector B)) :
  forall (i : nat) (w : World B),
    (i <= length texts)%nat -> (length texts < i + length vs)%nat ->
    exists w',
      build_points B texts metadatas i vs w
      = (inl (mkExc IndexError "list index out of range"), w') /\
      docs_collection w' = docs_collection w /\
      chat_collection w' = chat_collection w /\
      qdrant_points w' = qdrant_points w /\
      trace w' = trace w.
Proof.
  induction vs as [|v vs IH]; intros i w Hi Hover; [simpl in Hover; lia |].
  cbn [build_points]. destruct (texts !! i) as [text |] eqn:Ht.
  - apply lookup_lt_Some in Ht. simpl in Hover.
    destruct (IH (S i) (drew B 1 w)) as (w' & Hrun & Hd & Hc & Hp & Htr); [lia | lia |].
    exists w'. rewrite bind_run, new_uuid_run. cbv beta iota.
    rewrite bind_run, Hrun. repeat split; assumption.
  - exists w. repeat split; reflexivity.
Qed.

(** X5.  When the embedding endpoint returns more vectors than there are
    texts, [store_chunks] raises [IndexError] while it builds the points,
    before any write: the index, the collections and the list of write
    requests are as before (identifiers have been drawn for nothing). *)
Theorem store_chunks_surplus_vectors (B : Backend) (texts : list string)
    (metadatas : list (gmap string string)) (reply : string)
    (vs : list (Vector B)) (w : World B) :
  embedding_post B (InputTexts texts) = inr (200, reply, vs) ->
  texts <> [] ->
  (length texts < length vs)%nat ->
  exists w',
    store_chunks B texts metadatas w
    = (inl (mkExc IndexError "list index out of range"), w') /\
    qdrant_points w' = qdrant_points w /\
    docs_collection w' = docs_collection w /\
    chat_collection w' = chat_collection w /\
    trace w' = trace w ++ [EvEmbed (InputTexts texts)].
Proof.
  intros Hpost Hne Hlen. unfold store_chunks.
  run_step. rewrite reraise_timed_run. run_step.
  rewrite bind_run, (embed_texts_posts B texts _ Hne), Hpost.
  cbv beta iota. change (200 =? 200) with true. cbv beta iota.
  do 2 run_step. rewrite bind_run.
  match goal with
  | |- context [build_points B texts metadatas 0 vs ?w0] =>
      destruct (build_points_overrun B texts metadatas vs 0 w0)
        as (w' & Hrun & Hd & Hc & Hp & Ht); [lia | simpl; lia |]
  end.
  rewrite Hrun. cbv beta iota.
  eexists. split; [reflexivity |].
  cbn [tick qdrant_points docs_collection chat_collection trace].
  rewrite Hp, Hd, Hc, Ht. repeat split; reflexivity.
Qed.

Lemma store_chunks_surplus_vectors_witness :
  exists w',
    store_chunks Demo.backend_surplus ["only chunk"] [] (Demo.empty_world Demo.backend_surplus)
    = (inl (mkExc IndexError "list index out of range"), w') /\
    qdrant_points w' = [].
Proof.
  destruct (store_chunks_surplus_vectors Demo.backend_surplus ["only chunk"] []
              EmptyString [1; 2] (Demo.empty_world Demo.backend_surplus))
    as (w' & Hrun & Hp & _).
  - reflexivity.
  - discriminate.
  - simpl. lia.
  - exists w'. split; [exact Hrun | exact Hp].
Defined.

Lemma store_chunks_appends (B : Backend) (texts : list string)
    (metadatas : list (gmap string string)) (reply : string)
    (vs : list (Vector B)) (w : World B) :
  embedding_post B (InputTexts texts) = inr (200, reply, vs) ->
  texts <> [] ->
  (length vs <= length texts)%nat ->
  qdrant_fault B OpUpsert = None ->
  qdrant_fault B OpGetCollection = None ->
  uuid4_distinct B ->
  ids_drawn B w ->
  exists points w',
    store_chunks B texts metadatas w = (inr tt, w') /\
    length points = length vs /\
    (forall j text, texts !! j = Some text -> (j < length vs)%nat ->
       exists v, vs !! j = Some v /\
         points !! j
         = Some (mkPoint (uuid4 B (uuid_next w + j)) v
                   (default ∅ (metadatas !! j) ∪ {[ "text" := text ]}))) /\
    qdrant_points w' = qdrant_points w ++ points /\
    docs_collection w' = docs_collection w /\
    chat_collection w' = chat_collection w /\
    uuid_next w' = (uuid_next w + length vs)%nat /\
    trace w' = trace w ++ [EvEmbed (InputTexts texts); EvQdrant OpUpsert;
                           EvQdrant OpGetCollection].
Proof.
  intros Hpost Hne Hlen Hupsert Hinfo Hinj Hdrawn.
  set (w1 := tick B (traced B (EvEmbed (InputTexts texts)) (tick B (tick B (tick B w))))).
  assert (E : embed_texts B texts (tick B (tick B w)) = (inr vs, w1)).
  { rewrite (embed_texts_posts B texts _ Hne), Hpost. reflexivity. }
  destruct (build_points_ok B texts metadatas vs 0 (tick B (tick B w1)))
    as (points & Hrun & Hn & Hlook); [simpl; lia |].
  change (uuid_next (tick B (tick B w1))) with (uuid_next w) in Hlook.
  assert (Hat : forall i p, points !! i = Some p ->
            exists text v, texts !! i = Some text /\ vs !! i = Some v /\
              p = mkPoint (uuid4 B (uuid_next w + i)) v
                    (default ∅ (metadatas !! i) ∪ {[ "text" := text ]})).
  { intros i p Hp.
    assert (Hi : (i < length vs)%nat) by (rewrite <- Hn; eapply lookup_lt_Some, Hp).
    destruct (lookup_lt_is_Some_2 texts i) as [text Htext]; [lia |].
    destruct (Hlook i text Htext Hi) as (v & Hv & Hp').
    exists text, v. simpl in Hp'. rewrite Hp in Hp'. injection Hp' as ->. auto. }
  assert (Hnd : NoDup (map point_id points)).
  { apply NoDup_alt. intros i j x Hi Hj.
    rewrite list_lookup_fmap in Hi, Hj.
    destruct (points !! i) as [p|] eqn:Ep; [|discriminate].
    destruct (points !! j) as [q|] eqn:Eq; [|discriminate].
    destruct (Hat i p Ep) as (? & ? & _ & _ & ->).
    destruct (Hat j q Eq) as (? & ? & _ & _ & ->).
    simpl in Hi, Hj. injection Hi as <-. injection Hj as Hj.
    apply Hinj in Hj. lia. }
  assert (Hfresh : forall p q, p ∈ points -> q ∈ qdrant_points w ->
            point_id q <> point_id p).
  { intros p q Hp Hq Heq.
    apply list_elem_of_lookup in Hp as [i Hp].
    destruct (Hat i p Hp) as (? & ? & _ & _ & ->).
    destruct (Hdrawn q Hq) as (m & Hm & Hid).
    simpl in Heq. rewrite Hid in Heq. apply Hinj in Heq. lia. }
  exists points. eexists.
  split; [exact (store_chunks_ok B texts metadatas vs points w w1 _ E Hrun Hupsert Hinfo) |].
  split; [exact Hn |]. split; [exact Hlook |].
  split; [cbn; apply upsert_points_fresh; [exact Hnd | exact Hfresh] |].
  repeat split; try reflexivity.
  cbn. rewrite <- !app_assoc. reflexivity.
Qed.

(** X6.  [store_chunks] takes the number of points from the reply of the
    embedding endpoint: when the reply has fewer vectors than there are
    texts, only the first texts, as many as there are vectors, become
    points, and the call still succeeds.  In every case the index keeps
    what it had and gains the new points at its end. *)
Theorem store_chunks_follows_the_reply (B : Backend) (texts : list string)
    (metadatas : list (gmap string string)) (reply : string)
    (vs : list (Vector B)) (w : World B) :
  embedding_post B (InputTexts texts) = inr (200, reply, vs) ->
  texts <> [] ->
  (length vs <= length texts)%nat ->
  qdrant_fault B OpUpsert = None ->
  qdrant_fault B OpGetCollection = None ->
  uuid4_distinct B ->
  ids_drawn B w ->
  exists points w',
    store_chunks B texts metadatas w = (inr tt, w') /\
    qdrant_points w' = qdrant_points w ++ points /\
    length (qdrant_points w') = (length (qdrant_points w) + length vs)%nat /\
    (forall j text, texts !! j = Some text -> (j < length vs)%nat ->
       exists p, points !! j = Some p /\
         vs !! j = Some (point_vector p) /\
         point_payload p = default ∅ (metadatas !! j) ∪ {[ "text" := text ]}) /\
    ids_drawn B w'.
Proof.
  intros Hpost Hne Hlen Hupsert Hinfo Hinj Hdrawn.
  destruct (store_chunks_appends B texts metadatas reply vs w
              Hpost Hne Hlen Hupsert Hinfo Hinj Hdrawn)
    as (points & w' & Hrun & Hn & Hlook & Hpts & _ & _ & Hnext & _).
  exists points, w'. split; [exact Hrun |]. split; [exact Hpts |].
  split; [rewrite Hpts, length_app, Hn; reflexivity |]. split.
  - intros j text Htext Hj.
    destruct (Hlook j text Htext Hj) as (v & Hv & Hp).
    eexists. split; [exact Hp |]. split; [exact Hv | reflexivity].
  - intros p Hp. rewrite Hpts in Hp. rewrite Hnext.
    apply elem_of_app in Hp as [Hp | Hp].
    + destruct (Hdrawn p Hp) as (m & Hm & Hid). exists m. split; [lia | exact Hid].
    + apply list_elem_of_lookup in Hp as [j Hp].
      assert (Hj : (j < length vs)%nat) by (rewrite <- Hn; eapply lookup_lt_Some, Hp).
      destruct (lookup_lt_is_Some_2 texts j) as [text Htext]; [lia |].
      destruct (Hlook j text Htext Hj) as (v & _ & Hp').
      rewrite Hp in Hp'. injection Hp' as ->.
      exists (uuid_next w + j)%nat. split; [lia | reflexivity].
Qed.

Lemma store_chunks_follows_the_reply_witness :
  exists points w',
    store_chunks Demo.backend_surplus ["a"; "b"; "c"] []
      (Demo.empty_world Demo.backend_surplus) = (inr tt, w') /\
    qdrant_points w' = points /\ length points = 2%nat.
Proof.
  destruct (store_chunks_follows_the_reply Demo.backend_surplus ["a"; "b"; "c"] []
              EmptyString [1; 2] (Demo.empty_world Demo.backend_surplus))
    as (points & w' & Hrun & Hpts & Hlen & _).
  - reflexivity.
  - discriminate.
  - simpl. lia.
  - reflexivity.
  - reflexivity.
  - apply demo_uuid4_distinct. reflexivity.
  - intros p Hp. inversion Hp.
  - exists points, w'. split; [exact Hrun |]. split; [exact Hpts |].
    rewrite Hpts in Hlen. exact Hlen.
Defined.

(** X7.  The payload of a point is the chunk's text overlaid with its
    metadata: a metadata entry that has a "text" key of its own replaces
    the chunk text, and retrieval then gives back the metadata's text;
    with no such key (or no metadata entry) the text of the point is the
    chunk. *)
Theorem metadata_text_wins (B : Backend) (texts : list string)
    (metadatas : list (gmap string string)) (reply : string)
    (vs : list (Vector B)) (w : World B) :
  embedding_post B (InputTexts texts) = inr (200, reply, vs) ->
  texts <> [] ->
  length vs = length texts ->
  qdrant_fault B OpUpsert = None ->
  qdrant_fault B OpGetCollection = None ->
  uuid4_distinct B ->
  ids_drawn B w ->
  exists points w',
    store_chunks B texts metadatas w = (inr tt, w') /\
    qdrant_points w' = qdrant_points w ++ points /\
    forall j text, texts !! j = Some text ->
      exists p, points !! j = Some p /\
        (forall extra other, metadatas !! j = Some extra -> extra !! "text" = Some other ->
           hit_text p = other) /\
        (forall extra, metadatas !! j = Some extra -> extra !! "text" = None ->
           hit_text p = text) /\
        (metadatas !! j = None -> hit_text p = text).
Proof.
  intros Hpost Hne Hlen Hupsert Hinfo Hinj Hdrawn.
  destruct (store_chunks_appends B texts metadatas reply vs w
              Hpost Hne (Nat.eq_le_incl _ _ Hlen) Hupsert Hinfo Hinj Hdrawn)
    as (points & w' & Hrun & _ & Hlook & Hpts & _).
  exists points, w'. split; [exact Hrun |]. split; [exact Hpts |].
  intros j text Htext.
  assert (Hj : (j < length vs)%nat) by (rewrite Hlen; eapply lookup_lt_Some, Htext).
  destruct (Hlook j text Htext Hj) as (v & _ & Hp).
  eexists. split; [exact Hp |].
  unfold hit_text. cbn [point_payload].
  split; [| split].
  - intros extra other -> Hother. cbn.
    rewrite (lookup_union_Some_l _ _ _ _ Hother). reflexivity.
  - intros extra -> Hnone. cbn.
    rewrite lookup_union_r by exact Hnone.
    rewrite lookup_singleton_eq. reflexivity.
  - intros ->. cbn. rewrite (left_id_L ∅ (∪)), lookup_singleton_eq. reflexivity.
Qed.

Lemma metadata_text_wins_witness :
  exists w' p,
    store_chunks Demo.backend ["the chunk"] [ {[ "text" := "from metadata" ]} ]
      (Demo.empty_world Demo.backend) = (inr tt, w') /\
    qdrant_points w' !! 0%nat = Some p /\
    hit_text p = "from metadata".
Proof.
  destruct (metadata_text_wins Demo.backend ["the chunk"]
              [ {[ "text" := "from metadata" ]} ] EmptyString [9]
              (Demo.empty_world Demo.backend))
    as (points & w' & Hrun & Hpts & Hat).
  - reflexivity.
  - discriminate.
  - reflexivity.
  - reflexivity.
  - reflexivity.
  - apply demo_uuid4_distinct. reflexivity.
  - intros p Hp. inversion Hp.
  - destruct (Hat 0%nat "the chunk" eq_refl) as (p & Hp & Hwins & _).
    exists w', p. split; [exact Hrun |]. split; [rewrite Hpts; exact Hp |].
    exact (Hwins {[ "text" := "from metadata" ]} "from metadata" eq_refl eq_refl).
Defined.

(** ** Ingestion, continued *)

Lemma ids_drawn_storing (B : Backend) (user_id : string) (file : UploadFile)
    (text : string) (w : World B) :
  ids_drawn B w -> ids_drawn B (storing_world B user_id file text w).
Proof. intros H p Hp. exact (H p Hp). Qed.

Lemma get_metadata_no_text (text source user_id : string) :
  get_metadata text source user_id !! "text" = None.
Proof.
  unfold get_metadata.
  rewrite lookup_insert_ne by discriminate.
  apply lookup_singleton_ne. discriminate.
Qed.

(** X8.  A document whose text yields chunks, with every service
    answering, is ingested in full: [train] returns the success object
    (status "success", total_chunks and chunks_stored the number of
    chunks), the raw text is added to the document store under the name
    user_id + "_" + file name, and the index gains one point per chunk, in
    chunk order, whose payload is the chunk's text with the source and the
    user_id of the upload, so that retrieval gives the chunk back as it
    is. *)
Theorem train_ingests_every_chunk (B : Backend) (user_id : string)
    (file : UploadFile) (text reply : string) (vs : list (Vector B))
    (w : World B) :
  extract_text_from_file B (content file) (filename file) = inr text ->
  chunk_text B text <> [] ->
  (forall d, mongo_fault B (OpInsertDoc d) = None) ->
  embedding_post B (InputTexts (chunk_text B text)) = inr (200, reply, vs) ->
  length vs = length (chunk_text B text) ->
  qdrant_fault B OpUpsert = None ->
  qdrant_fault B OpGetCollection = None ->
  uuid4_distinct B ->
  ids_drawn B w ->
  let source := user_id +:+ "_" +:+ filename file in
  exists result points w',
    train B user_id file w = (inr result, w') /\
    json_get "status" result = Some (JStr "success") /\
    (json_get "processing_summary" result ≫= json_get "total_chunks")
    = Some (JInt (Z.of_nat (length (chunk_text B text)))) /\
    (json_get "storage_info" result ≫= json_get "chunks_stored")
    = Some (JInt (Z.of_nat (length (chunk_text B text)))) /\
    docs_collection w'
    = docs_collection w ++ [saved_doc B user_id file text w] /\
    doc_filename (saved_doc B user_id file text w) = source /\
    doc_file_content (saved_doc B user_id file text w) = text /\
    chat_collection w' = chat_collection w /\
    qdrant_points w' = qdrant_points w ++ points /\
    length points = length (chunk_text B text) /\
    forall j chunk, chunk_text B text !! j = Some chunk ->
      exists p, points !! j = Some p /\
        point_payload p
        = {[ "source" := source; "user_id" := user_id ]} ∪ {[ "text" := chunk ]} /\
        hit_text p = chunk.
Proof.
  intros Hextract Hchunks Hmongo Hpost Hlen Hupsert Hinfo Hinj Hdrawn source.
  set (chunks := chunk_text B text) in *.
  set (metadatas := get_metadata_list chunks source user_id).
  destruct (store_chunks_appends B chunks metadatas reply vs
              (storing_world B user_id file text w)
              Hpost Hchunks (Nat.eq_le_incl _ _ Hlen) Hupsert Hinfo Hinj
              (ids_drawn_storing B user_id file text w Hdrawn))
    as (points & w2 & Hrun & Hn & Hlook & Hpts & Hdocs & Hchats & _).
  destruct (train_reaches_store B user_id file text w Hextract Hchunks (Hmongo _))
    as [_ Hsuccess].
  destruct (Hsuccess w2 Hrun) as (result & Htrain & _ & Hstatus & Htotal & Hstored).
  exists result, points. eexists.
  split; [exact Htrain |]. split; [exact Hstatus |].
  split; [exact Htotal |]. split; [exact Hstored |].
  cbn [tick docs_collection chat_collection qdrant_points].
  split; [rewrite Hdocs; reflexivity |].
  split; [reflexivity |]. split; [reflexivity |].
  split; [rewrite Hchats; reflexivity |].
  split; [rewrite Hpts; reflexivity |].
  split; [rewrite Hn; exact Hlen |].
  intros j chunk Hj.
  assert (Hjv : (j < length vs)%nat) by (rewrite Hlen; eapply lookup_lt_Some, Hj).
  destruct (Hlook j chunk Hj Hjv) as (v & _ & Hp).
  assert (Hmeta : metadatas !! j = Some (get_metadata chunk source user_id)).
  { unfold metadatas, get_metadata_list. rewrite list_lookup_fmap, Hj. reflexivity. }
  rewrite Hmeta in Hp. eexists. split; [exact Hp |]. split; [reflexivity |].
  unfold hit_text. cbn.
  rewrite lookup_union_r by apply get_metadata_no_text.
  rewrite lookup_singleton_eq. reflexivity.
Qed.

Lemma train_ingests_every_chunk_witness :
  exists result w' p,
    train Demo.backend "u1" Demo.faq_file (Demo.empty_world Demo.backend)
    = (inr result, w') /\
    json_get "status" result = Some (JStr "success") /\
    qdrant_points w' !! 0%nat = Some p /\
    hit_text p = "Customer support is available 24/7.".
Proof.
  destruct (train_ingests_every_chunk Demo.backend "u1" Demo.faq_file
              "Customer support is available 24/7." EmptyString [35]
              (Demo.empty_world Demo.backend))
    as (result & points & w' & Hrun & Hstatus & _ & _ & _ & _ & _ & _ & Hpts & Hn & Hat).
  - reflexivity.
  - discriminate.
  - reflexivity.
  - reflexivity.
  - reflexivity.
  - reflexivity.
  - reflexivity.
  - apply demo_uuid4_distinct. reflexivity.
  - intros p Hp. inversion Hp.
  - destruct (Hat 0%nat "Customer support is available 24/7." eq_refl)
      as (p & Hp & _ & Htext).
    exists result, w', p. split; [exact Hrun |]. split; [exact Hstatus |].
    split; [rewrite Hpts; exact Hp | exact Htext].
Defined.

Lemma store_chunks_embedding_fails (B : Backend) (texts : list string)
    (metadatas : list (gmap string string)) (e : PyExc) (w w1 : World B) :
  embed_texts B texts (tick B (tick B w)) = (inl e, w1) ->
  store_chunks B texts metadatas w = (inl e, tick B w1) /\ quiet B w (tick B w1).
Proof.
  intros E. split.
  - unfold store_chunks. run_step. rewrite reraise_timed_run. run_step.
    rewrite bind_run, E. reflexivity.
  - pose proof (Quiet_embed_texts B texts (tick B (tick B w))) as Q.
    rewrite E in Q. cbn [snd] in Q.
    apply quiet_tick_after. eapply quiet_trans; [| exact Q].
    do 2 apply quiet_tick_after. apply quiet_refl.
Qed.

(** X9.  Ingestion has no rollback.  When the embedding endpoint refuses
    the chunks (any status other than 200), [train] returns the failure
    object with the message "Embedding failed: " followed by the response
    text; the index is untouched and no identifier was drawn, but the raw
    document saved earlier stays in the document store. *)
Theorem train_keeps_document_when_embedding_fails (B : Backend) (user_id : string)
    (file : UploadFile) (text response_text : string) (status_code : Z)
    (vs : list (Vector B)) (w : World B) :
  extract_text_from_file B (content file) (filename file) = inr text ->
  chunk_text B text <> [] ->
  (forall d, mongo_fault B (OpInsertDoc d) = None) ->
  embedding_post B (InputTexts (chunk_text B text))
    = inr (status_code, response_text, vs) ->
  status_code <> 200 ->
  exists w',
    train B user_id file w
    = (inr (failed ("Embedding failed: " +:+ response_text) user_id (filename file)), w') /\
    docs_collection w' = docs_collection w ++ [saved_doc B user_id file text w] /\
    qdrant_points w' = qdrant_points w /\
    uuid_next w' = uuid_next w /\
    chat_collection w' = chat_collection w.
Proof.
  intros Hextract Hchunks Hmongo Hpost Hstatus.
  set (ws := storing_world B user_id file text w).
  pose proof (embed_texts_posts B (chunk_text B text) (tick B (tick B ws)) Hchunks) as E.
  rewrite Hpost in E. apply Z.eqb_neq in Hstatus. rewrite Hstatus in E.
  destruct (store_chunks_embedding_fails B (chunk_text B text)
              (get_metadata_list (chunk_text B text)
                 (user_id +:+ "_" +:+ filename file) user_id) _ ws _ E)
    as [Hstore Q].
  destruct (train_reaches_store B user_id file text w Hextract Hchunks (Hmongo _))
    as [Hfail _].
  eexists. split; [exact (Hfail _ _ Hstore) |].
  cbn [tick docs_collection qdrant_points uuid_next chat_collection].
  destruct Q as [Hd Hc Hp Hu _].
  cbn [tick docs_collection qdrant_points uuid_next chat_collection] in Hd, Hc, Hp, Hu.
  repeat split; assumption.
Qed.

Lemma train_keeps_document_when_embedding_fails_witness :
  exists w',
    train Demo.backend_strict "u1" Demo.faq_file (Demo.empty_world Demo.backend_strict)
    = (inr (failed "Embedding failed: upstream unavailable" "u1" "FAQ.Txt"), w') /\
    length (docs_collection w') = 1%nat /\ qdrant_points w' = [].
Proof.
  destruct (train_keeps_document_when_embedding_fails Demo.backend_strict "u1"
              Demo.faq_file "Customer support is available 24/7."
              "upstream unavailable" 503 []
              (Demo.empty_world Demo.backend_strict))
    as (w' & Hrun & Hdocs & Hpts & _).
  - reflexivity.
  - discriminate.
  - reflexivity.
  - reflexivity.
  - discriminate.
  - exists w'. split; [exact Hrun |]. rewrite Hdocs. split; [reflexivity | exact Hpts].
Defined.

(** X10.  With the right secret and the clients opened, [/train] always
    answers 200 with the object [train] returned, whatever went wrong
    inside the pipeline: ingestion failures are data in the body, never a
    transport error.  Only a failure to open the clients gives a 500, with
    detail "Training failed: " and the error's message. *)
Theorem train_endpoint_failures_are_data (B : Backend) (user_id : string)
    (file : UploadFile) (w : World B) :
  (qdrant_fault B OpOpen = None ->
   exists result w',
     train_endpoint B (Some (CLIENT_SECRET_KEY B)) user_id file w
     = (Success result, w') /\
     fst (train B user_id file (started B w)) = inr result) /\
  (forall e, qdrant_fault B OpOpen = Some e ->
     fst (train_endpoint B (Some (CLIENT_SECRET_KEY B)) user_id file w)
     = HTTPException 500 ("Training failed: " +:+ exc_str e)).
Proof.
  unfold train_endpoint, Depends_verify_client_secret, verify_client_secret.
  rewrite String.eqb_refl. cbn [negb].
  rewrite endpoint_run. unfold new_router, qdrant_call.
  rewrite !bind_run, emit_run. fold (started B w).
  split.
  - intros Hopen. rewrite Hopen. cbv beta iota. rewrite ret_run.
    destruct (train_returns B user_id file (started B w)) as (result & w' & Hrun).
    rewrite Hrun. eauto.
  - intros e Hopen. rewrite Hopen. reflexivity.
Qed.

Lemma train_endpoint_failures_are_data_witness :
  exists w',
    train_endpoint Demo.backend_strict (Some "s3cret") "u1" Demo.binary_file
      (Demo.empty_world Demo.backend_strict)
    = (Success (failed "Unsupported file type or encoding: blob.bin" "u1" "blob.bin"), w').
Proof.
  destruct (train_endpoint_failures_are_data Demo.backend_strict "u1" Demo.binary_file
              (Demo.empty_world Demo.backend_strict)) as [Hok _].
  destruct (Hok eq_refl) as (result & w' & Hrun & Hres).
  vm_compute in Hres. injection Hres as <-.
  exists w'. exact Hrun.
Defined.

(** ** Retrieval *)

Lemma qdrant_call_run (B : Backend) (op : QdrantOp) (w : World B) :
  qdrant_call B op w
  = (match qdrant_fault B op with Some e => inl e | None => inr tt end,
     traced B (EvQdrant op) w).
Proof.
  unfold qdrant_call. run_step. destruct (qdrant_fault B op); reflexivity.
Qed.

Lemma embed_text_run (B : Backend) (text : string) (w : World B) :
  embed_text B text w
  = match embedding_post B (InputText text) with
    | inl e => (inl e, tick B (traced B (EvEmbed (InputText text)) (tick B w)))
    | inr (status_code, response_text, data) =>
        if status_code =? 200 then
          match data with
          | v :: _ => (inr v, tick B (traced B (EvEmbed (InputText text)) (tick B w)))
          | [] => (inl (mkExc IndexError "list index out of range"),
                   tick B (tick B (traced B (EvEmbed (InputText text)) (tick B w))))
          end
        else (inl (mkExc RuntimeError ("Embedding failed: " +:+ response_text)),
              tick B (tick B (traced B (EvEmbed (InputText text)) (tick B w))))
    end.
Proof.
  unfold embed_text. run_step. rewrite reraise_timed_run. run_step.
  rewrite bind_run, lift_exc_run.
  destruct (embedding_post B (InputText text)) as [e | [[status body] data]];
    [reflexivity |].
  cbv beta iota. run_step.
  destruct (status =? 200); [destruct data |]; reflexivity.
Qed.

Lemma qdrant_search_run (B : Backend) (v : Vector B) (k : nat) (w : World B) :
  qdrant_search B v k w
  = (match qdrant_fault B OpSearch with
     | Some e => inl e
     | None => inr (nearest (qdrant_points w) v k)
     end, traced B (EvQdrant OpSearch) w).
Proof.
  unfold qdrant_search. rewrite bind_run, qdrant_call_run.
  destruct (qdrant_fault B OpSearch); [reflexivity |]. cbv beta iota.
  rewrite bind_run, get_world_run. reflexivity.
Qed.

(** The outcome of a retrieval, read off the replies and the stored
    points. *)
Lemma retrieve_result (B : Backend) (query : string) (k : nat) (w : World B) :
  fst (retrieve_similar_chunks B query k w)
  = match embedding_post B (InputText query) with
    | inl e => inl e
    | inr (status_code, response_text, data) =>
        if status_code =? 200 then
          match data with
          | [] => inl (mkExc IndexError "list index out of range")
          | v :: _ =>
              match qdrant_fault B OpSearch with
              | Some e => inl e
              | None =>
                  match qdrant_fault B OpGetCollection with
                  | Some e => inl e
                  | None =>
                      match qdrant_fault B OpScroll with
                      | Some e => inl e
                      | None => inr (map hit_text (nearest (qdrant_points w) v k))
                      end
                  end
              end
          end
        else inl (mkExc RuntimeError ("Embedding failed: " +:+ response_text))
    end.
Proof.
  unfold retrieve_similar_chunks.
  run_step. rewrite reraise_timed_run. run_step.
  rewrite bind_run, embed_text_run.
  destruct (embedding_post B (InputText query)) as [e | [[status body] data]];
    [reflexivity |].
  destruct (status =? 200); [| reflexivity].
  destruct data as [|v data]; [reflexivity |].
  cbv beta iota. do 2 run_step.
  rewrite bind_run, qdrant_search_run.
  destruct (qdrant_fault B OpSearch); [reflexivity |]. cbv beta iota.
  rewrite bind_run, qdrant_call_run.
  destruct (qdrant_fault B OpGetCollection); [reflexivity |]. cbv beta iota.
  rewrite bind_run, qdrant_call_run.
  destruct (qdrant_fault B OpScroll); reflexivity.
Qed.

(** X11.  The two read paths are repeatable.  Whether they return or
    raise, [retrieve_similar_chunks] and [get_chat_history] change no
    store and draw no identifier, and calling either again right after
    gives the same outcome. *)
Theorem read_paths_are_repeatable (B : Backend) (query session_id : string)
    (k : nat) (w : World B) :
  let first := retrieve_similar_chunks B query k w in
  let hist := get_chat_history B session_id w in
  quiet B w (snd first) /\
  fst (retrieve_similar_chunks B query k (snd first)) = fst first /\
  quiet B w (snd hist) /\
  fst (get_chat_history B session_id (snd hist)) = fst hist /\
  fst (get_chat_history B session_id (snd first)) = fst hist /\
  fst (retrieve_similar_chunks B query k (snd hist)) = fst first.
Proof.
  intros first hist.
  pose proof (Quiet_retrieve B query k w) as Q1.
  pose proof (Quiet_get_chat_history B session_id w) as Q2.
  fold first in Q1. fold hist in Q2.
  split; [exact Q1 |]. split.
  { subst first. rewrite !retrieve_result, (quiet_points _ _ _ Q1). reflexivity. }
  split; [exact Q2 |]. split.
  { subst hist. rewrite !get_chat_history_run. cbn [fst].
    rewrite <- get_chat_history_run. rewrite (quiet_chats _ _ _ Q2). reflexivity. }
  split.
  { subst hist. rewrite !get_chat_history_run. cbn [fst].
    rewrite (quiet_chats _ _ _ Q1). reflexivity. }
  subst first. rewrite !retrieve_result, (quiet_points _ _ _ Q2). reflexivity.
Qed.

(** X12.  When the embedding endpoint refuses the query (a status other
    than 200), retrieval raises [RuntimeError] with the message
    "Embedding failed: " followed by the response text, and stops there:
    the only call it has issued is the embedding request, the index was
    not searched. *)
Theorem retrieval_stops_at_failed_embedding (B : Backend) (query response_text : string)
    (status_code : Z) (data : list (Vector B)) (k : nat) (w : World B) :
  embedding_post B (InputText query) = inr (status_code, response_text, data) ->
  status_code <> 200 ->
  exists w',
    retrieve_similar_chunks B query k w
    = (inl (mkExc RuntimeError ("Embedding failed: " +:+ response_text)), w') /\
    trace w' = trace w ++ [EvEmbed (InputText query)] /\
    qdrant_points w' = qdrant_points w.
Proof.
  intros Hpost Hstatus. apply Z.eqb_neq in Hstatus.
  unfold retrieve_similar_chunks.
  run_step. rewrite reraise_timed_run. run_step.
  rewrite bind_run, embed_text_run, Hpost, Hstatus.
  eexists. split; [reflexivity |]. split; reflexivity.
Qed.

Lemma retrieval_stops_at_failed_embedding_witness :
  exists w',
    retrieve_similar_chunks Demo.backend_strict "anything" 5
      (Demo.empty_world Demo.backend_strict)
    = (inl (mkExc RuntimeError "Embedding failed: upstream unavailable"), w') /\
    trace w' = [EvEmbed (InputText "anything")].
Proof.
  destruct (retrieval_stops_at_failed_embedding Demo.backend_strict "anything"
              "upstream unavailable" 503 [] 5
              (Demo.empty_world Demo.backend_strict) eq_refl)
    as (w' & Hrun & Htrace & _).
  - discriminate.
  - exists w'. split; [exact Hrun | exact Htrace].
Defined.

(** X13.  Round trip through the index.  After [store_chunks] has stored
    texts without metadata, a retrieval that asks for at least as many
    hits as there are points returns every stored text: what it returns is
    the texts the index held before together with the new ones, in the
    order of similarity. *)
Theorem stored_chunks_are_retrievable (B : Backend) (texts : list string)
    (reply query qreply : string) (vs qvs : list (Vector B)) (qv : Vector B)
    (k : nat) (w : World B) :
  embedding_post B (InputTexts texts) = inr (200, reply, vs) ->
  texts <> [] ->
  length vs = length texts ->
  embedding_post B (InputText query) = inr (200, qreply, qv :: qvs) ->
  (forall op, qdrant_fault B op = None) ->
  uuid4_distinct B ->
  ids_drawn B w ->
  (length (qdrant_points w) + length texts <= k)%nat ->
  exists w1 found w2,
    store_chunks B texts [] w = (inr tt, w1) /\
    retrieve_similar_chunks B query k w1 = (inr found, w2) /\
    found ≡ₚ map hit_text (qdrant_points w) ++ texts /\
    forall text, text ∈ texts -> text ∈ found.
Proof.
  intros Hpost Hne Hlen Hq Hup Hinj Hdrawn Hk.
  destruct (store_chunks_appends B texts [] reply vs w Hpost Hne
              (Nat.eq_le_incl _ _ Hlen) (Hup _) (Hup _) Hinj Hdrawn)
    as (points & w1 & Hrun & Hn & Hlook & Hpts & _).
  assert (Htexts : map hit_text points = texts).
  { apply list_eq. intros j. rewrite list_lookup_fmap.
    destruct (texts !! j) as [text |] eqn:Ht.
    - assert (Hj : (j < length vs)%nat) by (rewrite Hlen; eapply lookup_lt_Some, Ht).
      destruct (Hlook j text Ht Hj) as (v & _ & Hp). rewrite Hp.
      rewrite lookup_nil. unfold hit_text. cbn.
      rewrite (left_id_L ∅ (∪)), lookup_singleton_eq. reflexivity.
    - apply lookup_ge_None in Ht.
      rewrite (lookup_ge_None_2 points) by lia. reflexivity. }
  destruct (retrieve_ok B query qreply qv qvs k w1 Hq (Hup _) (Hup _) (Hup _))
    as (w2 & Hret & _).
  assert (Hfound : map hit_text (nearest (qdrant_points w1) qv k)
                   ≡ₚ map hit_text (qdrant_points w) ++ texts).
  { unfold nearest. rewrite firstn_all2.
    - rewrite sort_desc_perm, Hpts, map_app, Htexts. reflexivity.
    - rewrite (Permutation_length (sort_desc_perm _ _)), Hpts, length_app, Hn, Hlen.
      exact Hk. }
  exists w1, (map hit_text (nearest (qdrant_points w1) qv k)), w2.
  split; [exact Hrun |]. split; [exact Hret |].
  split; [exact Hfound |].
  intros text Htext. rewrite Hfound. apply elem_of_app. right. exact Htext.
Qed.

Lemma stored_chunks_are_retrievable_witness :
  exists w1 found w2,
    store_chunks Demo.backend Demo.two_chunks [] (Demo.empty_world Demo.backend)
    = (inr tt, w1) /\
    retrieve_similar_chunks Demo.backend "What is the refund window?" 5 w1
    = (inr found, w2) /\
    "Refunds take 30 days." ∈ found.
Proof.
  destruct (stored_chunks_are_retrievable Demo.backend Demo.two_chunks EmptyString
              "What is the refund window?" EmptyString [21; 21] [] 26 5
              (Demo.empty_world Demo.backend))
    as (w1 & found & w2 & Hrun & Hret & _ & Hin).
  - reflexivity.
  - discriminate.
  - reflexivity.
  - reflexivity.
  - reflexivity.
  - apply demo_uuid4_distinct. reflexivity.
  - intros p Hp. inversion Hp.
  - simpl. lia.
  - exists w1, found, w2. split; [exact Hrun |]. split; [exact Hret |].
    apply Hin. left.
Defined.

(** ** Chat turns *)

Lemma insert_desc_below {A} (key : A -> Z) (x top : A) (l : list A) :
  key x < key top -> insert_desc key x (top :: l) = top :: insert_desc key x l.
Proof.
  intros Hlt. cbn [insert_desc].
  destruct (key top <=? key x) eqn:E; [apply Z.leb_le in E; lia | reflexivity].
Qed.

Lemma sort_desc_snoc_latest {A} (key : A -> Z) (l : list A) (latest : A) :
  (forall x, x ∈ l -> key x < key latest) ->
  sort_desc key (l ++ [latest]) = latest :: sort_desc key l.
Proof.
  induction l as [|x l IH]; intros Hlt; [reflexivity |].
  unfold sort_desc in *. cbn [app foldr].
  rewrite IH by (intros y Hy; apply Hlt; right; exact Hy).
  apply insert_desc_below. apply Hlt. left.
Qed.

(** X14.  Round trip through the chat collection.  After
    [save_chat_session] has stored a turn whose timestamp is later than
    those of the session's earlier turns, [get_chat_history] for the
    session ends with the two lines of that turn, preceded by the lines of
    the two most recent earlier turns. *)
Theorem saved_turn_ends_the_history (B : Backend) (user_id session_id query response : string)
    (w : World B) :
  (forall c, mongo_fault B (OpInsertChat c) = None) ->
  mongo_fault B (OpFind session_id) = None ->
  (forall c, c ∈ chat_collection w -> chat_session_id c = session_id ->
     chat_timestamp c < clock B (S (ticks w))) ->
  exists w1 w2,
    save_chat_session B user_id session_id query response w = (inr user_id, w1) /\
    get_chat_history B session_id w1
    = (inr (format_history
              (rev (firstn 2 (sort_desc chat_timestamp
                 (filter (fun c => chat_session_id c = session_id) (chat_collection w)))))
            ++ ["QUERY: " +:+ query; "RESPONSE: " +:+ response]), w2).
Proof.
  intros Hinsert Hfind Hlater.
  rewrite save_chat_session_run. cbv zeta. rewrite Hinsert.
  eexists. eexists. split; [reflexivity |].
  rewrite get_chat_history_run, Hfind. f_equal. f_equal.
  cbn [tick wrote_chat traced chat_collection].
  unfold last_chats. rewrite filter_app, filter_cons_True by reflexivity.
  rewrite filter_nil, sort_desc_snoc_latest.
  - cbn [firstn rev]. unfold format_history.
    rewrite map_app, concat_app. reflexivity.
  - intros c Hc. apply list_elem_of_filter in Hc as [Hsid Hc].
    cbn [chat_timestamp]. apply Hlater; assumption.
Qed.

Lemma saved_turn_ends_the_history_witness :
  exists w1 w2,
    save_chat_session Demo.backend "u1" "s1" "q6" "r6"
      (Demo.history_world Demo.backend) = (inr "u1", w1) /\
    get_chat_history Demo.backend "s1" w1
    = (inr ["QUERY: q4"; "RESPONSE: r4"; "QUERY: q5"; "RESPONSE: r5";
            "QUERY: q6"; "RESPONSE: r6"], w2).
Proof.
  destruct (saved_turn_ends_the_history Demo.backend "u1" "s1" "q6" "r6"
              (Demo.history_world Demo.backend))
    as (w1 & w2 & Hsave & Hhist).
  - reflexivity.
  - reflexivity.
  - intros c Hc _. cbn.
    repeat (apply elem_of_cons in Hc as [-> | Hc]; [cbn; lia |]).
    inversion Hc.
  - exists w1, w2. split; [exact Hsave | exact Hhist].
Defined.

(** X15.  Sessions do not leak into one another: saving a turn for one
    session, whether the insertion succeeds or fails, leaves the history of
    every other session as it was. *)
Theorem other_sessions_keep_their_history (B : Backend)
    (user_id other session_id query response : string) (w : World B) :
  other <> session_id ->
  fst (get_chat_history B session_id
         (snd (save_chat_session B user_id other query response w)))
  = fst (get_chat_history B session_id w).
Proof.
  intros Hne. rewrite save_chat_session_run. cbv zeta.
  rewrite !get_chat_history_run. cbn [fst].
  match goal with
  | |- context [mongo_fault B (OpInsertChat ?d)] =>
      destruct (mongo_fault B (OpInsertChat d))
  end; cbn [snd tick wrote_chat traced chat_collection]; [reflexivity |].
  unfold last_chats. rewrite filter_app, filter_cons_False by exact Hne.
  rewrite filter_nil, app_nil_r. reflexivity.
Qed.

Lemma other_sessions_keep_their_history_witness :
  fst (get_chat_history Demo.backend "s2"
         (snd (save_chat_session Demo.backend "u1" "s1" "q6" "r6"
                 (Demo.history_world Demo.backend))))
  = inr ["QUERY: hello"; "RESPONSE: hi"].
Proof.
  rewrite (other_sessions_keep_their_history Demo.backend "u1" "s1" "s2" "q6" "r6"
             (Demo.history_world Demo.backend)).
  - reflexivity.
  - discriminate.
Defined.

Lemma last_chats_length (collection : list ChatDoc) (session_id : string) :
  (length (last_chats collection session_id) <= 3)%nat.
Proof. unfold last_chats. rewrite length_firstn. lia. Qed.

Lemma retrieve_inr_length (B : Backend) (query : string) (k : nat)
    (w w' : World B) (chunks : list string) :
  retrieve_similar_chunks B query k w = (inr chunks, w') ->
  (length chunks <= k)%nat /\ (length chunks <= length (qdrant_points w))%nat.
Proof.
  intros Hrun. pose proof (retrieve_result B query k w) as H.
  rewrite Hrun in H. cbn [fst] in H.
  assert (Hshape : exists v, chunks = map hit_text (nearest (qdrant_points w) v k)).
  { destruct (embedding_post B (InputText query)) as [e | [[status body] data]];
      [discriminate |].
    destruct (status =? 200); [| discriminate].
    destruct data as [|v data]; [discriminate |].
    destruct (qdrant_fault B OpSearch); [discriminate |].
    destruct (qdrant_fault B OpGetCollection); [discriminate |].
    destruct (qdrant_fault B OpScroll); [discriminate |].
    injection H as ->. exists v. reflexivity. }
  destruct Hshape as [v ->]. unfold nearest.
  rewrite length_map, length_firstn.
  rewrite (Permutation_length (sort_desc_perm _ (qdrant_points w))). lia.
Qed.

(** X16.  The two counts of a successful answer are bounded: at most 5
    chunks are retrieved (and no more than the index holds), and the chat
    history has an even number of lines, at most 6. *)
Theorem answer_counts_are_bounded (B : Backend) (query session_id user_id : string)
    (w w' : World B) (result : Json) :
  predict_flow B query session_id user_id w = (inr result, w') ->
  exists chunks lines : nat,
    json_get "chunks_retrieved" result = Some (JInt (Z.of_nat chunks)) /\
    (chunks <= 5)%nat /\ (chunks <= length (qdrant_points w))%nat /\
    json_get "chat_history_length" result = Some (JInt (Z.of_nat lines)) /\
    (lines <= 6)%nat /\ Nat.even lines = true.
Proof.
  intros Hrun.
  pose proof (predict_flow_outcome B query session_id user_id w) as H.
  rewrite Hrun in H.
  inversion H as [| |w0 chunks hist prompt resp ts t1 t2 t3 t4 t5 t6 doc G Hins Hd Hc Hp Hs];
    subst.
  destruct G as (w2 & w4 & body & Hret & Hhist & _).
  exists (length chunks), (length hist).
  destruct (retrieve_inr_length B _ _ _ _ _ Hret) as [Hk Hn].
  split; [reflexivity |]. split; [exact Hk |]. split; [exact Hn |].
  split; [reflexivity |].
  rewrite get_chat_history_run in Hhist.
  destruct (mongo_fault B (OpFind session_id)); [discriminate |].
  injection Hhist as <- _.
  rewrite format_history_length, length_rev.
  match goal with
  | |- context [length (last_chats ?c ?s)] => pose proof (last_chats_length c s) as Hl
  end.
  split; [lia |]. rewrite Nat.even_mul. reflexivity.
Qed.

Lemma answer_counts_are_bounded_witness :
  exists result w' chunks lines,
    predict_flow Demo.backend "When is support available?" "s1" "u1"
      (Demo.history_world Demo.backend) = (inr result, w') /\
    json_get "chunks_retrieved" result = Some (JInt (Z.of_nat chunks)) /\
    json_get "chat_history_length" result = Some (JInt (Z.of_nat lines)) /\
    (lines <= 6)%nat.
Proof.
  destruct (predict_flow Demo.backend "When is support available?" "s1" "u1"
              (Demo.history_world Demo.backend)) as [[e | result] w'] eqn:Hrun;
    [vm_compute in Hrun; discriminate Hrun |].
  destruct (answer_counts_are_bounded Demo.backend _ _ _ _ _ _ Hrun)
    as (chunks & lines & Hc & _ & _ & Hl & Hle & _).
  exists result, w', chunks, lines. auto.
Defined.

Lemma filter_session_removed (session_id : string) (l : list ChatDoc) :
  filter (fun c => chat_session_id c = session_id)
         (filter (fun c => chat_session_id c <> session_id) l) = [].
Proof.
  rewrite list_filter_filter.
  induction l as [|c l IH]; [reflexivity |].
  rewrite filter_cons_False; [exact IH |]. intros [Heq Hne]. exact (Hne Heq).
Qed.

Lemma filter_session_kept (session_id other : string) (l : list ChatDoc) :
  other <> session_id ->
  filter (fun c => chat_session_id c = other)
         (filter (fun c => chat_session_id c <> session_id) l)
  = filter (fun c => chat_session_id c = other) l.
Proof.
  intros Hne. rewrite list_filter_filter.
  apply list_filter_iff. intros c. split; [intros [H _]; exact H |].
  intros H. split; [exact H | congruence].
Qed.

(** X17.  [delete_chat_session] removes the turns of one session and
    nothing else: afterwards the history of that session is empty and the
    history of every other session is what it was; documents and index are
    untouched.  When the driver call fails, the exception passes through
    and the world is as before. *)
Theorem deleted_session_has_no_history (B : Backend) (session_id other : string)
    (w : World B) :
  let w1 := snd (delete_chat_session B None session_id w) in
  fst (delete_chat_session B None session_id w) = inr tt /\
  (mongo_fault B (OpFind session_id) = None ->
   fst (get_chat_history B session_id w1) = inr []) /\
  (other <> session_id ->
   fst (get_chat_history B other w1) = fst (get_chat_history B other w)) /\
  docs_collection w1 = docs_collection w /\
  qdrant_points w1 = qdrant_points w /\
  (forall e, delete_chat_session B (Some e) session_id w = (inl e, w)).
Proof.
  intros w1. subst w1. cbn [delete_chat_session fst snd].
  split; [reflexivity |]. split; [| split].
  - intros Hfind. rewrite get_chat_history_run, Hfind. cbn [fst chat_collection].
    unfold last_chats. rewrite filter_session_removed. reflexivity.
  - intros Hne. rewrite !get_chat_history_run. cbn [fst chat_collection].
    unfold last_chats. rewrite (filter_session_kept _ _ _ Hne). reflexivity.
  - repeat split; reflexivity.
Qed.

Lemma deleted_session_has_no_history_witness :
  fst (get_chat_history Demo.backend "s1"
         (snd (delete_chat_session Demo.backend None "s1"
                 (Demo.history_world Demo.backend)))) = inr [] /\
  fst (get_chat_history Demo.backend "s2"
         (snd (delete_chat_session Demo.backend None "s1"
                 (Demo.history_world Demo.backend))))
  = inr ["QUERY: hello"; "RESPONSE: hi"].
Proof.
  destruct (deleted_session_has_no_history Demo.backend "s1" "s2"
              (Demo.history_world Demo.backend))
    as (_ & Hgone & Hkept & _).
  split; [exact (Hgone eq_refl) |].
  rewrite Hkept; [reflexivity | discriminate].
Defined.

Lemma get_documents_run (B : Backend) (fault : option PyExc) (user_id : string)
    (w : World B) :
  get_documents_for_user B fault user_id w
  = match fault with
    | Some e => (inl e, tick B (tick B w))
    | None =>
        (inr (filter (fun d => doc_user_id d = user_id) (docs_collection w)),
         tick B (tick B w))
    end.
Proof.
  unfold get_documents_for_user. run_step. rewrite reraise_timed_run.
  rewrite bind_run, lift_exc_run. destruct fault; reflexivity.
Qed.

(** X18.  Round trip through the document collection.  After
    [save_uploaded_document] has stored a document for a user,
    [get_documents_for_user] lists it last among that user's documents,
    with the name and content given; every listed document belongs to the
    user asked for, and the list of any other user is what it was. *)
Theorem saved_document_is_listed (B : Backend)
    (user_id other filename file_content : string) (w : World B) :
  (forall d, mongo_fault B (OpInsertDoc d) = None) ->
  exists w1 w2 doc,
    save_uploaded_document B user_id filename file_content w = (inr tt, w1) /\
    get_documents_for_user B None user_id w1
    = (inr (filter (fun d => doc_user_id d = user_id) (docs_collection w) ++ [doc]), w2) /\
    doc_user_id doc = user_id /\
    doc_filename doc = filename /\
    doc_file_content doc = file_content /\
    Forall (fun d => doc_user_id d = user_id)
           (filter (fun d => doc_user_id d = user_id) (docs_collection w) ++ [doc]) /\
    (other <> user_id ->
     fst (get_documents_for_user B None other w1)
     = fst (get_documents_for_user B None other w)).
Proof.
  intros Hinsert.
  rewrite save_uploaded_document_run. cbv zeta. rewrite Hinsert.
  eexists. eexists. eexists. split; [reflexivity |].
  rewrite !get_documents_run.
  cbn [tick wrote_doc traced docs_collection fst].
  split.
  { rewrite filter_app, filter_cons_True by reflexivity.
    rewrite filter_nil. reflexivity. }
  split; [reflexivity |]. split; [reflexivity |]. split; [reflexivity |].
  split.
  - apply Forall_app. split.
    + apply Forall_forall. intros d Hd.
      apply list_elem_of_filter in Hd as [Hd _]. exact Hd.
    + repeat constructor.
  - intros Hne. rewrite filter_app.
    rewrite (filter_cons_False (fun d => doc_user_id d = other)) by (cbn; congruence).
    rewrite filter_nil, app_nil_r. reflexivity.
Qed.

Lemma saved_document_is_listed_witness :
  exists w1 w2 doc,
    save_uploaded_document Demo.backend "u1" "u1_faq.txt" "Refunds take 30 days."
      (Demo.empty_world Demo.backend) = (inr tt, w1) /\
    get_documents_for_user Demo.backend None "u1" w1 = (inr [doc], w2) /\
    doc_file_content doc = "Refunds take 30 days.".
Proof.
  destruct (saved_document_is_listed Demo.backend "u1" "u2" "u1_faq.txt"
              "Refunds take 30 days." (Demo.empty_world Demo.backend)
              (fun d => eq_refl))
    as (w1 & w2 & doc & Hsave & Hlist & _ & _ & Hcontent & _).
  exists w1, w2, doc. split; [exact Hsave |]. split; [exact Hlist | exact Hcontent].
Defined.

(** ** Sessions *)

Lemma create_session_run (B : Backend) (user_id : string) (w : World B) :
  create_session B (Some (CLIENT_SECRET_KEY B)) user_id w
  = (Success (JObj [ ("session_id", JStr (uuid4 B (uuid_next w)));
                     ("user_id", JStr user_id);
                     ("created_at", JStr (isoformat B (clock B (S (ticks w)))));
                     ("status", JStr "active") ]),
     tick B (tick B (drew B 1 (tick B w)))).
Proof.
  unfold create_session, Depends_verify_client_secret, verify_client_secret.
  rewrite String.eqb_refl. cbn [negb].
  rewrite endpoint_run, bind_run, new_uuid_run. cbv beta iota.
  rewrite bind_run, time_time_run. cbv beta iota. rewrite ret_run. reflexivity.
Qed.

(** X19.  [/create-session] hands out an identifier and persists nothing:
    with the right secret it answers 200 with the keys session_id,
    user_id, created_at, status, the status being "active" and the user_id
    the one sent; no collection, no index and no call is touched, only an
    identifier is drawn.  The next call gets a different session_id as long
    as identifiers do not repeat.  Without the header nothing is drawn. *)
Theorem create_session_persists_nothing (B : Backend) (user_id next_user : string)
    (w : World B) :
  let out := create_session B (Some (CLIENT_SECRET_KEY B)) user_id w in
  let again := create_session B (Some (CLIENT_SECRET_KEY B)) next_user (snd out) in
  (exists body,
      fst out = Success body /\
      json_keys body = ["session_id"; "user_id"; "created_at"; "status"] /\
      json_get "session_id" body = Some (JStr (uuid4 B (uuid_next w))) /\
      json_get "user_id" body = Some (JStr user_id) /\
      json_get "status" body = Some (JStr "active")) /\
  docs_collection (snd out) = docs_collection w /\
  chat_collection (snd out) = chat_collection w /\
  qdrant_points (snd out) = qdrant_points w /\
  trace (snd out) = trace w /\
  uuid_next (snd out) = S (uuid_next w) /\
  (uuid4_distinct B ->
   (response_body (fst again) ≫= json_get "session_id")
   <> (response_body (fst out) ≫= json_get "session_id")) /\
  create_session B None user_id w
  = (RequestValidationError ["header"; "X-Client-Secret"], w).
Proof.
  intros out again. subst again out. rewrite !create_session_run.
  cbn [fst snd tick drew docs_collection chat_collection qdrant_points trace uuid_next].
  split; [eexists; repeat split; reflexivity |].
  repeat split; try reflexivity; [lia |].
  intros Hinj Heq. cbn in Heq. injection Heq as Heq.
  apply Hinj in Heq. lia.
Qed.

Lemma create_session_persists_nothing_witness :
  (response_body (fst (create_session Demo.backend (Some "s3cret") "u2"
     (snd (create_session Demo.backend (Some "s3cret") "u1"
             (Demo.empty_world Demo.backend))))) ≫= json_get "session_id")
  <> (response_body (fst (create_session Demo.backend (Some "s3cret") "u1"
        (Demo.empty_world Demo.backend))) ≫= json_get "session_id").
Proof.
  apply (create_session_persists_nothing Demo.backend "u1" "u2"
           (Demo.empty_world Demo.backend)).
  apply demo_uuid4_distinct. reflexivity.
Defined.

(** ** Storing no chunk *)

(** X20.  With no text at all, [store_chunks] sends nothing to the
    embedding endpoint and draws no identifier; it still calls upsert,
    with an empty batch, and the index holds what it held. *)
Theorem store_chunks_of_nothing (B : Backend) (metadatas : list (gmap string string))
    (w : World B) :
  qdrant_fault B OpUpsert = None ->
  qdrant_fault B OpGetCollection = None ->
  exists w',
    store_chunks B [] metadatas w = (inr tt, w') /\
    qdrant_points w' = qdrant_points w /\
    uuid_next w' = uuid_next w /\
    trace w' = trace w ++ [EvQdrant OpUpsert; EvQdrant OpGetCollection].
Proof.
  intros Hupsert Hinfo.
  assert (E : embed_texts B [] (tick B (tick B w))
              = (inr [], tick B (tick B (tick B w)))) by reflexivity.
  assert (Hb : build_points B [] metadatas 0 []
                 (tick B (tick B (tick B (tick B (tick B w)))))
               = (inr [], tick B (tick B (tick B (tick B (tick B w)))))) by reflexivity.
  rewrite (store_chunks_ok B [] metadatas [] [] w _ _ E Hb Hupsert Hinfo).
  eexists. split; [reflexivity |]. repeat split; try reflexivity.
  cbn. rewrite <- app_assoc. reflexivity.
Qed.

Lemma store_chunks_of_nothing_witness :
  exists w',
    store_chunks Demo.backend [] [] Demo.index_world = (inr tt, w') /\
    qdrant_points w' = qdrant_points Demo.index_world.
Proof.
  destruct (store_chunks_of_nothing Demo.backend [] Demo.index_world eq_refl eq_refl)
    as (w' & Hrun & Hpts & _).
  exists w'. split; [exact Hrun | exact Hpts].
Defined.

(** ** Reranking *)

Lemma py_index_inr {A} (l : list A) (i : Z) (x : A) :
  py_index l i = inr x -> x ∈ l.
Proof.
  unfold py_index. cbv zeta.
  destruct (if (if i <? 0 then Z.of_nat (length l) + i else i) <? 0
            then None
            else l !! Z.to_nat (if i <? 0 then Z.of_nat (length l) + i else i))
    as [y |] eqn:E; [| discriminate].
  intros H. injection H as <-.
  destruct ((if i <? 0 then Z.of_nat (length l) + i else i) <? 0); [discriminate |].
  eapply list_elem_of_lookup_2, E.
Qed.

Lemma py_index_in_range {A} (l : list A) (i : Z) :
  - Z.of_nat (length l) <= i < Z.of_nat (length l) ->
  exists x, py_index l i = inr x.
Proof.
  intros Hi. unfold py_index. cbv zeta.
  set (j := if i <? 0 then Z.of_nat (length l) + i else i).
  assert (Hj : 0 <= j < Z.of_nat (length l)).
  { subst j. destruct (i <? 0) eqn:E; [apply Z.ltb_lt in E | apply Z.ltb_ge in E]; lia. }
  destruct (j <? 0) eqn:E; [apply Z.ltb_lt in E; lia |].
  destruct (lookup_lt_is_Some_2 l (Z.to_nat j)) as [x Hx]; [lia |].
  rewrite Hx. exists x. reflexivity.
Qed.

Lemma item_text_inr (texts : list string) (item : RerankItem) (text : string) :
  item_text texts item = inr text -> text ∈ texts.
Proof.
  unfold item_text. destruct (item_index item); [| discriminate | discriminate].
  apply py_index_inr.
Qed.

Lemma item_text_in_range (texts : list string) (item : RerankItem) :
  index_in_range (length texts) item ->
  exists text, item_text texts item = inr text.
Proof.
  unfold index_in_range, item_text.
  destruct (item_index item); [apply py_index_in_range | contradiction | contradiction].
Qed.

Lemma item_text_inl (texts : list string) (item : RerankItem) (e : PyExc) :
  item_text texts item = inl e ->
  ~ index_in_range (length texts) item /\ exc_class e = index_error item.
Proof.
  intros H. split.
  - intros Hrange. destruct (item_text_in_range texts item Hrange) as [text Ht].
    rewrite Ht in H. discriminate H.
  - revert H. unfold item_text, index_error, py_index. cbv zeta.
    destruct (item_index item).
    + match goal with
      | |- context [match ?o with Some x => inr x | None => _ end] => destruct o
      end; [discriminate |]. intros H. injection H as <-. reflexivity.
    + intros H. injection H as <-. reflexivity.
    + intros H. injection H as <-. reflexivity.
Qed.

Lemma pick_texts_inr (texts : list string) (items : list RerankItem) :
  forall picked,
    pick_texts texts items = inr picked ->
    length picked = length items /\ forall t, t ∈ picked -> t ∈ texts.
Proof.
  induction items as [|item items IH]; intros picked H.
  - injection H as <-. split; [reflexivity |]. intros t Ht. inversion Ht.
  - cbn [pick_texts] in H.
    destruct (item_text texts item) as [e | text] eqn:Ei; [discriminate |].
    destruct (pick_texts texts items) as [e | rest]; [discriminate |].
    injection H as <-. destruct (IH rest eq_refl) as [Hlen Hin].
    split; [simpl; rewrite Hlen; reflexivity |].
    intros t Ht. apply elem_of_cons in Ht as [-> | Ht].
    + exact (item_text_inr _ _ _ Ei).
    + exact (Hin t Ht).
Qed.

Lemma pick_texts_in_range (texts : list string) (items : list RerankItem) :
  Forall (index_in_range (length texts)) items ->
  exists picked, pick_texts texts items = inr picked.
Proof.
  induction 1 as [|item items Hitem _ [rest IH]]; [exists []; reflexivity |].
  destruct (item_text_in_range texts item Hitem) as [text Ht].
  exists (text :: rest). cbn [pick_texts]. rewrite Ht, IH. reflexivity.
Qed.

Lemma pick_texts_inl (texts : list string) (items : list RerankItem) (e : PyExc) :
  pick_texts texts items = inl e ->
  exists item, item ∈ items /\ item_text texts item = inl e.
Proof.
  induction items as [|item items IH]; [discriminate |].
  cbn [pick_texts].
  destruct (item_text texts item) as [e0 | text] eqn:Ei.
  - intros H. injection H as <-. exists item. split; [left | exact Ei].
  - destruct (pick_texts texts items) as [e' | rest]; [| discriminate].
    intros H. injection H as <-. destruct (IH eq_refl) as (it & Hin & Hit).
    exists it. split; [right; exact Hin | exact Hit].
Qed.

(** X21.  [rerank] answers from what the endpoint returns.  A status other
    than 200 raises [RuntimeError] "Rerank API failed: " and the response
    text, whatever the body.  With status 200, an exception raised while
    the body is read or sorted passes through.  Otherwise the entries are
    taken best score first and cut at [top_k], and only the entries kept
    are looked at: what is returned has one text per entry kept, at most
    [top_k], each of them one of the texts given; a reply without results
    gives the empty list; the call succeeds whenever every entry kept has
    an integer index in the range Python accepts (negative ones counting
    from the end); and when it fails, an entry kept has no such index, the
    exception being an [IndexError] for an integer out of range, a
    [KeyError] for a missing index and a [TypeError] for an index of
    another type. *)
Theorem rerank_picks_from_the_texts
    (post : string -> list string -> nat -> Exc (Z * string * RerankBody))
    (query : string) (texts : list string) (top_k : nat)
    (status_code : Z) (response_text : string) (body : RerankBody) :
  post query texts top_k = inr (status_code, response_text, body) ->
  (status_code <> 200 ->
   rerank post query texts top_k
   = inl (mkExc RuntimeError ("Rerank API failed: " +:+ response_text))) /\
  (status_code = 200 ->
   (forall e, body = BodyRaises e -> rerank post query texts top_k = inl e) /\
   (forall results, body = BodyResults results ->
      let kept := firstn top_k (sort_desc relevance_score (default [] results)) in
      rerank post query texts top_k = pick_texts texts kept /\
      StronglySorted (fun a b => relevance_score b <= relevance_score a) kept /\
      (forall picked, rerank post query texts top_k = inr picked ->
         length picked = Nat.min top_k (length (default [] results)) /\
         (length picked <= top_k)%nat /\
         forall t, t ∈ picked -> t ∈ texts) /\
      (results = None -> rerank post query texts top_k = inr []) /\
      (Forall (index_in_range (length texts)) kept ->
       exists picked, rerank post query texts top_k = inr picked) /\
      (forall e, rerank post query texts top_k = inl e ->
         exists item,
           item ∈ kept /\ ~ index_in_range (length texts) item /\
           exc_class e = index_error item))).
Proof.
  intros Hpost. unfold rerank. rewrite Hpost. split.
  - intros Hs. apply Z.eqb_neq in Hs. rewrite Hs. reflexivity.
  - intros ->. change (negb (200 =? 200)) with false. cbv iota.
    split; [intros e ->; reflexivity |].
    intros results ->. cbv zeta.
    set (kept := firstn top_k (sort_desc relevance_score (default [] results))).
    split; [reflexivity |]. split; [| split; [| split; [| split]]].
    + subst kept.
      pose proof (sort_desc_sorted relevance_score (default [] results)) as Hs.
      rewrite <- (firstn_skipn top_k (sort_desc relevance_score (default [] results))) in Hs.
      exact (StronglySorted_app_1_l _ _ _ Hs).
    + intros picked Hp. destruct (pick_texts_inr texts kept picked Hp) as [Hlen Hin].
      assert (Hk : length kept = Nat.min top_k (length (default [] results))).
      { subst kept. rewrite length_firstn.
        rewrite (Permutation_length (sort_desc_perm _ _)). reflexivity. }
      split; [congruence |]. split; [lia | exact Hin].
    + intros ->. subst kept. destruct top_k; reflexivity.
    + apply pick_texts_in_range.
    + intros e He. destruct (pick_texts_inl texts kept e He) as (item & Hin & Hit).
      exists item. split; [exact Hin |]. exact (item_text_inl texts item e Hit).
Qed.

Lemma rerank_picks_from_the_texts_witness :
  rerank Samples.rerank_post "refund" ["alpha"; "beta"; "gamma"] 2 = inr ["gamma"; "alpha"].
Proof.
  destruct (rerank_picks_from_the_texts Samples.rerank_post "refund"
              ["alpha"; "beta"; "gamma"] 2 200 EmptyString
              (BodyResults (Some Samples.rerank_results)) eq_refl) as [_ Hok].
  destruct (Hok eq_refl) as (_ & Hres).
  destruct (Hres (Some Samples.rerank_results) eq_refl) as (Hrun & _).
  rewrite Hrun. reflexivity.
Defined.

(** ** A refused generation request *)

Lemma prompt_always_renders (printable : N -> bool)
    (chat_history context : list string) (query : string) :
  exists prompt,
    CONTEXT_PROMPT_format printable chat_history context query = inr prompt.
Proof.
  unfold CONTEXT_PROMPT_format.
  generalize (py_str_list printable chat_history) (py_str_list printable context).
  intros h c. eexists. vm_compute. reflexivity.
Qed.

Lemma predict_flow_refused (B : Backend) (query session_id user_id qreply text : string)
    (qv : Vector B) (qvs : list (Vector B)) (status_code : Z) (w : World B) :
  embedding_post B (InputText query) = inr (200, qreply, qv :: qvs) ->
  (forall op, qdrant_fault B op = None) ->
  mongo_fault B (OpFind session_id) = None ->
  (forall prompt, llm_post B prompt = LlmHttpError status_code text) ->
  exists w',
    predict_flow B query session_id user_id w
    = (inl (flow_error
              (mkExc RAGAPIError
                 ("API Error " +:+ Z_to_string status_code +:+ ": Request failed"))),
       w').
Proof.
  intros Hq Hup Hfind Hllm. unfold predict_flow.
  run_step. rewrite try_except_run. run_step.
  destruct (retrieve_ok B query qreply qv qvs 5 (tick B (tick B w))
              Hq (Hup _) (Hup _) (Hup _)) as (w2 & Hret & _).
  rewrite bind_run, Hret. cbv beta iota.
  do 2 run_step.
  rewrite bind_run, get_chat_history_run, Hfind. cbv beta iota.
  do 2 run_step.
  match goal with
  | |- context [CONTEXT_PROMPT_format ?pr ?h ?c ?q] =>
      destruct (prompt_always_renders pr h c q) as [prompt Hprompt]
  end.
  rewrite bind_run, lift_exc_run, Hprompt. cbv beta iota.
  do 2 run_step.
  rewrite bind_run, chat_run, Hllm. cbv beta iota.
  run_step. eexists. reflexivity.
Qed.

(** X22.  When the generation endpoint answers every request with an HTTP
    error status, a query that got through retrieval and history ends as a
    500 whose detail is "Prediction failed: Error in predict_flow: API
    Error <status>: Request failed": the status is reported, the response
    text of the endpoint is not.  No turn is written and no write is
    requested. *)
Theorem refused_generation_reaches_the_caller (B : Backend) (req : PredictRequest)
    (qreply text : string) (qv : Vector B) (qvs : list (Vector B))
    (status_code : Z) (w : World B) :
  embedding_post B (InputText (query req)) = inr (200, qreply, qv :: qvs) ->
  (forall op, qdrant_fault B op = None) ->
  mongo_fault B (OpFind (session_id req)) = None ->
  (forall prompt, llm_post B prompt = LlmHttpError status_code text) ->
  exists w',
    predict B (Some (CLIENT_SECRET_KEY B)) req w
    = (HTTPException 500
         ("Prediction failed: " +:+ "Error in predict_flow: " +:+
          "API Error " +:+ Z_to_string status_code +:+ ": Request failed"), w') /\
    chat_collection w' = chat_collection w /\
    docs_collection w' = docs_collection w /\
    qdrant_points w' = qdrant_points w /\
    chat_inserts (trace w') = chat_inserts (trace w).
Proof.
  intros Hq Hup Hfind Hllm.
  destruct (predict_flow_refused B (query req) (session_id req) (user_id req)
              qreply text qv qvs status_code (started B w) Hq Hup Hfind Hllm)
    as (w1 & Hrun).
  pose proof (predict_flow_outcome B (query req) (session_id req) (user_id req)
                (started B w)) as Hout.
  rewrite Hrun in Hout.
  assert (Q : quiet B (started B w) w1).
  { inversion Hout as [e w0 Q | e w0 chunks hist prompt resp ts doc G | ]; subst.
    - exact Q.
    - destruct G as (w2 & w4 & body & _ & _ & _ & Hpost & _).
      rewrite Hllm in Hpost. discriminate Hpost. }
  rewrite predict_accepted, Hrun, (Hup OpOpen).
  eexists. split; [reflexivity |].
  destruct Q as [Hd Hc Hp _ [evs [Ht Hr]]].
  cbn [tick chat_collection docs_collection qdrant_points trace].
  split; [exact Hc |]. split; [exact Hd |]. split; [exact Hp |].
  rewrite Ht. unfold started, traced. cbn [trace].
  rewrite !chat_inserts_app, (chat_inserts_reads evs Hr).
  change (chat_inserts [EvQdrant OpOpen]) with 0%nat.
  cbn [tick trace]. lia.
Qed.

Lemma refused_generation_reaches_the_caller_witness :
  fst (predict Demo.backend_rate_limited (Some "s3cret") Demo.request
         (Demo.empty_world Demo.backend_rate_limited))
  = HTTPException 500
      "Prediction failed: Error in predict_flow: API Error 429: Request failed".
Proof.
  destruct (refused_generation_reaches_the_caller Demo.backend_rate_limited
              Demo.request EmptyString "rate limited" 26 [] 429
              (Demo.empty_world Demo.backend_rate_limited))
    as (w' & Hrun & _).
  - reflexivity.
  - reflexivity.
  - reflexivity.
  - reflexivity.
  - exact (f_equal fst Hrun).
Defined.
